(** * network-mapper: discovery, probing and classification pipeline

    A shallow embedding of the scan engine of the repository
    ([network_mapper.py], [src/scanner.py], [src/device_classifier.py],
    [src/protocol_analyzer.py], [src/config.py]) together with the
    properties stated about it.

    Conventions of the embedding.
    - Python [int] is [Z]; Python [str] is [string], read as a sequence of
      code points below 256 (Latin-1), which is exact for the host names and
      command output the program handles.
    - A Python function that may raise returns [result A]; [try/except
      Exception] is [try_except].
    - Everything outside the process (the nmap client, sockets, the ping
      and arp utilities, reverse DNS, the [ipaddress] library, the vendor
      lookup) is an observation of a [world] record; the program is a
      function of that record, each observation being taken as stable for
      the duration of a run.
    - A [dict] whose iteration order matters is an association list kept in
      insertion order, with Python's replace-or-append assignment. *)

From Stdlib Require Import ZArith List String Ascii Bool Sorted Lia.
Import ListNotations.

Local Open Scope string_scope.
Local Open Scope list_scope.
Local Open Scope Z_scope.

(* ------------------------------------------------------------------ *)
(** ** Python runtime fragments *)
(* ------------------------------------------------------------------ *)

Module Py.

(** Exceptions the pipeline can meet (all are subclasses of [Exception]). *)
Inductive exn : Type :=
| AttributeError
| KeyError
| ValueError
| OSError
| TimeoutError
| PortScannerError.

Inductive result (A : Type) : Type :=
| Ok (a : A)
| Raise (e : exn).

Arguments Ok {A} a.
Arguments Raise {A} e.

Definition bind {A B} (m : result A) (k : A -> result B) : result B :=
  match m with
  | Ok a => k a
  | Raise e => Raise e
  end.

(** [try: body  except Exception: handler] *)
Definition try_except {A} (body : result A) (handler : exn -> result A)
  : result A :=
  match body with
  | Ok a => Ok a
  | Raise e => handler e
  end.

(** Sequential [for] loop whose body may raise, collecting one value per
    iteration (the [append] of the loop body). *)
Fixpoint for_each {A B} (f : A -> result B) (xs : list A)
  : result (list B) :=
  match xs with
  | [] => Ok []
  | x :: rest =>
      bind (f x) (fun y =>
      bind (for_each f rest) (fun ys => Ok (y :: ys)))
  end.

(** [x in xs] for a list of ints and for a list of strings. *)
Definition int_in (x : Z) (xs : list Z) : bool := existsb (Z.eqb x) xs.
Definition name_in (x : string) (xs : list string) : bool :=
  existsb (String.eqb x) xs.

(** [str.lower()] on code points below 256: the ASCII capitals and the
    Latin-1 capitals 0xC0..0xDE (0xD7, the multiplication sign, is not a
    letter) move up by 32; every other code point is its own lower case. *)
Definition lower_char (c : ascii) : ascii :=
  let n := N_of_ascii c in
  if ((65 <=? n) && (n <=? 90)
      || (192 <=? n) && (n <=? 222) && negb (n =? 215))%N
  then ascii_of_N (n + 32)
  else c.

Fixpoint lower (s : string) : string :=
  match s with
  | EmptyString => EmptyString
  | String c rest => String (lower_char c) (lower rest)
  end.

(** [needle in hay] for strings: substring test. *)
Fixpoint str_in (needle hay : string) : bool :=
  if prefix needle hay then true
  else match hay with
       | EmptyString => false
       | String _ rest => str_in needle rest
       end.

(** The value stored under an optional string key of a dict: the key may
    be missing, or hold [None], or hold a string. *)
Inductive entry : Type :=
| Missing
| PyNone
| PyStr (s : string).

(** [d.get(key, default)]: the default is used only when the key is
    missing; a stored [None] is returned as it is. *)
Definition get_or (e : entry) (default : string) : option string :=
  match e with
  | Missing => Some default
  | PyNone => None
  | PyStr s => Some s
  end.

(** Method call [.lower()] on the value of [d.get(...)]: [None] has no
    such attribute. *)
Definition call_lower (v : option string) : result string :=
  match v with
  | Some s => Ok (lower s)
  | None => Raise AttributeError
  end.

(** Truth value of an [Optional[str]]. *)
Definition truthy_str (v : option string) : bool :=
  match v with
  | Some s => negb (String.eqb s "")
  | None => false
  end.

(** Truth value of an int. *)
Definition truthy_int (n : Z) : bool := negb (Z.eqb n 0).

(** [d[k] = v] on an insertion-ordered dict. *)
Fixpoint dict_set {K V} (eqb : K -> K -> bool) (d : list (K * V))
  (k : K) (v : V) : list (K * V) :=
  match d with
  | [] => [(k, v)]
  | (k', v') :: rest =>
      if eqb k' k then (k', v) :: rest
      else (k', v') :: dict_set eqb rest k v
  end.

Definition keys {K V} (d : list (K * V)) : list K := map fst d.

(** [max(items, key=lambda x: x[1])] on a non-empty sequence: the running
    best is replaced only by an item whose key is strictly greater, so the
    first maximal item is returned. *)
Fixpoint max_by_value_from {K} (best : K * Z) (items : list (K * Z))
  : K * Z :=
  match items with
  | [] => best
  | x :: rest =>
      max_by_value_from (if snd x >? snd best then x else best) rest
  end.

Definition max_by_value {K} (items : list (K * Z)) : result (K * Z) :=
  match items with
  | [] => Raise ValueError
  | x :: rest => Ok (max_by_value_from x rest)
  end.

End Py.

Import Py.

Notation "x <- m ;; k" := (bind m (fun x => k))
  (at level 61, m at next level, right associativity).

(* ------------------------------------------------------------------ *)
(** ** src/config.py *)
(* ------------------------------------------------------------------ *)

Module Config.

Record t : Type := mk {
  timeout : Z;
  max_concurrent_scans : Z;
  retry_attempts : Z;
  default_ports : list Z;
  detailed_scan_ports : list Z;
  quick_scan_ports : list Z;
  async_timeout : Z
}.

(** [list(range(lo, lo + n))] *)
Fixpoint range_from (lo : Z) (n : nat) : list Z :=
  match n with
  | O => []
  | S n' => lo :: range_from (lo + 1) n'
  end.

(** The dataclass defaults. *)
Definition default : t := {|
  timeout := 30;
  max_concurrent_scans := 10;
  retry_attempts := 3;
  default_ports :=
    [21; 22; 23; 25; 53; 80; 110; 143; 443; 993; 995;
     3306; 3389; 5432; 8080; 8443];
  detailed_scan_ports := range_from 1 1024;
  quick_scan_ports :=
    [21; 22; 23; 25; 53; 80; 110; 143; 443; 993; 995;
     3306; 3389; 5432; 8080; 8443];
  async_timeout := 10
|}.

End Config.

(* ------------------------------------------------------------------ *)
(** ** The environment *)
(* ------------------------------------------------------------------ *)

(** What the program observes outside itself. Each field is the outcome of
    one kind of external operation; [Raise] stands for the operation
    raising inside the program's [try] block. *)
Record world : Type := {
  (** [asyncio.wait_for(asyncio.open_connection(ip, port), timeout)]
      followed by closing the writer, as [open_connection ip port timeout]:
      [Ok tt] when the connection is established within the timeout,
      [Raise] when it is refused, times out or the host is unreachable. *)
  open_connection : string -> Z -> Z -> result unit;
  (** Classifier, [nmap -sS -F]: the port keys of every protocol of the
      host, in the order the loop extends the list. *)
  nmap_fast_ports : string -> result (list Z);
  (** Classifier, [nmap -sV]: the service name of every reported port. *)
  nmap_service_names : string -> result (list string);
  (** Classifier, [nmap -O]: the name of the first OS match, if any. *)
  nmap_os_match : string -> result (option string);
  (** [ping -c 1 ip] with captured output: return code and decoded
      standard output. *)
  ping_output : string -> result (Z * string);
  (** Scanner, [nmap -sn -n target]: every host with its state. *)
  nmap_host_states : string -> result (list (string * string));
  (** The system ARP table as read by [_get_all_mac_addresses]. *)
  arp_table : string -> option string;
  (** [socket.gethostbyaddr(ip)[0]] *)
  gethostbyaddr : string -> result string;
  (** [ipaddress.ip_network(target, strict=False).hosts()], each address
      printed with [str]. *)
  ip_network_hosts : string -> result (list string);
  (** Return code of the silent [ping -c 1 -W 1 ip] of the sweep. *)
  ping_returncode : string -> result Z;
  (** Scanner, [nmap -sS -sV -O -p-]: the (port, service name) pairs in
      the order the loop stores them. *)
  nmap_service_scan : string -> result (list (Z * string));
  (** Elapsed time of a successful connection to port 80 (microseconds). *)
  connect_elapsed : string -> Z;
  (** Protocol probe on one port: the connection succeeds, the probe is
      sent and one of the protocol's patterns occurs in the reply. *)
  probe_matches : string -> string -> Z -> bool;
  (** [MACLookup.get_manufacturer(mac)] (its module is not part of the
      sources at hand; it is left as an observation). *)
  get_manufacturer : string -> result (option string)
}.

(** A discovered host: the dict built by host discovery. *)
Module Device.

Record t : Type := mk {
  ip : string;
  mac : option string;
  hostname : entry;
  state : string
}.

End Device.

(** [asyncio.gather] with [return_exceptions=True]: the outcome of every
    task, in task order; an exception is an outcome, not a failure. *)
Definition gather {A} (tasks : list (result A)) : list (result A) := tasks.

(** The collecting loop shared by the port checks:
    [for result in results:
       if result and isinstance(result, int): open_ports.append(result)] *)
Definition append_open (open_ports : list Z) (outcome : result (option Z))
  : list Z :=
  match outcome with
  | Ok (Some port) =>
      if truthy_int port then open_ports ++ [port] else open_ports
  | Ok None => open_ports
  | Raise _ => open_ports
  end.

(** The nested coroutine [check_port] of the port checks: the port when the
    connection is established and closed, [None] on any exception. *)
Definition check_port (w : world) (ip : string) (timeout : Z) (port : Z)
  : result (option Z) :=
  try_except
    (_ <- open_connection w ip port timeout ;; Ok (Some port))
    (fun _ => Ok None).

(* ------------------------------------------------------------------ *)
(** ** src/device_classifier.py *)
(* ------------------------------------------------------------------ *)

Module DeviceClassifier.

Record pattern : Type := mk_pattern {
  ports : list Z;
  services : list string;
  patterns : list string;
  priority : Z
}.

(** The registry, in the order of the dict literal. *)
Definition _load_device_patterns : list (string * pattern) :=
  [ ("router",
     mk_pattern [80; 443; 22; 23]
                ["http"; "https"; "ssh"; "telnet"]
                ["router"; "gateway"; "cisco"; "juniper"; "fortinet"] 1);
    ("switch",
     mk_pattern [22; 23; 80; 443]
                ["ssh"; "telnet"; "http"; "https"]
                ["switch"; "catalyst"; "nexus"] 2);
    ("server",
     mk_pattern [22; 80; 443; 3306; 5432; 27017]
                ["ssh"; "http"; "https"; "mysql"; "postgresql"; "mongodb"]
                ["server"; "apache"; "nginx"; "mysql"; "postgresql"] 3);
    ("printer",
     mk_pattern [80; 443; 631; 9100]
                ["http"; "https"; "ipp"; "printer"]
                ["printer"; "hp"; "canon"; "epson"; "brother"] 4);
    ("camera",
     mk_pattern [80; 443; 554; 8000]
                ["http"; "https"; "rtsp"]
                ["camera"; "ipcam"; "dvr"; "nvr"] 5);
    ("iot",
     mk_pattern [80; 443; 1883; 8883]
                ["http"; "https"; "mqtt"]
                ["iot"; "smart"; "home"; "automation"] 6);
    ("mobile",
     mk_pattern [80; 443]
                ["http"; "https"]
                ["mobile"; "android"; "ios"; "phone"] 7);
    ("workstation",
     mk_pattern [22; 80; 443; 3389]
                ["ssh"; "http"; "https"; "rdp"]
                ["windows"; "linux"; "mac"; "desktop"] 8) ].

Definition device_patterns : list (string * pattern) :=
  _load_device_patterns.

Definition _quick_port_check (w : world) (ip : string) (ports : list Z)
  : result (list Z) :=
  let tasks := map (check_port w ip 2) ports in
  let results := gather tasks in
  Ok (fold_left append_open results []).

Definition _get_open_ports (w : world) (ip : string) : result (list Z) :=
  try_except
    (nmap_fast_ports w ip)
    (fun _ =>
       let common_ports :=
         [21; 22; 23; 25; 53; 80; 110; 143; 443; 993; 995;
          3306; 3389; 5432; 8080] in
       _quick_port_check w ip common_ports).

(** The scan call is what may raise, before anything is appended; the
    handler then leaves the list empty. *)
Definition _get_services (w : world) (ip : string) : result (list string) :=
  try_except (nmap_service_names w ip) (fun _ => Ok []).

(** One iteration of the scoring loop, up to the assignment
    [device_score[device_type] = score]. *)
Definition score_pattern (open_ports : list Z) (services_found : list string)
  (device : Device.t) (pat : pattern) : result Z :=
  let score := 0 in
  let score :=
    fold_left (fun score port =>
                 if int_in port (ports pat) then score + 2 else score)
              open_ports score in
  let score :=
    fold_left (fun score service =>
                 if name_in service (services pat) then score + 3 else score)
              services_found score in
  hostname <- call_lower (get_or (Device.hostname device) "") ;;
  let score :=
    fold_left (fun score pattern_str =>
                 if str_in pattern_str hostname then score + 5 else score)
              (patterns pat) score in
  Ok score.

(** The scoring loop over the registry. *)
Fixpoint score_loop (open_ports : list Z) (services_found : list string)
  (device : Device.t) (items : list (string * pattern))
  (device_score : list (string * Z)) : result (list (string * Z)) :=
  match items with
  | [] => Ok device_score
  | (device_type, pat) :: rest =>
      score <- score_pattern open_ports services_found device pat ;;
      score_loop open_ports services_found device rest
                 (dict_set String.eqb device_score device_type score)
  end.

(** The table [device_score] at the end of the loop. *)
Definition device_scores (w : world) (device : Device.t)
  : result (list (string * Z)) :=
  let ip := Device.ip device in
  open_ports <- _get_open_ports w ip ;;
  services_found <- _get_services w ip ;;
  score_loop open_ports services_found device device_patterns [].

Definition classify_device (w : world) (device : Device.t) : result string :=
  device_score <- device_scores w device ;;
  match device_score with
  | [] => Ok "unknown"
  | _ :: _ =>
      best_match <- max_by_value device_score ;;
      if snd best_match >? 0 then Ok (fst best_match) else Ok "unknown"
  end.

Definition quick_classify (w : world) (device : Device.t) : result string :=
  let ip := Device.ip device in
  let common_ports := [22; 23; 80; 443; 3389; 9100] in
  open_ports <- _quick_port_check w ip common_ports ;;
  if int_in 9100 open_ports then Ok "printer"
  else if int_in 3389 open_ports then Ok "workstation"
  else if int_in 22 open_ports && int_in 80 open_ports then Ok "server"
  else if int_in 80 open_ports || int_in 443 open_ports then Ok "device"
  else Ok "unknown".

(** *** TTL fallback *)

Definition is_digit (c : ascii) : bool :=
  ((48 <=? N_of_ascii c) && (N_of_ascii c <=? 57))%N.

(** The longest run of decimal digits at the head of the text. *)
Fixpoint digits_prefix (s : string) : string :=
  match s with
  | EmptyString => EmptyString
  | String c rest =>
      if is_digit c then String c (digits_prefix rest) else EmptyString
  end.

(** [int(text)] for a string of decimal digits. *)
Fixpoint int_of_digits (acc : Z) (s : string) : Z :=
  match s with
  | EmptyString => acc
  | String c rest =>
      int_of_digits (10 * acc + (Z.of_N (N_of_ascii c) - 48)) rest
  end.

(** A literal matched at the head of the text without regard to case; the
    rest of the text on success. *)
Fixpoint match_literal (literal s : string) : option string :=
  match literal with
  | EmptyString => Some s
  | String a literal' =>
      match s with
      | EmptyString => None
      | String b s' =>
          if Ascii.eqb (lower_char a) (lower_char b)
          then match_literal literal' s'
          else None
      end
  end.

(** [re.search(literal + r'(\d+)', s, re.IGNORECASE).group(1)]: group 1 of
    the leftmost match, the digit run being greedy. *)
Fixpoint re_search_digits (literal s : string) : option string :=
  let here :=
    match match_literal literal s with
    | Some rest =>
        match digits_prefix rest with
        | EmptyString => None
        | String c ds => Some (String c ds)
        end
    | None => None
    end in
  match here with
  | Some group => Some group
  | None =>
      match s with
      | EmptyString => None
      | String _ s' => re_search_digits literal s'
      end
  end.

(** The literal part of each TTL pattern, each followed by [(\d+)]. *)
Definition ttl_patterns : list string :=
  ["ttl="; "TTL="; "Time to live="].

Definition classify_ttl (ttl : Z) : string :=
  if ttl <=? 64 then "Linux/macOS"
  else if ttl <=? 128 then "Windows"
  else if ttl <=? 255 then "Network Device"
  else "Unknown".

(** The loop over the patterns: the first pattern that matches decides. *)
Fixpoint ttl_loop (pats : list string) (output : string) : option string :=
  match pats with
  | [] => None
  | pat :: rest =>
      match re_search_digits pat output with
      | Some group =>
          let ttl := int_of_digits 0 group in
          Some (classify_ttl ttl)
      | None => ttl_loop rest output
      end
  end.

(** The TTL read from a ping output, when one of the patterns matches. *)
Fixpoint parsed_ttl (pats : list string) (output : string) : option Z :=
  match pats with
  | [] => None
  | pat :: rest =>
      match re_search_digits pat output with
      | Some group => Some (int_of_digits 0 group)
      | None => parsed_ttl rest output
      end
  end.

Definition _detect_os_by_ttl (w : world) (ip : string)
  : result (option string) :=
  try_except
    (reply <- ping_output w ip ;;
     let returncode := fst reply in
     let output := snd reply in
     if returncode =? 0 then Ok (ttl_loop ttl_patterns output)
     else Ok None)
    (fun _ => Ok None).

Definition detect_os (w : world) (device : Device.t)
  : result (option string) :=
  let ip := Device.ip device in
  match nmap_os_match w ip with
  | Ok (Some name) => Ok (Some name)
  | Ok None => _detect_os_by_ttl w ip
  | Raise _ => _detect_os_by_ttl w ip
  end.

End DeviceClassifier.

(* ------------------------------------------------------------------ *)
(** ** src/scanner.py *)
(* ------------------------------------------------------------------ *)

Module NetworkScanner.

Definition _get_hostname (w : world) (ip : string) : entry :=
  match gethostbyaddr w ip with
  | Ok hostname => PyStr hostname
  | Raise _ => PyNone
  end.

(** The nested coroutine [ping_host] of the sweep. *)
Definition ping_host (w : world) (ip : string) : result (option Device.t) :=
  try_except
    (returncode <- ping_returncode w ip ;;
     if returncode =? 0
     then Ok (Some (Device.mk ip None PyNone "up"))
     else Ok None)
    (fun _ => Ok None).

(** [for result in results:
       if result and isinstance(result, dict): devices.append(result)] *)
Definition append_device (devices : list Device.t)
  (outcome : result (option Device.t)) : list Device.t :=
  match outcome with
  | Ok (Some device) => devices ++ [device]
  | Ok None => devices
  | Raise _ => devices
  end.

Definition _ping_discovery (w : world) (target : string)
  : result (list Device.t) :=
  hosts <- ip_network_hosts w target ;;
  let tasks := map (ping_host w) hosts in
  let results := gather tasks in
  Ok (fold_left append_device results []).

(** The loop of the primary technique over [self.nm.all_hosts()]. *)
Definition append_up_host (w : world) (devices : list Device.t)
  (host_state : string * string) : list Device.t :=
  let host := fst host_state in
  if String.eqb (snd host_state) "up"
  then devices ++ [Device.mk host (arp_table w host) (_get_hostname w host) "up"]
  else devices.

Definition discover_devices (w : world) (target : string)
  : result (list Device.t) :=
  try_except
    (hosts <- nmap_host_states w target ;;
     Ok (fold_left (append_up_host w) hosts []))
    (fun _ => _ping_discovery w target).

Definition common_services : list (Z * string) :=
  [ (21, "ftp"); (22, "ssh"); (23, "telnet"); (25, "smtp"); (53, "dns");
    (80, "http"); (110, "pop3"); (143, "imap"); (443, "https");
    (993, "imaps"); (995, "pop3s"); (3306, "mysql"); (3389, "rdp");
    (5432, "postgresql"); (8080, "http-proxy"); (8443, "https-alt") ].

(** [common_services.get(port, 'unknown')] *)
Fixpoint service_name (table : list (Z * string)) (port : Z) : string :=
  match table with
  | [] => "unknown"
  | (p, name) :: rest => if p =? port then name else service_name rest port
  end.

(** The nested coroutine [check_port] of the basic scan. *)
Definition check_service_port (w : world) (cfg : Config.t) (ip : string)
  (port : Z) : result (option (Z * string)) :=
  try_except
    (_ <- open_connection w ip port (Config.async_timeout cfg) ;;
     Ok (Some (port, service_name common_services port)))
    (fun _ => Ok None).

(** [for result in results:
       if result and isinstance(result, tuple):
           port, service = result; services[port] = service] *)
Definition store_service (services : list (Z * string))
  (outcome : result (option (Z * string))) : list (Z * string) :=
  match outcome with
  | Ok (Some (port, service)) => dict_set Z.eqb services port service
  | Ok None => services
  | Raise _ => services
  end.

Definition _basic_port_scan (w : world) (cfg : Config.t) (ip : string)
  : result (list (Z * string)) :=
  let tasks := map (check_service_port w cfg ip) (keys common_services) in
  let results := gather tasks in
  Ok (fold_left store_service results []).

Definition scan_services (w : world) (cfg : Config.t) (ip : string)
  : result (list (Z * string)) :=
  try_except
    (found <- nmap_service_scan w ip ;;
     Ok (fold_left (fun services port_name =>
                      dict_set Z.eqb services (fst port_name) (snd port_name))
                   found []))
    (fun _ => _basic_port_scan w cfg ip).

Definition quick_port_scan (w : world) (ip : string) (ports : list Z)
  : result (list Z) :=
  let tasks := map (check_port w ip 2) ports in
  let results := gather tasks in
  Ok (fold_left append_open results []).

(** Only the ['response_time'] entry of the returned dict is read by the
    caller; the netstat part sits in its own [try] and cannot raise. *)
Definition analyze_connections (w : world) (cfg : Config.t) (ip : string)
  : result (option Z) :=
  try_except
    (_ <- open_connection w ip 80 (Config.async_timeout cfg) ;;
     Ok (Some (connect_elapsed w ip)))
    (fun _ => Ok None).

End NetworkScanner.

(* ------------------------------------------------------------------ *)
(** ** src/protocol_analyzer.py *)
(* ------------------------------------------------------------------ *)

Module ProtocolAnalyzer.

(** Key, candidate ports and display name of each signature. *)
Definition protocol_patterns : list (string * (list Z * string)) :=
  [ ("http", ([80; 8080; 8443], "HTTP"));
    ("https", ([443; 8443], "HTTPS"));
    ("ssh", ([22], "SSH"));
    ("ftp", ([21], "FTP"));
    ("smtp", ([25; 587], "SMTP"));
    ("pop3", ([110; 995], "POP3"));
    ("imap", ([143; 993], "IMAP"));
    ("dns", ([53], "DNS"));
    ("mysql", ([3306], "MySQL"));
    ("postgresql", ([5432], "PostgreSQL"));
    ("rdp", ([3389], "RDP")) ].

(** Every failure on a port is swallowed and the next port is tried. *)
Definition _test_protocol (w : world) (ip : string) (protocol : string)
  (ports : list Z) : bool :=
  existsb (probe_matches w ip protocol) ports.

Definition app_protocols : list (Z * string) :=
  [ (8080, "HTTP-Proxy"); (8443, "HTTPS-Alt"); (8888, "HTTP-Alt");
    (9000, "Jenkins"); (9090, "HTTP-Alt"); (27017, "MongoDB");
    (6379, "Redis"); (11211, "Memcached"); (5672, "AMQP");
    (1883, "MQTT"); (8883, "MQTT-SSL") ].

Definition _detect_additional_protocols (w : world) (ip : string)
  : list string :=
  fold_left (fun additional port_name =>
               match open_connection w ip (fst port_name) 2 with
               | Ok _ => additional ++ [snd port_name]
               | Raise _ => additional
               end)
            app_protocols [].

(** [list(set(protocols))]: the distinct names; Python leaves their order
    unspecified, here each name keeps the place of its last occurrence. *)
Definition analyze_device (w : world) (ip : string) : result (list string) :=
  let protocols :=
    fold_left (fun protocols entry =>
                 if _test_protocol w ip (fst entry) (fst (snd entry))
                 then protocols ++ [snd (snd entry)]
                 else protocols)
              protocol_patterns [] in
  let protocols := protocols ++ _detect_additional_protocols w ip in
  Ok (nodup string_dec protocols).

End ProtocolAnalyzer.

(* ------------------------------------------------------------------ *)
(** ** network_mapper.py *)
(* ------------------------------------------------------------------ *)

Module NetworkMapper.

Record ScanResult : Type := mk_result {
  ip_address : string;
  mac_address : option string;
  hostname : option string;
  manufacturer : option string;
  device_type : option string;
  operating_system : option string;
  open_ports : list Z;
  services : list (Z * string);
  protocols : list string;
  response_time : option Z;
  last_seen : option Z;
  scan_mode : string
}.

(** [ScanResult(ip_address=..., mac_address=..., scan_mode=...)]: every
    other field takes its default, and [__post_init__] replaces the [None]
    containers by empty ones. *)
Definition new_result (ip : string) (mac : option string) (mode : string)
  : ScanResult :=
  mk_result ip mac None None None None [] [] [] None None mode.

Definition set_manufacturer (r : ScanResult) (v : option string) :=
  mk_result (ip_address r) (mac_address r) (hostname r) v (device_type r)
            (operating_system r) (open_ports r) (services r) (protocols r)
            (response_time r) (last_seen r) (scan_mode r).

Definition set_device_type (r : ScanResult) (v : option string) :=
  mk_result (ip_address r) (mac_address r) (hostname r) (manufacturer r) v
            (operating_system r) (open_ports r) (services r) (protocols r)
            (response_time r) (last_seen r) (scan_mode r).

Definition set_operating_system (r : ScanResult) (v : option string) :=
  mk_result (ip_address r) (mac_address r) (hostname r) (manufacturer r)
            (device_type r) v (open_ports r) (services r) (protocols r)
            (response_time r) (last_seen r) (scan_mode r).

Definition set_open_ports (r : ScanResult) (v : list Z) :=
  mk_result (ip_address r) (mac_address r) (hostname r) (manufacturer r)
            (device_type r) (operating_system r) v (services r) (protocols r)
            (response_time r) (last_seen r) (scan_mode r).

Definition set_services (r : ScanResult) (v : list (Z * string)) :=
  mk_result (ip_address r) (mac_address r) (hostname r) (manufacturer r)
            (device_type r) (operating_system r) (open_ports r) v (protocols r)
            (response_time r) (last_seen r) (scan_mode r).

Definition set_protocols (r : ScanResult) (v : list string) :=
  mk_result (ip_address r) (mac_address r) (hostname r) (manufacturer r)
            (device_type r) (operating_system r) (open_ports r) (services r) v
            (response_time r) (last_seen r) (scan_mode r).

Definition set_response_time (r : ScanResult) (v : option Z) :=
  mk_result (ip_address r) (mac_address r) (hostname r) (manufacturer r)
            (device_type r) (operating_system r) (open_ports r) (services r)
            (protocols r) v (last_seen r) (scan_mode r).

(** [if result.mac_address: ...] guards the lookup; the stored address is
    then a string. *)
Definition lookup_manufacturer (w : world) (r : ScanResult)
  : result ScanResult :=
  match mac_address r with
  | Some mac =>
      if truthy_str (Some mac)
      then (vendor <- get_manufacturer w mac ;; Ok (set_manufacturer r vendor))
      else Ok r
  | None => Ok r
  end.

Definition _detailed_local_scan (w : world) (cfg : Config.t)
  (device : Device.t) : result ScanResult :=
  let result := new_result (Device.ip device) (Device.mac device)
                           "local_detailed" in
  result <- lookup_manufacturer w result ;;
  device_type <- DeviceClassifier.classify_device w device ;;
  let result := set_device_type result (Some device_type) in
  os <- DeviceClassifier.detect_os w device ;;
  let result := set_operating_system result os in
  protocols <- ProtocolAnalyzer.analyze_device w (Device.ip device) ;;
  let result := set_protocols result protocols in
  services <- NetworkScanner.scan_services w cfg (Device.ip device) ;;
  let result := set_services result services in
  let result := set_open_ports result (keys services) in
  response_time <- NetworkScanner.analyze_connections w cfg (Device.ip device) ;;
  let result := set_response_time result response_time in
  Ok result.

Definition _discovery_scan (w : world) (device : Device.t)
  : result ScanResult :=
  let result := new_result (Device.ip device) (Device.mac device)
                           "discovery" in
  result <- try_except (lookup_manufacturer w result) (fun _ => Ok result) ;;
  result <-
    try_except
      (device_type <- DeviceClassifier.quick_classify w device ;;
       Ok (set_device_type result (Some device_type)))
      (fun _ => Ok (set_device_type result (Some "unknown"))) ;;
  result <-
    try_except
      (let common_ports :=
         [21; 22; 23; 25; 53; 80; 110; 143; 443; 993; 995;
          3306; 3389; 5432; 8080] in
       open_ports <-
         NetworkScanner.quick_port_scan w (Device.ip device) common_ports ;;
       Ok (set_open_ports result open_ports))
      (fun _ => Ok (set_open_ports result [])) ;;
  Ok result.

Definition scan_network (w : world) (cfg : Config.t) (target : string)
  (mode : string) (detailed : bool) : result (list ScanResult) :=
  devices <- NetworkScanner.discover_devices w target ;;
  if String.eqb mode "local" && detailed
  then for_each (_detailed_local_scan w cfg) devices
  else for_each (_discovery_scan w) devices.

End NetworkMapper.

(* ------------------------------------------------------------------ *)
(** ** src/config.py: the dataclass and its file form *)
(* ------------------------------------------------------------------ *)

Module ConfigFile.

(** A value a YAML document, and hence a field of the dataclass, can hold.
    The dataclass does not check the type of what it is given. A mapping
    holds each of its keys once; keys are strings. *)
#[warnings="-register-all"]
Inductive value : Type :=
| VNone
| VBool (b : bool)
| VInt (n : Z)
| VStr (s : string)
| VList (items : list value)
| VMap (entries : list (string * value)).

Record fields : Type := mk_fields {
  timeout : value;
  max_concurrent_scans : value;
  retry_attempts : value;
  default_ports : value;
  detailed_scan_ports : value;
  service_detection : value;
  os_detection : value;
  protocol_analysis : value;
  quick_scan_ports : value;
  mac_lookup_enabled : value;
  mac_database_path : value;
  output_directory : value;
  log_level : value;
  async_timeout : value;
  connection_pool_size : value
}.

Definition ints (ns : list Z) : value := VList (map VInt ns).

(** [Config()] *)
Definition defaults : fields := {|
  timeout := VInt 30;
  max_concurrent_scans := VInt 10;
  retry_attempts := VInt 3;
  default_ports :=
    ints [21; 22; 23; 25; 53; 80; 110; 143; 443; 993; 995;
          3306; 3389; 5432; 8080; 8443];
  detailed_scan_ports := ints (Config.range_from 1 1024);
  service_detection := VBool true;
  os_detection := VBool true;
  protocol_analysis := VBool true;
  quick_scan_ports :=
    ints [21; 22; 23; 25; 53; 80; 110; 143; 443; 993; 995;
          3306; 3389; 5432; 8080; 8443];
  mac_lookup_enabled := VBool true;
  mac_database_path := VNone;
  output_directory := VStr "reports";
  log_level := VStr "INFO";
  async_timeout := VInt 10;
  connection_pool_size := VInt 100
|}.

(** The parameters of the generated [__init__]. *)
Definition field_names : list string :=
  [ "timeout"; "max_concurrent_scans"; "retry_attempts"; "default_ports";
    "detailed_scan_ports"; "service_detection"; "os_detection";
    "protocol_analysis"; "quick_scan_ports"; "mac_lookup_enabled";
    "mac_database_path"; "output_directory"; "log_level"; "async_timeout";
    "connection_pool_size" ].

Definition to_dict (self : fields) : list (string * value) :=
  [ ("timeout", timeout self);
    ("max_concurrent_scans", max_concurrent_scans self);
    ("retry_attempts", retry_attempts self);
    ("default_ports", default_ports self);
    ("detailed_scan_ports", detailed_scan_ports self);
    ("service_detection", service_detection self);
    ("os_detection", os_detection self);
    ("protocol_analysis", protocol_analysis self);
    ("quick_scan_ports", quick_scan_ports self);
    ("mac_lookup_enabled", mac_lookup_enabled self);
    ("mac_database_path", mac_database_path self);
    ("output_directory", output_directory self);
    ("log_level", log_level self);
    ("async_timeout", async_timeout self);
    ("connection_pool_size", connection_pool_size self) ].

(** What building a configuration can end in. *)
Inductive built : Type :=
| Built (config : fields)
| TypeError (reason : string)
| LoadError.

(** The keyword argument of that name, or the field's default. *)
Fixpoint keyword (kwargs : list (string * value)) (name : string)
  (default : value) : value :=
  match kwargs with
  | [] => default
  | (k, v) :: rest =>
      if String.eqb k name then v else keyword rest name default
  end.

(** [cls] called with the keywords of a mapping: a keyword that names no
    field is refused; a field without a keyword takes its default. *)
Definition init (kwargs : list (string * value)) : built :=
  match find (fun kv => negb (name_in (fst kv) field_names)) kwargs with
  | Some kv => TypeError ("unexpected keyword argument " ++ fst kv)
  | None =>
      Built {|
        timeout := keyword kwargs "timeout" (timeout defaults);
        max_concurrent_scans :=
          keyword kwargs "max_concurrent_scans" (max_concurrent_scans defaults);
        retry_attempts :=
          keyword kwargs "retry_attempts" (retry_attempts defaults);
        default_ports :=
          keyword kwargs "default_ports" (default_ports defaults);
        detailed_scan_ports :=
          keyword kwargs "detailed_scan_ports" (detailed_scan_ports defaults);
        service_detection :=
          keyword kwargs "service_detection" (service_detection defaults);
        os_detection := keyword kwargs "os_detection" (os_detection defaults);
        protocol_analysis :=
          keyword kwargs "protocol_analysis" (protocol_analysis defaults);
        quick_scan_ports :=
          keyword kwargs "quick_scan_ports" (quick_scan_ports defaults);
        mac_lookup_enabled :=
          keyword kwargs "mac_lookup_enabled" (mac_lookup_enabled defaults);
        mac_database_path :=
          keyword kwargs "mac_database_path" (mac_database_path defaults);
        output_directory :=
          keyword kwargs "output_directory" (output_directory defaults);
        log_level := keyword kwargs "log_level" (log_level defaults);
        async_timeout :=
          keyword kwargs "async_timeout" (async_timeout defaults);
        connection_pool_size :=
          keyword kwargs "connection_pool_size" (connection_pool_size defaults)
      |}
  end.

(** [cls] called with the loaded document unpacked as keywords: only a
    mapping can be unpacked. *)
Definition init_from (config_data : value) : built :=
  match config_data with
  | VMap entries => init entries
  | VNone => TypeError "argument after ** must be a mapping"
  | VBool _ => TypeError "argument after ** must be a mapping"
  | VInt _ => TypeError "argument after ** must be a mapping"
  | VStr _ => TypeError "argument after ** must be a mapping"
  | VList _ => TypeError "argument after ** must be a mapping"
  end.

(** What is found at the configuration path: nothing, a document that
    [yaml.safe_load] turns into a value, or a file that cannot be opened or
    parsed. *)
Inductive file : Type :=
| NoFile
| Document (config_data : value)
| Unreadable.

Definition from_file (at_path : file) : built :=
  match at_path with
  | NoFile => Built defaults
  | Document config_data => init_from config_data
  | Unreadable => LoadError
  end.

End ConfigFile.

(* ------------------------------------------------------------------ *)
(** ** src/scanner.py: reading the ARP table (macOS/Linux branch) *)
(* ------------------------------------------------------------------ *)

Module ArpTable.

(** [str.isspace] on code points below 256. *)
Definition is_space (c : ascii) : bool :=
  let n := N_of_ascii c in
  ((9 <=? n) && (n <=? 13) || (28 <=? n) && (n <=? 31)
   || (n =? 32) || (n =? 133) || (n =? 160))%N.

Fixpoint lstrip (s : string) : string :=
  match s with
  | EmptyString => EmptyString
  | String c rest => if is_space c then lstrip rest else s
  end.

Fixpoint rstrip (s : string) : string :=
  match s with
  | EmptyString => EmptyString
  | String c rest =>
      match rstrip rest with
      | EmptyString => if is_space c then EmptyString else String c EmptyString
      | String c' rest' => String c (String c' rest')
      end
  end.

(** [s.strip()] *)
Definition strip (s : string) : string := rstrip (lstrip s).

(** [s.split('\n')]: the empty string splits into one empty line. *)
Fixpoint split_lines (s : string) : list string :=
  match s with
  | EmptyString => [EmptyString]
  | String c rest =>
      if Ascii.eqb c "010"%char then EmptyString :: split_lines rest
      else match split_lines rest with
           | [] => [String c EmptyString]
           | line :: lines => String c line :: lines
           end
  end.

Definition is_hex (c : ascii) : bool :=
  let n := N_of_ascii c in
  ((48 <=? n) && (n <=? 57) || (65 <=? n) && (n <=? 70)
   || (97 <=? n) && (n <=? 102))%N.

(** The class [[:-]]. *)
Definition is_separator (c : ascii) : bool :=
  Ascii.eqb c ":"%char || Ascii.eqb c "-"%char.

(** A sequence of one-character classes matched at the head of the text:
    the matched characters. *)
Fixpoint match_classes (classes : list (ascii -> bool)) (s : string)
  : option string :=
  match classes with
  | [] => Some EmptyString
  | class :: classes' =>
      match s with
      | EmptyString => None
      | String c rest =>
          if class c
          then match match_classes classes' rest with
               | Some matched => Some (String c matched)
               | None => None
               end
          else None
      end
  end.

(** [([0-9A-Fa-f]{2}[:-]){5}([0-9A-Fa-f]{2})] *)
Definition mac_classes : list (ascii -> bool) :=
  [ is_hex; is_hex; is_separator; is_hex; is_hex; is_separator;
    is_hex; is_hex; is_separator; is_hex; is_hex; is_separator;
    is_hex; is_hex; is_separator; is_hex; is_hex ].

(** Group 0 of the MAC pattern matched at the head of the text. *)
Definition mac_at (s : string) : option string := match_classes mac_classes s.

(** The longest run of characters of a class at the head of the text, and
    what follows it. *)
Fixpoint span (class : ascii -> bool) (s : string) : string * string :=
  match s with
  | EmptyString => (EmptyString, EmptyString)
  | String c rest =>
      if class c
      then (String c (fst (span class rest)), snd (span class rest))
      else (EmptyString, s)
  end.

(** [[0-9]{1,3}] followed by a character that is not a digit: the whole
    run of digits, which must have one to three of them. *)
Definition digits_1_3 (s : string) : option (string * string) :=
  let run := span DeviceClassifier.is_digit s in
  if (1 <=? String.length (fst run))%nat && (String.length (fst run) <=? 3)%nat
  then Some run
  else None.

Definition literal (c : ascii) (s : string) : option string :=
  match s with
  | EmptyString => None
  | String c' rest => if Ascii.eqb c c' then Some rest else None
  end.

(** Group 1 of
    [\(([0-9]{1,3}\.[0-9]{1,3}\.[0-9]{1,3}\.[0-9]{1,3})\)]
    matched at the head of the text. *)
Definition ip_at (s : string) : option string :=
  match literal "("%char s with
  | None => None
  | Some s1 =>
  match digits_1_3 s1 with
  | None => None
  | Some (o1, s2) =>
  match literal "."%char s2 with
  | None => None
  | Some s3 =>
  match digits_1_3 s3 with
  | None => None
  | Some (o2, s4) =>
  match literal "."%char s4 with
  | None => None
  | Some s5 =>
  match digits_1_3 s5 with
  | None => None
  | Some (o3, s6) =>
  match literal "."%char s6 with
  | None => None
  | Some s7 =>
  match digits_1_3 s7 with
  | None => None
  | Some (o4, s8) =>
  match literal ")"%char s8 with
  | None => None
  | Some _ => Some (o1 ++ "." ++ o2 ++ "." ++ o3 ++ "." ++ o4)%string
  end end end end end end end end end.

(** [re.search]: the match at the leftmost position that has one. *)
Fixpoint search {A} (at_head : string -> option A) (s : string) : option A :=
  match at_head s with
  | Some found => Some found
  | None =>
      match s with
      | EmptyString => None
      | String _ rest => search at_head rest
      end
  end.

Fixpoint map_chars (f : ascii -> ascii) (s : string) : string :=
  match s with
  | EmptyString => EmptyString
  | String c rest => String (f c) (map_chars f rest)
  end.

(** [.replace('-', ':')] *)
Definition dash_to_colon (c : ascii) : ascii :=
  if Ascii.eqb c "-"%char then ":"%char else c.

(** [.upper()] on a matched MAC, whose characters are ASCII: the letters
    a..z move down by 32. *)
Definition upper_char (c : ascii) : ascii :=
  let n := N_of_ascii c in
  if ((97 <=? n) && (n <=? 122))%N then ascii_of_N (n - 32) else c.

Definition normalize_mac (matched : string) : string :=
  map_chars upper_char (map_chars dash_to_colon matched).

(** The body of the loop over the lines. *)
Definition read_line (mac_addresses : list (string * string)) (line : string)
  : list (string * string) :=
  match search ip_at line, search mac_at line with
  | Some ip, Some matched =>
      dict_set String.eqb mac_addresses ip (normalize_mac matched)
  | _, _ => mac_addresses
  end.

(** [_get_all_mac_addresses] where [platform.system()] is not Windows,
    given how running [arp -a] ended: its return code and output, or an
    exception, which the function swallows. *)
Definition _get_all_mac_addresses (run : result (Z * string))
  : list (string * string) :=
  match run with
  | Ok (returncode, stdout) =>
      if returncode =? 0
      then fold_left read_line (split_lines (strip stdout)) []
      else []
  | Raise _ => []
  end.

(** A string made of exactly one character of each class, in order. *)
Fixpoint conforms (classes : list (ascii -> bool)) (s : string) : bool :=
  match classes, s with
  | [], EmptyString => true
  | class :: classes', String c rest => class c && conforms classes' rest
  | _, _ => false
  end.

Definition is_upper_hex (c : ascii) : bool :=
  let n := N_of_ascii c in
  ((48 <=? n) && (n <=? 57) || (65 <=? n) && (n <=? 70))%N.

Definition is_colon (c : ascii) : bool := Ascii.eqb c ":"%char.

(** Six pairs of upper-case hexadecimal digits separated by colons. *)
Definition canonical_classes : list (ascii -> bool) :=
  [ is_upper_hex; is_upper_hex; is_colon; is_upper_hex; is_upper_hex; is_colon;
    is_upper_hex; is_upper_hex; is_colon; is_upper_hex; is_upper_hex; is_colon;
    is_upper_hex; is_upper_hex; is_colon; is_upper_hex; is_upper_hex ].

Definition is_canonical_mac (mac : string) : bool :=
  conforms canonical_classes mac.

(** One to three decimal digits. *)
Definition is_octet_text (s : string) : bool :=
  (1 <=? String.length s)%nat && (String.length s <=? 3)%nat
  && String.eqb (fst (span DeviceClassifier.is_digit s)) s.

End ArpTable.

(* ------------------------------------------------------------------ *)
(** ** src/protocol_analyzer.py: naming a protocol from a response *)
(* ------------------------------------------------------------------ *)

Module ProtocolResponse.

(** The response is a byte string; each character stands for one byte and
    [in] is the substring test on bytes. The lower-cased decoding the
    function computes first is not used by it. *)
Definition _identify_protocol_from_response (response : string) : string :=
  if str_in "HTTP/" response then "HTTP"
  else if str_in "SSH-" response then "SSH"
  else if str_in "FTP" response then "FTP"
  else if str_in "SMTP" response then "SMTP"
  else if str_in "POP3" response then "POP3"
  else if str_in "IMAP" response then "IMAP"
  else if str_in "MySQL" response then "MySQL"
  else if str_in "PostgreSQL" response then "PostgreSQL"
  else "Unknown".

(** The byte sequences the function looks for. *)
Definition markers : list string :=
  ["HTTP/"; "SSH-"; "FTP"; "SMTP"; "POP3"; "IMAP"; "MySQL"; "PostgreSQL"].

End ProtocolResponse.

(* ------------------------------------------------------------------ *)
(** ** Observations used to state the properties *)
(* ------------------------------------------------------------------ *)

Import DeviceClassifier.

(** Number of elements of a list that pass a test. *)
Definition count_if {A} (p : A -> bool) (xs : list A) : Z :=
  Z.of_nat (List.length (filter p xs)).

(** The score of a pattern as the specification words it: 2 for each open
    port in the pattern's port list, 3 for each detected service in its
    service list, 5 for each of its substrings found in the lower-cased
    host name. *)
Definition weighted_score (open_ports : list Z) (services_found : list string)
  (lowered_hostname : string) (pat : pattern) : Z :=
  2 * count_if (fun port => int_in port (ports pat)) open_ports
  + 3 * count_if (fun service => name_in service (services pat)) services_found
  + 5 * count_if (fun sub => str_in sub lowered_hostname) (patterns pat).

(** The facts [classify_device] gathers about a host. *)
Definition facts_of (w : world) (device : Device.t)
  : result (list Z) * result (list string) * entry :=
  (_get_open_ports w (Device.ip device),
   _get_services w (Device.ip device),
   Device.hostname device).

(** A label attains a score on an input when the score table computed by
    [classify_device] holds that score for it. *)
Definition attains (w : world) (device : Device.t) (label : string)
  (score : Z) : Prop :=
  exists table, device_scores w device = Ok table /\ In (label, score) table.

(** The priority declared for a label in the registry. *)
Definition declared_priority (label : string) : option Z :=
  match find (fun e => String.eqb (fst e) label) device_patterns with
  | Some e => Some (priority (snd e))
  | None => None
  end.

(** The connection attempt to a port succeeds within the timeout. *)
Definition connects (w : world) (ip : string) (timeout : Z) (port : Z)
  : bool :=
  match open_connection w ip port timeout with
  | Ok _ => true
  | Raise _ => false
  end.

(** The host answers the echo request of the sweep. *)
Definition replies (w : world) (ip : string) : bool :=
  match ping_returncode w ip with
  | Ok returncode => returncode =? 0
  | Raise _ => false
  end.

(** The two runs [scan_network] chooses between: discovery followed by
    one per-host pipeline over every candidate. *)
Definition discovery_run (w : world) (target : string)
  : result (list NetworkMapper.ScanResult) :=
  devices <- NetworkScanner.discover_devices w target ;;
  for_each (NetworkMapper._discovery_scan w) devices.

Definition detailed_run (w : world) (cfg : Config.t) (target : string)
  : result (list NetworkMapper.ScanResult) :=
  devices <- NetworkScanner.discover_devices w target ;;
  for_each (NetworkMapper._detailed_local_scan w cfg) devices.

(** The ports the discovery pipeline probes, whatever the configuration. *)
Definition discovery_common_ports : list Z :=
  [21; 22; 23; 25; 53; 80; 110; 143; 443; 993; 995; 3306; 3389; 5432; 8080].

(** [d.get(k)] on an insertion-ordered dict keyed by ints. *)
Fixpoint dict_get {V} (d : list (Z * V)) (k : Z) : option V :=
  match d with
  | [] => None
  | (k', v) :: rest => if k' =? k then Some v else dict_get rest k
  end.

(** The name a scan reported last for a port. *)
Definition last_reported (reported : list (Z * string)) (port : Z)
  : option string :=
  dict_get (rev reported) port.

(** The candidate built for a host the primary technique reports up. *)
Definition up_host (w : world) (host_state : string * string) : Device.t :=
  Device.mk (fst host_state) (arp_table w (fst host_state))
            (NetworkScanner._get_hostname w (fst host_state)) "up".

Definition is_up (host_state : string * string) : bool :=
  String.eqb (snd host_state) "up".

(** [d.get(k)] on an insertion-ordered dict keyed by strings. *)
Fixpoint dict_get_str {V} (d : list (string * V)) (k : string) : option V :=
  match d with
  | [] => None
  | (k', v) :: rest => if String.eqb k' k then Some v else dict_get_str rest k
  end.

(** The registry entry turned into its row of the score table. *)
Definition score_row (f : pattern -> Z) (e : string * pattern) : string * Z :=
  (fst e, f (snd e)).

(* ------------------------------------------------------------------ *)
(** ** Sample environments *)
(* ------------------------------------------------------------------ *)

(** An environment in which every tool is missing and nothing answers. *)
Definition silent_world : world := {|
  open_connection := fun _ _ _ => Raise OSError;
  nmap_fast_ports := fun _ => Raise PortScannerError;
  nmap_service_names := fun _ => Raise PortScannerError;
  nmap_os_match := fun _ => Raise PortScannerError;
  ping_output := fun _ => Raise OSError;
  nmap_host_states := fun _ => Raise PortScannerError;
  arp_table := fun _ => None;
  gethostbyaddr := fun _ => Raise OSError;
  ip_network_hosts := fun _ => Raise ValueError;
  ping_returncode := fun _ => Raise OSError;
  nmap_service_scan := fun _ => Raise PortScannerError;
  connect_elapsed := fun _ => 0;
  probe_matches := fun _ _ _ => false;
  get_manufacturer := fun _ => Ok None
|}.

(** The silent environment in which the classifier's fast scan reports the
    given ports. *)
Definition fast_scan_world (found : list Z) : world := {|
  open_connection := open_connection silent_world;
  nmap_fast_ports := fun _ => Ok found;
  nmap_service_names := nmap_service_names silent_world;
  nmap_os_match := nmap_os_match silent_world;
  ping_output := ping_output silent_world;
  nmap_host_states := nmap_host_states silent_world;
  arp_table := arp_table silent_world;
  gethostbyaddr := gethostbyaddr silent_world;
  ip_network_hosts := ip_network_hosts silent_world;
  ping_returncode := ping_returncode silent_world;
  nmap_service_scan := nmap_service_scan silent_world;
  connect_elapsed := connect_elapsed silent_world;
  probe_matches := probe_matches silent_world;
  get_manufacturer := get_manufacturer silent_world
|}.

(** A host with a resolved name that matches no pattern substring. *)
Definition plain_host : Device.t :=
  Device.mk "10.0.0.5" None (PyStr "Box-7.lan") "up".

(** A host whose resolved name holds the substring [nginx]. *)
Definition nginx_host : Device.t :=
  Device.mk "10.0.0.7" None (PyStr "NGINX-1") "up".

(** A host found without a reverse-DNS name, as the sweep and a failed
    lookup both produce it. *)
Definition nameless_host : Device.t :=
  Device.mk "10.0.0.9" None PyNone "up".

(** A small laboratory network. Two hosts are up: 10.0.0.1 resolves to a
    name, is in the ARP table and listens on 22, 80 and 3306; 10.0.0.2 has
    no reverse-DNS name and listens on 9100; nothing answers in
    10.0.9.0/30. The nmap client works for host discovery when [primary]
    is set and fails for everything else. *)
Definition lab_world (primary : bool) : world := {|
  open_connection := fun ip port _ =>
    if String.eqb ip "10.0.0.1" && int_in port [22; 80; 3306] then Ok tt
    else if String.eqb ip "10.0.0.2" && int_in port [9100] then Ok tt
    else Raise OSError;
  nmap_fast_ports := fun _ => Raise PortScannerError;
  nmap_service_names := fun _ => Raise PortScannerError;
  nmap_os_match := fun _ => Raise PortScannerError;
  ping_output := fun ip =>
    if String.eqb ip "10.0.0.1"
    then Ok (0, "64 bytes from 10.0.0.1: icmp_seq=1 ttl=64 time=0.31 ms")
    else Ok (1, "");
  nmap_host_states := fun target =>
    if negb primary then Raise PortScannerError
    else if String.eqb target "10.0.0.0/30"
    then Ok [("10.0.0.1", "up"); ("10.0.0.2", "up"); ("10.0.0.3", "down")]
    else if String.eqb target "10.0.0.1" then Ok [("10.0.0.1", "up")]
    else Ok [];
  arp_table := fun ip =>
    if String.eqb ip "10.0.0.1" then Some "00:0C:29:12:34:56" else None;
  gethostbyaddr := fun ip =>
    if String.eqb ip "10.0.0.1" then Ok "NGINX-web.lan" else Raise OSError;
  ip_network_hosts := fun target =>
    if String.eqb target "10.0.0.0/30" then Ok ["10.0.0.1"; "10.0.0.2"]
    else if String.eqb target "10.0.0.1" then Ok ["10.0.0.1"]
    else if String.eqb target "10.0.9.0/30" then Ok ["10.0.9.1"; "10.0.9.2"]
    else Raise ValueError;
  ping_returncode := fun ip =>
    if String.eqb ip "10.0.0.1" || String.eqb ip "10.0.0.2" then Ok 0
    else Ok 1;
  nmap_service_scan := fun _ => Raise PortScannerError;
  connect_elapsed := fun _ => 310;
  probe_matches := fun ip protocol port =>
    String.eqb ip "10.0.0.1" && String.eqb protocol "http" && (port =? 80);
  get_manufacturer := fun mac =>
    if String.eqb mac "00:0C:29:12:34:56" then Ok (Some "VMware, Inc.")
    else Ok None
|}.

(** A configuration file that narrows the discovery port set to port 80
    and leaves every other setting at its default. *)
Definition narrow_config : Config.t :=
  Config.mk 30 10 3 (Config.default_ports Config.default)
            (Config.detailed_scan_ports Config.default) [80] 10.

(* ------------------------------------------------------------------ *)
(** ** Loops in closed form *)
(* ------------------------------------------------------------------ *)

Section Counting.

Context {A : Type} (p : A -> bool) (k : Z).

Lemma fold_add_if (xs : list A) (start : Z) :
  fold_left (fun score x => if p x then score + k else score) xs start
  = start + k * count_if p xs.
Proof.
  unfold count_if. revert start.
  induction xs as [|x xs IH]; intros start; simpl.
  - lia.
  - rewrite IH. destruct (p x); simpl List.length; lia.
Qed.

End Counting.

Lemma score_pattern_closed open_ports services_found device pat h :
  call_lower (get_or (Device.hostname device) "") = Ok h ->
  score_pattern open_ports services_found device pat
  = Ok (weighted_score open_ports services_found h pat).
Proof.
  intros Hh. unfold score_pattern, weighted_score. rewrite Hh. simpl.
  rewrite !fold_add_if. f_equal; lia.
Qed.

Lemma score_pattern_none open_ports services_found device pat :
  Device.hostname device = PyNone ->
  score_pattern open_ports services_found device pat = Raise AttributeError.
Proof. intros Hn. unfold score_pattern. rewrite Hn. reflexivity. Qed.

Lemma hostname_lowered device :
  Device.hostname device <> PyNone ->
  exists h, call_lower (get_or (Device.hostname device) "") = Ok h.
Proof.
  destruct (Device.hostname device); intros Hne; simpl; eauto.
  contradiction.
Qed.

Section DictSet.

Context {V : Type}.

Lemma dict_set_fresh (d : list (string * V)) (k : string) (v : V) :
  ~ In k (keys d) -> dict_set String.eqb d k v = d ++ [(k, v)].
Proof.
  induction d as [|[k' v'] d IH]; simpl; intros Hk.
  - reflexivity.
  - destruct (String.eqb_spec k' k) as [->|Hne].
    + exfalso. apply Hk. now left.
    + rewrite IH; [reflexivity|]. intros Hin. apply Hk. now right.
Qed.

End DictSet.

Lemma score_loop_closed open_ports services_found device h :
  call_lower (get_or (Device.hostname device) "") = Ok h ->
  forall items acc,
    NoDup (keys acc ++ keys items) ->
    score_loop open_ports services_found device items acc
    = Ok (acc ++ map (score_row (weighted_score open_ports services_found h))
                     items).
Proof.
  intros Hh. induction items as [|[label pat] items IH]; intros acc Hnd.
  - simpl. now rewrite app_nil_r.
  - simpl. rewrite (score_pattern_closed _ _ _ _ _ Hh). simpl.
    simpl in Hnd.
    rewrite dict_set_fresh.
    + rewrite IH.
      * now rewrite <- app_assoc.
      * unfold keys in *. rewrite map_app, <- app_assoc. simpl. exact Hnd.
    + apply NoDup_remove_2 in Hnd. intros Hin. apply Hnd.
      apply in_or_app. now left.
Qed.

Lemma device_patterns_keys_nodup : NoDup (keys device_patterns).
Proof.
  unfold keys. simpl.
  repeat (constructor; [simpl; intuition discriminate|]). constructor.
Qed.

Lemma device_patterns_by_priority :
  StronglySorted (fun a b => priority (snd a) < priority (snd b))
                 device_patterns.
Proof.
  unfold device_patterns, _load_device_patterns.
  repeat (constructor; [|repeat constructor; simpl; lia]). constructor.
Qed.

(** The score table whenever the host name can be lowered. *)
Lemma device_scores_closed w device open_ports services_found h :
  _get_open_ports w (Device.ip device) = Ok open_ports ->
  _get_services w (Device.ip device) = Ok services_found ->
  call_lower (get_or (Device.hostname device) "") = Ok h ->
  device_scores w device
  = Ok (map (score_row (weighted_score open_ports services_found h))
            device_patterns).
Proof.
  intros Hp Hs Hh. unfold device_scores. rewrite Hp, Hs. cbn [bind].
  rewrite (score_loop_closed _ _ _ _ Hh); [reflexivity|].
  simpl app. exact device_patterns_keys_nodup.
Qed.

(** Neither fact gathering step raises. *)
Lemma _quick_port_check_total w ip ports :
  exists found, _quick_port_check w ip ports = Ok found.
Proof. unfold _quick_port_check. eauto. Qed.

Lemma _get_open_ports_total w ip :
  exists open_ports, _get_open_ports w ip = Ok open_ports.
Proof.
  unfold _get_open_ports.
  destruct (nmap_fast_ports w ip); cbn [try_except].
  - eauto.
  - apply _quick_port_check_total.
Qed.

Lemma _get_services_total w ip :
  exists services_found, _get_services w ip = Ok services_found.
Proof.
  unfold _get_services. destruct (nmap_service_names w ip); simpl; eauto.
Qed.

(** A stored [None] host name makes the first scoring iteration raise. *)
Lemma device_scores_none w device :
  Device.hostname device = PyNone ->
  device_scores w device = Raise AttributeError.
Proof.
  intros Hn. unfold device_scores.
  destruct (_get_open_ports_total w (Device.ip device)) as [ps ->].
  destruct (_get_services_total w (Device.ip device)) as [ss ->].
  cbn [bind]. unfold device_patterns, _load_device_patterns.
  cbn [score_loop]. rewrite (score_pattern_none _ _ _ _ Hn). reflexivity.
Qed.

(* ------------------------------------------------------------------ *)
(** ** The first maximal row of a table *)
(* ------------------------------------------------------------------ *)

Section FirstMaximum.

Context {K : Type}.

(** The row returned by the running maximum splits the sequence: every
    row before it is strictly smaller, every row after it is no greater. *)
Lemma max_by_value_from_split (items : list (K * Z)) :
  forall best,
  exists before after,
    best :: items = before ++ max_by_value_from best items :: after /\
    (forall y, In y before -> snd y < snd (max_by_value_from best items)) /\
    (forall y, In y after -> snd y <= snd (max_by_value_from best items)).
Proof.
  induction items as [|x rest IH]; intros best.
  - exists [], []. simpl. repeat split; intros y [].
  - cbn [max_by_value_from].
    destruct (Z.gtb_spec (snd x) (snd best)) as [Hgt|Hle].
    + destruct (IH x) as (before & after & Heq & Hb & Ha).
      remember (max_by_value_from x rest) as m eqn:Hm. clear Hm.
      exists (best :: before), after.
      assert (Hx : snd x <= snd m).
      { destruct before as [|b before']; simpl in Heq; injection Heq as Hx _.
        - subst m. lia.
        - subst b. assert (snd x < snd m) by (apply Hb; now left). lia. }
      split; [simpl; now rewrite Heq|]. split; [|exact Ha].
      intros y [<-|Hy]; [lia|now apply Hb].
    + destruct (IH best) as (before & after & Heq & Hb & Ha).
      remember (max_by_value_from best rest) as m eqn:Hm. clear Hm.
      destruct before as [|b before']; simpl in Heq;
        injection Heq as Hbest Hrest.
      * subst m after. exists [], (x :: rest).
        split; [reflexivity|]. split; [intros y []|].
        intros y [<-|Hy]; [lia|now apply Ha].
      * subst b. exists (best :: x :: before'), after.
        assert (Hlt : snd best < snd m) by (apply Hb; now left).
        split; [simpl; now rewrite Hrest|]. split; [|exact Ha].
        intros y [<-|[<-|Hy]]; [exact Hlt|lia|].
        apply Hb. now right.
Qed.

End FirstMaximum.

Section TieBreak.

Variable registry : list (string * pattern).
Variable f : pattern -> Z.

Hypothesis by_priority :
  StronglySorted (fun a b => priority (snd a) < priority (snd b)) registry.
Hypothesis labels_nodup : NoDup (keys registry).

Lemma sorted_after (before after : list (string * pattern)) e :
  StronglySorted (fun a b => priority (snd a) < priority (snd b))
                 (before ++ e :: after) ->
  Forall (fun b => priority (snd e) < priority (snd b)) after.
Proof.
  induction before as [|b before IH]; simpl; intros Hs.
  - now apply StronglySorted_inv in Hs.
  - apply IH. now apply StronglySorted_inv in Hs.
Qed.

Lemma entry_of_label a b :
  In a registry -> In b registry -> fst a = fst b -> a = b.
Proof.
  clear by_priority. revert labels_nodup.
  induction registry as [|e reg IH]; simpl; [intros _ []|].
  unfold keys. simpl. intros Hnd Ha Hb Hab.
  apply NoDup_cons_iff in Hnd. destruct Hnd as [Hnotin Hnd].
  destruct Ha as [<-|Ha], Hb as [<-|Hb].
  - reflexivity.
  - exfalso. apply Hnotin. rewrite Hab. now apply in_map.
  - exfalso. apply Hnotin. rewrite <- Hab. now apply in_map.
  - now apply IH.
Qed.

(** The winner of the table is a registry entry of maximal score, and no
    entry of the same score has a lower priority value. *)
Lemma first_maximum_has_lowest_priority winner :
  max_by_value (map (score_row f) registry) = Ok winner ->
  exists e,
    In e registry /\ score_row f e = winner /\
    (forall e', In e' registry -> f (snd e') <= snd winner) /\
    (forall e', In e' registry -> f (snd e') = snd winner ->
                priority (snd e) <= priority (snd e')).
Proof.
  clear labels_nodup.
  destruct registry as [|e0 reg] eqn:Hreg; [discriminate|].
  cbn [map max_by_value]. intros Hw. injection Hw as Hw.
  destruct (max_by_value_from_split (map (score_row f) reg) (score_row f e0))
    as (before & after & Heq & Hb & Ha).
  rewrite Hw in Heq, Hb, Ha.
  change (score_row f e0 :: map (score_row f) reg)
    with (map (score_row f) (e0 :: reg)) in Heq.
  apply map_eq_app in Heq. destruct Heq as (rb & rest & Hsplit & Hrb & Hrest).
  apply map_eq_cons in Hrest. destruct Hrest as (e & ra & -> & He & Hra).
  assert (Hin : forall e', In e' (e0 :: reg) ->
                      In e' rb \/ e' = e \/ In e' ra).
  { intros e' He'. rewrite Hsplit in He'. apply in_app_or in He'.
    destruct He' as [?|[?|?]]; auto. }
  exists e. repeat split.
  - rewrite Hsplit. apply in_or_app. right. now left.
  - exact He.
  - intros e' He'. destruct (Hin e' He') as [H1|[H1|H1]].
    + assert (snd (score_row f e') < snd winner).
      { apply Hb. rewrite <- Hrb. now apply in_map. }
      simpl in *. lia.
    + subst e'. rewrite <- He. simpl. lia.
    + assert (snd (score_row f e') <= snd winner).
      { apply Ha. rewrite <- Hra. now apply in_map. }
      simpl in *. lia.
  - intros e' He' Hscore. destruct (Hin e' He') as [H1|[H1|H1]].
    + assert (snd (score_row f e') < snd winner).
      { apply Hb. rewrite <- Hrb. now apply in_map. }
      simpl in *. lia.
    + subst e'. lia.
    + rewrite Hsplit in by_priority. apply sorted_after in by_priority.
      rewrite Forall_forall in by_priority.
      specialize (by_priority e' H1). lia.
Qed.

End TieBreak.

(** The priority of a registry entry is the one declared for its label. *)
Lemma declared_priority_of_entry e :
  In e device_patterns -> declared_priority (fst e) = Some (priority (snd e)).
Proof.
  intros He. unfold declared_priority.
  destruct (find (fun e' => String.eqb (fst e') (fst e)) device_patterns)
    as [e'|] eqn:Hfind.
  - apply find_some in Hfind. destruct Hfind as [Hin Heq].
    apply String.eqb_eq in Heq.
    now rewrite (entry_of_label _ device_patterns_keys_nodup e' e Hin He Heq).
  - exfalso. apply (find_none _ _ Hfind e) in He.
    now rewrite String.eqb_refl in He.
Qed.

(** What [classify_device] returns once the score table is known. *)
Lemma classify_device_from_table w device table :
  device_scores w device = Ok table ->
  classify_device w device
  = match table with
    | [] => Ok "unknown"
    | x :: rest =>
        if snd (max_by_value_from x rest) >? 0
        then Ok (fst (max_by_value_from x rest))
        else Ok "unknown"
    end.
Proof.
  intros Ht. unfold classify_device. rewrite Ht. cbn [bind].
  destruct table; reflexivity.
Qed.

(** The score table, when there is one, lists the registry in order. *)
Lemma device_scores_rows w device table :
  device_scores w device = Ok table ->
  exists open_ports services_found h,
    _get_open_ports w (Device.ip device) = Ok open_ports /\
    _get_services w (Device.ip device) = Ok services_found /\
    call_lower (get_or (Device.hostname device) "") = Ok h /\
    table = map (score_row (weighted_score open_ports services_found h))
                device_patterns.
Proof.
  intros Ht.
  destruct (_get_open_ports_total w (Device.ip device)) as [ps Hp].
  destruct (_get_services_total w (Device.ip device)) as [ss Hs].
  destruct (Device.hostname device) eqn:Hh.
  - exists ps, ss, (lower ""). repeat split; auto.
    rewrite (device_scores_closed w device ps ss (lower "")) in Ht; auto.
    + now injection Ht as <-.
    + now rewrite Hh.
  - rewrite (device_scores_none w device Hh) in Ht. discriminate.
  - exists ps, ss, (lower s). repeat split; auto.
    rewrite (device_scores_closed w device ps ss (lower s)) in Ht; auto.
    + now injection Ht as <-.
    + now rewrite Hh.
Qed.

(* ------------------------------------------------------------------ *)
(** ** Device classification *)
(* ------------------------------------------------------------------ *)

(** X21. On every input for which the score table is computed, that is
    whose host name is a string or whose ['hostname'] key is missing, and
    on which two or more device-type patterns attain the same highest
    positive score, [classify_device] returns the label of the tied pattern
    whose declared priority value is lowest; and the answer is determined
    by the gathered facts alone: any input with the same open ports,
    services and host name gets the same label. *)
Theorem classify_device_tie_break_by_priority :
  forall (w : world) (device : Device.t) (l1 l2 : string) (top : Z),
    l1 <> l2 ->
    attains w device l1 top ->
    attains w device l2 top ->
    0 < top ->
    (forall l s, attains w device l s -> s <= top) ->
    exists winner pw,
      classify_device w device = Ok winner /\
      attains w device winner top /\
      declared_priority winner = Some pw /\
      (forall l p, attains w device l top ->
                   declared_priority l = Some p -> pw <= p) /\
      (forall w' device', facts_of w' device' = facts_of w device ->
                          classify_device w' device' = Ok winner).
Proof.
  intros w device l1 l2 top _ [table [Ht Hin1]] _ Hpos Hmax.
  destruct (device_scores_rows w device table Ht)
    as (ps & ss & h & Hp & Hs & Hh & Htable).
  set (f := weighted_score ps ss h) in *.
  destruct table as [|x rest] eqn:Hshape; [destruct Hin1|].
  assert (Hwin : max_by_value (map (score_row f) device_patterns)
                 = Ok (max_by_value_from x rest)) by now rewrite <- Htable.
  destruct (first_maximum_has_lowest_priority device_patterns f
              device_patterns_by_priority _ Hwin)
    as (e & He & Hrow & Hle & Hlow).
  remember (max_by_value_from x rest) as best eqn:Hbest.
  assert (Hin_best : In best (x :: rest)).
  { rewrite Htable, <- Hrow. now apply in_map. }
  assert (Htop : snd best = top).
  { apply Z.le_antisymm.
    - apply (Hmax (fst best)). exists (x :: rest). split; [exact Ht|].
      now destruct best.
    - rewrite Htable in Hin1. apply in_map_iff in Hin1.
      destruct Hin1 as (e1 & He1 & Hin1). inversion He1; subst top.
      now apply Hle. }
  assert (Hclass : classify_device w device = Ok (fst best)).
  { rewrite (classify_device_from_table w device _ Ht), <- Hbest.
    destruct (Z.gtb_spec (snd best) 0); [reflexivity|lia]. }
  exists (fst best), (priority (snd e)). split; [exact Hclass|].
  split; [|split; [|split]].
  - exists (x :: rest). split; [exact Ht|]. rewrite <- Htop. now destruct best.
  - rewrite <- Hrow. apply (declared_priority_of_entry e He).
  - intros l p [table' [Ht' Hin']] Hdecl.
    rewrite Ht in Ht'. injection Ht' as <-.
    rewrite Htable in Hin'. apply in_map_iff in Hin'.
    destruct Hin' as (e' & He' & Hin'). inversion He'; subst l.
    rewrite (declared_priority_of_entry e' Hin') in Hdecl.
    injection Hdecl as <-. apply Hlow; [exact Hin'|]. lia.
  - intros w' device' Hfacts. unfold facts_of in Hfacts.
    injection Hfacts as Hp' Hs' Hh'.
    rewrite Hp in Hp'. rewrite Hs in Hs'.
    assert (Ht'' : device_scores w' device' = Ok (x :: rest)).
    { rewrite Htable. apply device_scores_closed; auto. now rewrite Hh'. }
    rewrite (classify_device_from_table w' device' _ Ht''), <- Hbest.
    destruct (Z.gtb_spec (snd best) 0); [reflexivity|lia].
Qed.

(** A host with port 80 open and a name matching nothing ties all eight
    patterns at score 2; the router, of priority 1, is returned. *)
Lemma classify_device_tie_break_by_priority_witness :
  exists winner pw,
    classify_device (fast_scan_world [80]) plain_host = Ok winner /\
    attains (fast_scan_world [80]) plain_host winner 2 /\
    declared_priority winner = Some pw /\
    (forall l p, attains (fast_scan_world [80]) plain_host l 2 ->
                 declared_priority l = Some p -> pw <= p) /\
    (forall w' device',
        facts_of w' device' = facts_of (fast_scan_world [80]) plain_host ->
        classify_device w' device' = Ok winner).
Proof.
  apply (classify_device_tie_break_by_priority
           (fast_scan_world [80]) plain_host "router" "switch" 2).
  - discriminate.
  - eexists. split; [vm_compute; reflexivity|]. simpl. tauto.
  - eexists. split; [vm_compute; reflexivity|]. simpl. tauto.
  - lia.
  - intros l s [table [Ht Hin]]. vm_compute in Ht. injection Ht as <-.
    simpl in Hin.
    repeat (destruct Hin as [Hin|Hin]; [injection Hin as _ <-; lia|]).
    destruct Hin.
Defined.

(** X1. With a host name to lower, every score is the weighted count and the
    label returned is decided by the greatest score: a label strictly
    ahead of all others is returned, and a greatest score of 0 gives
    ['unknown']. *)
Lemma classify_device_scoring w device :
  Device.hostname device <> PyNone ->
  exists open_ports services_found h,
    _get_open_ports w (Device.ip device) = Ok open_ports /\
    _get_services w (Device.ip device) = Ok services_found /\
    call_lower (get_or (Device.hostname device) "") = Ok h /\
    device_scores w device
    = Ok (map (score_row (weighted_score open_ports services_found h))
              device_patterns) /\
    (forall e, In e device_patterns ->
       0 < weighted_score open_ports services_found h (snd e) ->
       (forall e', In e' device_patterns -> e' <> e ->
          weighted_score open_ports services_found h (snd e')
          < weighted_score open_ports services_found h (snd e)) ->
       classify_device w device = Ok (fst e)) /\
    ((forall e, In e device_patterns ->
        weighted_score open_ports services_found h (snd e) <= 0) ->
     classify_device w device = Ok "unknown").
Proof.
  intros Hne.
  destruct (_get_open_ports_total w (Device.ip device)) as [ps Hp].
  destruct (_get_services_total w (Device.ip device)) as [ss Hs].
  destruct (hostname_lowered device Hne) as [h Hh].
  exists ps, ss, h. set (f := weighted_score ps ss h).
  pose proof (device_scores_closed w device ps ss h Hp Hs Hh) as Ht.
  fold f in Ht. repeat (split; [assumption|]).
  assert (Hshape : exists x rest,
             map (score_row f) device_patterns = x :: rest) by (simpl; eauto).
  destruct Hshape as (x & rest & Hshape).
  assert (Hwin : max_by_value (map (score_row f) device_patterns)
                 = Ok (max_by_value_from x rest)) by now rewrite Hshape.
  destruct (first_maximum_has_lowest_priority device_patterns f
              device_patterns_by_priority _ Hwin)
    as (e0 & He0 & Hrow & Hle & _).
  rewrite Hshape in Ht.
  rewrite (classify_device_from_table w device _ Ht).
  remember (max_by_value_from x rest) as best eqn:Hbest. clear Hbest.
  subst best. cbn [score_row fst snd] in *.
  split.
  - intros e He Hpos Hstrict.
    destruct (Z.gtb_spec (f (snd e0)) 0) as [_|Hz].
    + f_equal. f_equal.
      destruct (string_dec (fst e0) (fst e)) as [Heq|Hdiff]; [|exfalso].
      * now rewrite (entry_of_label _ device_patterns_keys_nodup e0 e).
      * assert (e0 <> e) by (intros ->; now apply Hdiff).
        specialize (Hstrict e0 He0 H). specialize (Hle e He). lia.
    + specialize (Hle e He). lia.
  - intros Hzero. specialize (Hzero e0 He0).
    destruct (Z.gtb_spec (f (snd e0)) 0); [lia|reflexivity].
Qed.

(** With only port 80 open, the name [NGINX-1] puts the server pattern
    at 7, ahead of every other pattern, and ['server'] is returned. *)
Lemma classify_device_scoring_witness :
  classify_device (fast_scan_world [80]) nginx_host = Ok "server".
Proof.
  destruct (classify_device_scoring (fast_scan_world [80]) nginx_host)
    as (ps & ss & h & Hp & Hs & Hh & _ & Hbest & _).
  - discriminate.
  - vm_compute in Hp, Hs, Hh.
    injection Hp as <-. injection Hs as <-. injection Hh as <-.
    apply (Hbest ("server",
                  mk_pattern [22; 80; 443; 3306; 5432; 27017]
                    ["ssh"; "http"; "https"; "mysql"; "postgresql"; "mongodb"]
                    ["server"; "apache"; "nginx"; "mysql"; "postgresql"] 3)).
    + simpl. tauto.
    + vm_compute. reflexivity.
    + intros e' Hin Hne. simpl in Hin.
      repeat (destruct Hin as [<-|Hin];
              [first [vm_compute; reflexivity
                     |exfalso; apply Hne; reflexivity]|]).
      destruct Hin.
Defined.

(** C3. The scoring rule promises a label for every input, ['unknown'] when
    no pattern scores. A host whose name is unset has no open port and no
    service here, so every weighted count is 0; yet the call raises
    [AttributeError] at the first pattern, where the same host without the
    ['hostname'] key gets ['unknown']. *)
Theorem classify_device_raises_on_unset_hostname :
  Device.hostname nameless_host = PyNone /\
  _get_open_ports silent_world (Device.ip nameless_host) = Ok [] /\
  _get_services silent_world (Device.ip nameless_host) = Ok [] /\
  classify_device silent_world nameless_host = Raise AttributeError /\
  classify_device silent_world (Device.mk "10.0.0.9" None Missing "up")
  = Ok "unknown".
Proof. repeat split; vm_compute; reflexivity. Qed.

(* ------------------------------------------------------------------ *)
(** ** The per-host pipelines *)
(* ------------------------------------------------------------------ *)

Import NetworkMapper.

Section ForEach.

Context {A B : Type} (f : A -> result B).

Lemma for_each_ok (xs : list A) (ys : list B) :
  for_each f xs = Ok ys -> Forall2 (fun x y => f x = Ok y) xs ys.
Proof.
  revert ys. induction xs as [|x xs IH]; intros ys; simpl.
  - intros H. injection H as <-. constructor.
  - destruct (f x) as [y|e] eqn:Hx; cbn [bind]; [|discriminate].
    destruct (for_each f xs) as [ys'|e]; cbn [bind]; [|discriminate].
    intros H. injection H as <-. constructor; auto.
Qed.

Lemma for_each_total (xs : list A) :
  (forall x, In x xs -> exists y, f x = Ok y) ->
  exists ys, for_each f xs = Ok ys.
Proof.
  induction xs as [|x xs IH]; intros Hall; simpl.
  - eauto.
  - destruct (Hall x (or_introl eq_refl)) as [y ->].
    destruct IH as [ys ->]; [intros; apply Hall; now right|].
    cbn [bind]. eauto.
Qed.

Lemma for_each_raise_one (xs : list A) x e :
  In x xs -> f x = Raise e -> exists e', for_each f xs = Raise e'.
Proof.
  induction xs as [|x0 xs IH]; intros Hin Hx; [destruct Hin|].
  simpl. destruct Hin as [->|Hin].
  - rewrite Hx. cbn [bind]. eauto.
  - destruct (f x0); cbn [bind]; [|eauto].
    destruct (IH Hin Hx) as [e' ->]. cbn [bind]. eauto.
Qed.

End ForEach.

Lemma Forall2_in_right {A B} (R : A -> B -> Prop) xs ys y :
  Forall2 R xs ys -> In y ys -> exists x, In x xs /\ R x y.
Proof.
  induction 1 as [|x0 y0 xs ys HR _ IH]; intros Hin; [destruct Hin|].
  destruct Hin as [<-|Hin].
  - exists x0. split; [now left|exact HR].
  - destruct (IH Hin) as (x & Hx & HRx). exists x. split; [now right|exact HRx].
Qed.

Lemma Forall2_same_length {A B} (R : A -> B -> Prop) xs ys :
  Forall2 R xs ys -> List.length ys = List.length xs.
Proof. induction 1; simpl; congruence. Qed.

(** Splitting a successful [bind]. *)
Ltac bind_ok H :=
  match type of H with
  | bind ?m _ = Ok _ =>
      let E := fresh "Hstep" in
      destruct m eqn:E; cbn [bind] in H; [|discriminate H]
  end.

Lemma quick_classify_total w device :
  exists label, quick_classify w device = Ok label.
Proof.
  unfold quick_classify, _quick_port_check. cbn [bind].
  repeat match goal with
         | |- context [if ?c then _ else _] => destruct c
         end; eauto.
Qed.

Lemma lookup_manufacturer_fields w r r' :
  lookup_manufacturer w r = Ok r' ->
  r' = set_manufacturer r (manufacturer r').
Proof.
  unfold lookup_manufacturer. destruct r as [ip mac hn mf dt os ps sv pr rt ls md].
  cbn [mac_address]. destruct mac as [mac|].
  - destruct (truthy_str (Some mac)).
    + destruct (get_manufacturer w mac); cbn [bind]; [|discriminate].
      intros H. now injection H as <-.
    + intros H. now injection H as <-.
  - intros H. now injection H as <-.
Qed.

(** The discovery pipeline always completes, and this is its result. *)
Lemma _discovery_scan_result w device :
  exists r label,
    _discovery_scan w device = Ok r /\
    quick_classify w device = Ok label /\
    ip_address r = Device.ip device /\
    mac_address r = Device.mac device /\
    hostname r = None /\
    device_type r = Some label /\
    open_ports r
    = fold_left append_open
        (map (check_port w (Device.ip device) 2)
             [21; 22; 23; 25; 53; 80; 110; 143; 443; 993; 995;
              3306; 3389; 5432; 8080]) [] /\
    scan_mode r = "discovery".
Proof.
  destruct (quick_classify_total w device) as [label Hq].
  unfold _discovery_scan. rewrite Hq.
  unfold NetworkScanner.quick_port_scan, gather. cbn [bind try_except].
  destruct (lookup_manufacturer w _) as [r1|e] eqn:Hl; cbn [bind try_except].
  - apply lookup_manufacturer_fields in Hl. rewrite Hl.
    eexists. exists label. repeat split.
  - eexists. exists label. repeat split.
Qed.

Lemma _discovery_scan_total w device :
  exists r, _discovery_scan w device = Ok r.
Proof.
  destruct (_discovery_scan_result w device) as (r & _ & Hr & _). eauto.
Qed.

(** What a completed detailed pipeline has stored. *)
Lemma _detailed_local_scan_result w cfg device r :
  _detailed_local_scan w cfg device = Ok r ->
  exists label found,
    classify_device w device = Ok label /\
    NetworkScanner.scan_services w cfg (Device.ip device) = Ok found /\
    ip_address r = Device.ip device /\
    mac_address r = Device.mac device /\
    hostname r = None /\
    device_type r = Some label /\
    services r = found /\
    open_ports r = keys found /\
    scan_mode r = "local_detailed".
Proof.
  unfold _detailed_local_scan. intros H.
  bind_ok H. apply lookup_manufacturer_fields in Hstep.
  bind_ok H. bind_ok H. bind_ok H. bind_ok H. bind_ok H.
  injection H as <-. rewrite Hstep.
  eexists. eexists. repeat split.
Qed.

(** The detailed pipeline raises on a host whose name is unset. *)
Lemma _detailed_local_scan_unset_hostname w cfg device :
  Device.hostname device = PyNone ->
  exists e, _detailed_local_scan w cfg device = Raise e.
Proof.
  intros Hn. unfold _detailed_local_scan.
  destruct (lookup_manufacturer w _); cbn [bind]; [|eauto].
  unfold classify_device. rewrite (device_scores_none w device Hn).
  cbn [bind]. eauto.
Qed.

(** X2. Whenever discovery returns and the detailed pipeline is not
    selected, [scan_network] returns one discovery result per candidate,
    in candidate order. *)
Lemma scan_network_discovery_one_per_host w cfg target mode detailed devices :
  NetworkScanner.discover_devices w target = Ok devices ->
  String.eqb mode "local" && detailed = false ->
  exists results,
    scan_network w cfg target mode detailed = Ok results /\
    List.length results = List.length devices /\
    Forall2 (fun device r => _discovery_scan w device = Ok r) devices results.
Proof.
  intros Hd Hm. unfold scan_network. rewrite Hd, Hm. cbn [bind].
  destruct (for_each_total (_discovery_scan w) devices) as [results Hr].
  - intros device _. apply _discovery_scan_total.
  - exists results. split; [exact Hr|].
    apply for_each_ok in Hr. split; [|exact Hr].
    exact (Forall2_same_length _ _ _ Hr).
Qed.

(** X3. A detailed run over candidates of which one has no host name
    raises out of [scan_network]. *)
Lemma scan_network_detailed_unset_hostname w cfg target devices device :
  NetworkScanner.discover_devices w target = Ok devices ->
  In device devices ->
  Device.hostname device = PyNone ->
  exists e, scan_network w cfg target "local" true = Raise e.
Proof.
  intros Hd Hin Hn. unfold scan_network. rewrite Hd. cbn [bind].
  change (String.eqb "local" "local" && true) with true. cbv iota.
  destruct (_detailed_local_scan_unset_hostname w cfg device Hn) as [e He].
  exact (for_each_raise_one _ devices device e Hin He).
Qed.

(** The discovery run over the laboratory network returns a result for
    each of its two candidates. *)
Lemma scan_network_discovery_one_per_host_witness :
  exists results,
    scan_network (lab_world true) Config.default "10.0.0.0/30"
                 "discovery" false = Ok results /\
    List.length results = 2%nat /\
    Forall2 (fun device r => _discovery_scan (lab_world true) device = Ok r)
            [ Device.mk "10.0.0.1" (Some "00:0C:29:12:34:56")
                        (PyStr "NGINX-web.lan") "up";
              Device.mk "10.0.0.2" None PyNone "up" ]
            results.
Proof.
  apply (scan_network_discovery_one_per_host
           (lab_world true) Config.default "10.0.0.0/30" "discovery" false
           [ Device.mk "10.0.0.1" (Some "00:0C:29:12:34:56")
                       (PyStr "NGINX-web.lan") "up";
             Device.mk "10.0.0.2" None PyNone "up" ]).
  - vm_compute. reflexivity.
  - reflexivity.
Defined.

(** The detailed run over the same network raises: its second candidate
    has no name. *)
Lemma scan_network_detailed_unset_hostname_witness :
  exists e,
    scan_network (lab_world true) Config.default "10.0.0.0/30" "local" true
    = Raise e.
Proof.
  apply (scan_network_detailed_unset_hostname
           (lab_world true) Config.default "10.0.0.0/30"
           [ Device.mk "10.0.0.1" (Some "00:0C:29:12:34:56")
                       (PyStr "NGINX-web.lan") "up";
             Device.mk "10.0.0.2" None PyNone "up" ]
           (Device.mk "10.0.0.2" None PyNone "up")).
  - vm_compute. reflexivity.
  - simpl. tauto.
  - reflexivity.
Defined.

(** C2. One result per candidate holds in the discovery pipeline but not in
    the detailed one: in the laboratory network, discovery finds two
    candidates, the second without a host name; the discovery run returns
    two results, the detailed run raises [AttributeError] out of
    [scan_network] and returns none. *)
Theorem scan_network_detailed_aborts_on_unset_hostname :
  NetworkScanner.discover_devices (lab_world true) "10.0.0.0/30"
  = Ok [ Device.mk "10.0.0.1" (Some "00:0C:29:12:34:56")
                   (PyStr "NGINX-web.lan") "up";
         Device.mk "10.0.0.2" None PyNone "up" ] /\
  scan_network (lab_world true) Config.default "10.0.0.0/30" "local" true
  = Raise AttributeError /\
  (exists r1 r2,
      scan_network (lab_world true) Config.default "10.0.0.0/30"
                   "discovery" false = Ok [r1; r2]).
Proof.
  split; [vm_compute; reflexivity|].
  split; [vm_compute; reflexivity|].
  eexists. eexists. vm_compute. reflexivity.
Qed.

(* ------------------------------------------------------------------ *)
(** ** Port probing *)
(* ------------------------------------------------------------------ *)

(** The collecting loop keeps, in probe order, the non-zero ports whose
    connection attempt succeeded. *)
Lemma fold_append_open w ip timeout ports acc :
  fold_left append_open (map (check_port w ip timeout) ports) acc
  = acc ++ filter (fun port => connects w ip timeout port && truthy_int port)
                  ports.
Proof.
  revert acc. induction ports as [|port ports IH]; intros acc; simpl.
  - now rewrite app_nil_r.
  - rewrite IH. unfold check_port, connects.
    destruct (open_connection w ip port timeout) as [[]|e];
      cbn [bind try_except append_open andb].
    + destruct (truthy_int port); [now rewrite <- app_assoc|reflexivity].
    + reflexivity.
Qed.

Lemma filter_ext_in_list {A} (f g : A -> bool) (xs : list A) :
  (forall x, In x xs -> f x = g x) -> filter f xs = filter g xs.
Proof.
  induction xs as [|x xs IH]; intros H; simpl; [reflexivity|].
  rewrite (H x (or_introl eq_refl)), IH; [reflexivity|].
  intros y Hy. apply H. now right.
Qed.

(** C5. For every host and every list of probed TCP ports (port numbers,
    hence none of them 0), [quick_port_scan] returns, without raising, the
    probed ports whose connection attempt succeeded within the 2-second
    timeout, and only those: a port whose attempt failed, whatever the
    failure, is just absent. *)
Theorem quick_port_scan_reports_successful_connections :
  forall (w : world) (ip : string) (ports : list Z),
    ~ In 0 ports ->
    exists found,
      NetworkScanner.quick_port_scan w ip ports = Ok found /\
      found = filter (connects w ip 2) ports /\
      (forall port, In port found <->
                    In port ports /\ open_connection w ip port 2 = Ok tt) /\
      (forall port e, open_connection w ip port 2 = Raise e ->
                      ~ In port found).
Proof.
  intros w ip ports Hzero.
  unfold NetworkScanner.quick_port_scan, gather.
  rewrite fold_append_open. cbn [app].
  assert (Hf : filter (fun port => connects w ip 2 port && truthy_int port)
                      ports
               = filter (connects w ip 2) ports).
  { apply filter_ext_in_list. intros port Hin. unfold truthy_int.
    destruct (Z.eqb_spec port 0) as [->|_]; [contradiction|].
    now rewrite andb_true_r. }
  rewrite Hf. eexists. split; [reflexivity|]. split; [reflexivity|].
  split.
  - intros port. rewrite filter_In. unfold connects.
    destruct (open_connection w ip port 2) as [[]|e]; intuition congruence.
  - intros port e He. rewrite filter_In. unfold connects. rewrite He.
    intros [_ Hc]. discriminate.
Qed.

(** In the laboratory network, probing 21, 22, 80 and 443 on the first host
    reports 22 and 80. *)
Lemma quick_port_scan_reports_successful_connections_witness :
  exists found,
    NetworkScanner.quick_port_scan (lab_world true) "10.0.0.1" [21; 22; 80; 443]
    = Ok found /\
    found = filter (connects (lab_world true) "10.0.0.1" 2) [21; 22; 80; 443] /\
    (forall port, In port found <->
                  In port [21; 22; 80; 443] /\
                  open_connection (lab_world true) "10.0.0.1" port 2 = Ok tt) /\
    (forall port e,
        open_connection (lab_world true) "10.0.0.1" port 2 = Raise e ->
        ~ In port found).
Proof.
  apply (quick_port_scan_reports_successful_connections
           (lab_world true) "10.0.0.1" [21; 22; 80; 443]).
  simpl. intros [H|[H|[H|[H|[]]]]]; discriminate H.
Defined.

(** The quick check of the classifier is the same loop. *)
Lemma _quick_port_check_closed w ip ports :
  _quick_port_check w ip ports
  = Ok (filter (fun port => connects w ip 2 port && truthy_int port) ports).
Proof.
  unfold _quick_port_check, gather. now rewrite fold_append_open.
Qed.

(** C8. [quick_classify] answers ['printer'] when port 9100 is open, else
    ['workstation'] when 3389 is open, else ['server'] when 22 and 80 are
    both open, else ['device'] when 80 or 443 is open, else ['unknown'];
    and the answer depends on the host only through the connection
    attempts to the six probed ports 22, 23, 80, 443, 3389, 9100. *)
Theorem quick_classify_precedence :
  forall (w : world) (device : Device.t),
    quick_classify w device
    = Ok (if connects w (Device.ip device) 2 9100 then "printer"
          else if connects w (Device.ip device) 2 3389 then "workstation"
          else if connects w (Device.ip device) 2 22
                  && connects w (Device.ip device) 2 80 then "server"
          else if connects w (Device.ip device) 2 80
                  || connects w (Device.ip device) 2 443 then "device"
          else "unknown") /\
    forall (w' : world) (device' : Device.t),
      Forall (fun port =>
                connects w' (Device.ip device') 2 port
                = connects w (Device.ip device) 2 port)
             [22; 23; 80; 443; 3389; 9100] ->
      quick_classify w' device' = quick_classify w device.
Proof.
  assert (Hform : forall w device,
    quick_classify w device
    = Ok (if connects w (Device.ip device) 2 9100 then "printer"
          else if connects w (Device.ip device) 2 3389 then "workstation"
          else if connects w (Device.ip device) 2 22
                  && connects w (Device.ip device) 2 80 then "server"
          else if connects w (Device.ip device) 2 80
                  || connects w (Device.ip device) 2 443 then "device"
          else "unknown")).
  { intros w device. unfold quick_classify.
    rewrite _quick_port_check_closed. cbn [bind filter truthy_int Z.eqb negb].
    destruct (connects w (Device.ip device) 2 22),
             (connects w (Device.ip device) 2 23),
             (connects w (Device.ip device) 2 80),
             (connects w (Device.ip device) 2 443),
             (connects w (Device.ip device) 2 3389),
             (connects w (Device.ip device) 2 9100); reflexivity. }
  intros w device. split; [apply Hform|].
  intros w' device' Hsame. rewrite !Hform.
  repeat match goal with
         | H : Forall _ (_ :: _) |- _ =>
             let Hh := fresh "Hh" in
             apply Forall_cons_iff in H; destruct H as [Hh H]; rewrite ?Hh
         end.
  reflexivity.
Qed.

(* ------------------------------------------------------------------ *)
(** ** Operating system by TTL *)
(* ------------------------------------------------------------------ *)

Lemma ttl_loop_parsed pats output :
  ttl_loop pats output = option_map classify_ttl (parsed_ttl pats output).
Proof.
  induction pats as [|pat pats IH]; simpl; [reflexivity|].
  destruct (re_search_digits pat output); [reflexivity|exact IH].
Qed.

(** C6. For a ping that was answered (return code 0) and whose output holds
    a TTL [t] for one of the patterns, the fallback detector returns
    ['Linux/macOS'] when [t <= 64], ['Windows'] when [64 < t <= 128],
    ['Network Device'] when [128 < t <= 255] and ['Unknown'] above 255; so
    64 gives ['Linux/macOS'] and 128 gives ['Windows']. *)
Theorem detect_os_by_ttl_thresholds :
  forall (w : world) (ip output : string) (t : Z),
    ping_output w ip = Ok (0, output) ->
    parsed_ttl ttl_patterns output = Some t ->
    (t <= 64 -> _detect_os_by_ttl w ip = Ok (Some "Linux/macOS")) /\
    (64 < t <= 128 -> _detect_os_by_ttl w ip = Ok (Some "Windows")) /\
    (128 < t <= 255 -> _detect_os_by_ttl w ip = Ok (Some "Network Device")) /\
    (255 < t -> _detect_os_by_ttl w ip = Ok (Some "Unknown")) /\
    (t = 64 -> _detect_os_by_ttl w ip = Ok (Some "Linux/macOS")) /\
    (t = 128 -> _detect_os_by_ttl w ip = Ok (Some "Windows")).
Proof.
  intros w ip output t Hping Hparse.
  assert (Hrun : _detect_os_by_ttl w ip = Ok (Some (classify_ttl t))).
  { unfold _detect_os_by_ttl. rewrite Hping. cbn [bind fst snd].
    change (0 =? 0) with true. cbv iota.
    rewrite ttl_loop_parsed, Hparse. reflexivity. }
  rewrite Hrun. unfold classify_ttl.
  repeat split; intros Ht;
    destruct (Z.leb_spec t 64); try lia;
    destruct (Z.leb_spec t 128); try lia;
    destruct (Z.leb_spec t 255); try lia; reflexivity.
Qed.

(** The first laboratory host answers with [ttl=64]. *)
Lemma detect_os_by_ttl_thresholds_witness :
  ping_output (lab_world true) "10.0.0.1"
  = Ok (0, "64 bytes from 10.0.0.1: icmp_seq=1 ttl=64 time=0.31 ms") /\
  parsed_ttl ttl_patterns
             "64 bytes from 10.0.0.1: icmp_seq=1 ttl=64 time=0.31 ms"
  = Some 64 /\
  _detect_os_by_ttl (lab_world true) "10.0.0.1" = Ok (Some "Linux/macOS").
Proof.
  split; [reflexivity|]. split; [vm_compute; reflexivity|].
  refine (proj1 (detect_os_by_ttl_thresholds
                   (lab_world true) "10.0.0.1"
                   "64 bytes from 10.0.0.1: icmp_seq=1 ttl=64 time=0.31 ms"
                   64 _ _) _).
  - reflexivity.
  - vm_compute. reflexivity.
  - lia.
Defined.

(* ------------------------------------------------------------------ *)
(** ** Host discovery *)
(* ------------------------------------------------------------------ *)

(** The sweep keeps, in address order, the hosts that answer. *)
Lemma fold_append_device w hosts acc :
  fold_left NetworkScanner.append_device
            (map (NetworkScanner.ping_host w) hosts) acc
  = acc ++ map (fun ip => Device.mk ip None PyNone "up")
               (filter (replies w) hosts).
Proof.
  revert acc. induction hosts as [|ip hosts IH]; intros acc; simpl.
  - now rewrite app_nil_r.
  - rewrite IH. unfold NetworkScanner.ping_host, replies.
    destruct (ping_returncode w ip) as [rc|e];
      cbn [bind try_except NetworkScanner.append_device].
    + destruct (rc =? 0);
        cbn [try_except NetworkScanner.append_device map];
        [now rewrite <- app_assoc|reflexivity].
    + reflexivity.
Qed.

Lemma _ping_discovery_closed w target hosts :
  ip_network_hosts w target = Ok hosts ->
  NetworkScanner._ping_discovery w target
  = Ok (map (fun ip => Device.mk ip None PyNone "up")
            (filter (replies w) hosts)).
Proof.
  intros Hh. unfold NetworkScanner._ping_discovery, gather. rewrite Hh.
  cbn [bind]. now rewrite fold_append_device.
Qed.

(** C7. When the primary technique raises, [discover_devices] returns what
    the ping sweep returns, not the primary's failure: for a target that
    names addresses, the list of the addresses that answered; and when
    none of them answers, the empty list, as an ordinary result. *)
Theorem discover_devices_falls_back_to_ping_sweep :
  forall (w : world) (target : string) (e : exn),
    nmap_host_states w target = Raise e ->
    NetworkScanner.discover_devices w target
    = NetworkScanner._ping_discovery w target /\
    (forall hosts,
        ip_network_hosts w target = Ok hosts ->
        NetworkScanner.discover_devices w target
        = Ok (map (fun ip => Device.mk ip None PyNone "up")
                  (filter (replies w) hosts)) /\
        ((forall ip, In ip hosts -> replies w ip = false) ->
         NetworkScanner.discover_devices w target = Ok [])).
Proof.
  intros w target e Hprimary.
  assert (Hfall : NetworkScanner.discover_devices w target
                  = NetworkScanner._ping_discovery w target).
  { unfold NetworkScanner.discover_devices. rewrite Hprimary. reflexivity. }
  split; [exact Hfall|].
  intros hosts Hhosts. rewrite Hfall, (_ping_discovery_closed w target hosts Hhosts).
  split; [reflexivity|].
  intros Hnone. f_equal.
  replace (filter (replies w) hosts) with (@nil string); [reflexivity|].
  symmetry. clear Hhosts.
  induction hosts as [|ip hosts IH]; simpl; [reflexivity|].
  rewrite (Hnone ip (or_introl eq_refl)). apply IH.
  intros ip' Hin. apply Hnone. now right.
Qed.

(** Without the nmap client, the sweep of 10.0.0.0/30 finds the two hosts
    and the sweep of the silent 10.0.9.0/30 finds none. *)
Lemma discover_devices_falls_back_to_ping_sweep_witness :
  NetworkScanner.discover_devices (lab_world false) "10.0.0.0/30"
  = Ok [ Device.mk "10.0.0.1" None PyNone "up";
         Device.mk "10.0.0.2" None PyNone "up" ] /\
  NetworkScanner.discover_devices (lab_world false) "10.0.9.0/30" = Ok [].
Proof.
  split.
  - refine (proj1 (proj2 (discover_devices_falls_back_to_ping_sweep
                            (lab_world false) "10.0.0.0/30" PortScannerError
                            _)
                         ["10.0.0.1"; "10.0.0.2"] _)); reflexivity.
  - refine (proj2 (proj2 (discover_devices_falls_back_to_ping_sweep
                            (lab_world false) "10.0.9.0/30" PortScannerError
                            _)
                         ["10.0.9.1"; "10.0.9.2"] _) _).
    + reflexivity.
    + reflexivity.
    + intros ip [<-|[<-|[]]]; reflexivity.
Defined.

(* ------------------------------------------------------------------ *)
(** ** The orchestrator *)
(* ------------------------------------------------------------------ *)

Lemma scan_network_dispatch w cfg target mode detailed :
  scan_network w cfg target mode detailed
  = if String.eqb mode "local" && detailed
    then detailed_run w cfg target
    else discovery_run w target.
Proof.
  unfold scan_network, detailed_run, discovery_run.
  destruct (NetworkScanner.discover_devices w target); cbn [bind];
    destruct (String.eqb mode "local" && detailed); reflexivity.
Qed.

(** Every result of a run comes from one candidate of the discovery. *)
Lemma discovery_run_results w target results r :
  discovery_run w target = Ok results -> In r results ->
  exists devices device,
    NetworkScanner.discover_devices w target = Ok devices /\
    In device devices /\ _discovery_scan w device = Ok r.
Proof.
  unfold discovery_run. intros H Hin. bind_ok H.
  apply for_each_ok in H.
  destruct (Forall2_in_right _ _ _ _ H Hin) as (device & Hd & Hr).
  eauto.
Qed.

Lemma detailed_run_results w cfg target results r :
  detailed_run w cfg target = Ok results -> In r results ->
  exists devices device,
    NetworkScanner.discover_devices w target = Ok devices /\
    In device devices /\ _detailed_local_scan w cfg device = Ok r.
Proof.
  unfold detailed_run. intros H Hin. bind_ok H.
  apply for_each_ok in H.
  destruct (Forall2_in_right _ _ _ _ H Hin) as (device & Hd & Hr).
  eauto.
Qed.

(** A result is stamped by the pipeline that produced it. *)
Lemma discovery_stamp w device r :
  _discovery_scan w device = Ok r -> scan_mode r = "discovery".
Proof.
  intros H. destruct (_discovery_scan_result w device)
    as (r' & label & Hr' & _ & _ & _ & _ & _ & _ & Hmode).
  rewrite H in Hr'. now injection Hr' as <-.
Qed.

Lemma detailed_stamp w cfg device r :
  _detailed_local_scan w cfg device = Ok r -> scan_mode r = "local_detailed".
Proof.
  intros H. destruct (_detailed_local_scan_result w cfg device r H)
    as (label & found & _ & _ & _ & _ & _ & _ & _ & _ & Hmode).
  exact Hmode.
Qed.

(** C9. With mode ['local'] and [detailed=False], [scan_network] is the
    discovery run, the same as with mode ['discovery']: every result is the
    discovery pipeline of one candidate (quick classification, the fixed
    common-port scan, the guarded vendor lookup) and is stamped
    ['discovery']. The detailed pipeline runs exactly when the mode is
    ['local'] and [detailed] is set, and a result stamped
    ['local_detailed'] appears in no other case. *)
Theorem scan_network_local_without_detailed_is_discovery :
  forall (w : world) (cfg : Config.t) (target : string),
    scan_network w cfg target "local" false = discovery_run w target /\
    (forall detailed,
        scan_network w cfg target "discovery" detailed
        = scan_network w cfg target "local" false) /\
    (forall results r,
        scan_network w cfg target "local" false = Ok results ->
        In r results ->
        scan_mode r = "discovery" /\
        exists device label,
          _discovery_scan w device = Ok r /\
          quick_classify w device = Ok label /\
          device_type r = Some label /\
          NetworkScanner.quick_port_scan w (Device.ip device)
                                         discovery_common_ports
          = Ok (open_ports r)) /\
    scan_network w cfg target "local" true = detailed_run w cfg target /\
    (forall mode detailed,
        String.eqb mode "local" && detailed = false ->
        scan_network w cfg target mode detailed = discovery_run w target) /\
    (forall mode detailed results r,
        scan_network w cfg target mode detailed = Ok results ->
        In r results ->
        scan_mode r = "local_detailed" ->
        mode = "local" /\ detailed = true).
Proof.
  intros w cfg target.
  split; [now rewrite scan_network_dispatch|].
  split; [intros detailed; now rewrite !scan_network_dispatch|].
  split.
  { intros results r Hrun Hin. rewrite scan_network_dispatch in Hrun.
    cbn [String.eqb Ascii.eqb Bool.eqb andb] in Hrun.
    destruct (discovery_run_results w target results r Hrun Hin)
      as (devices & device & _ & _ & Hr).
    split; [exact (discovery_stamp w device r Hr)|].
    destruct (_discovery_scan_result w device)
      as (r' & label & Hr' & Hq & _ & _ & _ & Hdt & Hports & _).
    rewrite Hr in Hr'. injection Hr' as <-.
    exists device, label. repeat split; auto.
    unfold NetworkScanner.quick_port_scan, gather, discovery_common_ports.
    now rewrite Hports. }
  split; [now rewrite scan_network_dispatch|].
  split; [intros mode detailed Hm; now rewrite scan_network_dispatch, Hm|].
  intros mode detailed results r Hrun Hin Hstamp.
  rewrite scan_network_dispatch in Hrun.
  destruct (String.eqb mode "local" && detailed) eqn:Hm.
  - apply andb_true_iff in Hm. destruct Hm as [Hmode Hdet].
    now apply String.eqb_eq in Hmode.
  - destruct (discovery_run_results w target results r Hrun Hin)
      as (devices & device & _ & _ & Hr).
    rewrite (discovery_stamp w device r Hr) in Hstamp. discriminate.
Qed.

(** C10. Whatever the mode, no returned result carries a host name: each
    result belongs to a discovered candidate, whose name, resolved or not,
    is not copied; in the detailed pipeline the candidate (with its name)
    is what the classifier was given. *)
Theorem scan_results_never_carry_hostname :
  forall (w : world) (cfg : Config.t) (target mode : string)
         (detailed : bool) (results : list ScanResult) (r : ScanResult),
    scan_network w cfg target mode detailed = Ok results ->
    In r results ->
    hostname r = None /\
    exists devices device,
      NetworkScanner.discover_devices w target = Ok devices /\
      In device devices /\
      ip_address r = Device.ip device /\
      (scan_mode r = "local_detailed" ->
       exists label, classify_device w device = Ok label /\
                     device_type r = Some label).
Proof.
  intros w cfg target mode detailed results r Hrun Hin.
  rewrite scan_network_dispatch in Hrun.
  destruct (String.eqb mode "local" && detailed).
  - destruct (detailed_run_results w cfg target results r Hrun Hin)
      as (devices & device & Hd & Hdev & Hr).
    destruct (_detailed_local_scan_result w cfg device r Hr)
      as (label & found & Hc & _ & Hip & _ & Hh & Hdt & _).
    split; [exact Hh|]. exists devices, device. repeat split; eauto.
  - destruct (discovery_run_results w target results r Hrun Hin)
      as (devices & device & Hd & Hdev & Hr).
    pose proof (discovery_stamp w device r Hr) as Hstamp.
    destruct (_discovery_scan_result w device)
      as (r' & label & Hr' & _ & Hip & _ & Hh & _).
    rewrite Hr in Hr'. injection Hr' as <-.
    split; [exact Hh|]. exists devices, device. repeat split; auto.
    intros Hd'. rewrite Hstamp in Hd'. discriminate.
Qed.

(** The first laboratory host resolves to a name; its detailed result has
    none. *)
Lemma scan_results_never_carry_hostname_witness :
  exists r,
    NetworkScanner.discover_devices (lab_world true) "10.0.0.1"
    = Ok [Device.mk "10.0.0.1" (Some "00:0C:29:12:34:56")
                    (PyStr "NGINX-web.lan") "up"] /\
    scan_network (lab_world true) Config.default "10.0.0.1" "local" true
    = Ok [r] /\
    hostname r = None.
Proof.
  destruct (scan_network (lab_world true) Config.default "10.0.0.1"
                         "local" true) as [[|r [|r' rest]]|e] eqn:Hrun;
    try (vm_compute in Hrun; discriminate Hrun).
  exists r. split; [vm_compute; reflexivity|]. split; [reflexivity|].
  exact (proj1 (scan_results_never_carry_hostname
                  (lab_world true) Config.default "10.0.0.1" "local" true
                  [r] r Hrun (or_introl eq_refl))).
Defined.

(* ------------------------------------------------------------------ *)
(** ** Open ports of a result *)
(* ------------------------------------------------------------------ *)

Section PortDict.

Context {V : Type}.

Lemma dict_set_keys_in (d : list (Z * V)) k v x :
  In x (keys (dict_set Z.eqb d k v)) -> x = k \/ In x (keys d).
Proof.
  induction d as [|[k' v'] d IH]; simpl.
  - intros [<-|[]]. now left.
  - destruct (Z.eqb_spec k' k) as [->|Hne]; simpl.
    + intros [<-|Hin]; auto.
    + intros [<-|Hin]; auto. destruct (IH Hin); auto.
Qed.

Lemma dict_set_keys_nodup (d : list (Z * V)) k v :
  NoDup (keys d) -> NoDup (keys (dict_set Z.eqb d k v)).
Proof.
  induction d as [|[k' v'] d IH]; simpl; intros Hnd.
  - constructor; [intros []|constructor].
  - apply NoDup_cons_iff in Hnd. destruct Hnd as [Hnotin Hnd].
    destruct (Z.eqb_spec k' k) as [->|Hne]; simpl.
    + constructor; assumption.
    + constructor; [|now apply IH].
      intros Hin. apply dict_set_keys_in in Hin.
      destruct Hin as [->|Hin]; [now apply Hne|now apply Hnotin].
Qed.

End PortDict.

(** Keys of the table built from the pairs an nmap scan reports. *)
Lemma reported_services_keys (reported : list (Z * string)) :
  forall acc,
    NoDup (keys acc) ->
    NoDup (keys (fold_left (fun services port_name =>
                              dict_set Z.eqb services (fst port_name)
                                       (snd port_name))
                           reported acc)) /\
    (forall port,
        In port (keys (fold_left (fun services port_name =>
                                    dict_set Z.eqb services (fst port_name)
                                             (snd port_name))
                                 reported acc)) ->
        In port (keys acc) \/ In port (map fst reported)).
Proof.
  induction reported as [|[p name] reported IH]; intros acc Hnd; simpl.
  - split; [exact Hnd|]. auto.
  - destruct (IH (dict_set Z.eqb acc p name) (dict_set_keys_nodup acc p name Hnd))
      as [Hnd' Hsub].
    split; [exact Hnd'|].
    intros port Hin. destruct (Hsub port Hin) as [Hk|Hr]; [|auto].
    apply dict_set_keys_in in Hk. destruct Hk as [->|Hk]; auto.
Qed.

(** One step of the basic scan's collecting loop. *)
Lemma store_checked_service w cfg ip port acc :
  NetworkScanner.store_service
    acc (NetworkScanner.check_service_port w cfg ip port)
  = if connects w ip (Config.async_timeout cfg) port
    then dict_set Z.eqb acc port
                  (NetworkScanner.service_name
                     NetworkScanner.common_services port)
    else acc.
Proof.
  unfold NetworkScanner.check_service_port, connects.
  destruct (open_connection w ip port (Config.async_timeout cfg)) as [[]|e];
    reflexivity.
Qed.

(** Keys of the table built by the basic scan. *)
Lemma basic_services_keys w cfg ip (ports : list Z) :
  forall acc,
    NoDup (keys acc) ->
    NoDup (keys (fold_left NetworkScanner.store_service
                           (map (NetworkScanner.check_service_port w cfg ip)
                                ports) acc)) /\
    (forall port,
        In port (keys (fold_left NetworkScanner.store_service
                                 (map (NetworkScanner.check_service_port
                                         w cfg ip) ports) acc)) ->
        In port (keys acc) \/
        (In port ports /\
         connects w ip (Config.async_timeout cfg) port = true)).
Proof.
  induction ports as [|p ports IH]; intros acc Hnd; cbn [map fold_left].
  - split; [exact Hnd|]. auto.
  - rewrite store_checked_service.
    destruct (connects w ip (Config.async_timeout cfg) p) eqn:Hconn.
    + destruct (IH _ (dict_set_keys_nodup
                        acc p (NetworkScanner.service_name
                                 NetworkScanner.common_services p) Hnd))
        as [Hnd' Hsub].
      split; [exact Hnd'|].
      intros port Hin. destruct (Hsub port Hin) as [Hk|[Hp Hc]].
      * apply dict_set_keys_in in Hk. destruct Hk as [->|Hk]; [|auto].
        right. split; [now left|exact Hconn].
      * right. split; [now right|exact Hc].
    + destruct (IH acc Hnd) as [Hnd' Hsub].
      split; [exact Hnd'|].
      intros port Hin. destruct (Hsub port Hin) as [Hk|[Hp Hc]]; [auto|].
      right. split; [now right|exact Hc].
Qed.

(** The service table has one row per port; its ports are those the
    all-ports scan reported or, when that scan raised, fallback ports that
    accepted a connection. *)
Lemma scan_services_keys w cfg ip found :
  NetworkScanner.scan_services w cfg ip = Ok found ->
  NoDup (keys found) /\
  (forall port,
      In port (keys found) ->
      (exists reported,
          nmap_service_scan w ip = Ok reported /\
          In port (map fst reported)) \/
      (exists e,
          nmap_service_scan w ip = Raise e /\
          In port (keys NetworkScanner.common_services) /\
          connects w ip (Config.async_timeout cfg) port = true)).
Proof.
  unfold NetworkScanner.scan_services.
  destruct (nmap_service_scan w ip) as [reported|e] eqn:Hscan;
    cbn [bind try_except].
  - intros H. injection H as <-.
    destruct (reported_services_keys reported [] (NoDup_nil _)) as [Hnd Hsub].
    split; [exact Hnd|].
    intros port Hin. left. exists reported. split; [reflexivity|].
    destruct (Hsub port Hin) as [[]|Hr]. exact Hr.
  - unfold NetworkScanner._basic_port_scan, gather. intros H. injection H as <-.
    destruct (basic_services_keys w cfg ip
                (keys NetworkScanner.common_services) [] (NoDup_nil _))
      as [Hnd Hsub].
    split; [exact Hnd|].
    intros port Hin. right. exists e. split; [reflexivity|].
    destruct (Hsub port Hin) as [[]|Hr]. exact Hr.
Qed.

Lemma range_from_bounds n : forall lo x,
  In x (Config.range_from lo n) -> lo <= x < lo + Z.of_nat n.
Proof.
  induction n as [|n IH]; intros lo x; simpl Config.range_from.
  - intros [].
  - intros [<-|Hin]; [lia|]. apply IH in Hin. lia.
Qed.

Lemma discovery_common_ports_nodup : NoDup discovery_common_ports.
Proof.
  unfold discovery_common_ports.
  repeat (constructor; [simpl; intuition discriminate|]). constructor.
Qed.

(** C4, as stated, fails in both modes. With the default configuration a
    detailed scan of the first laboratory host reports port 3306, which is
    outside the configured detailed-scan ports 1..1024; with the discovery
    port set narrowed to port 80, a discovery scan of the same host reports
    port 22. *)
Lemma open_ports_outside_configured_universe :
  (exists r,
      scan_network (lab_world true) Config.default "10.0.0.1" "local" true
      = Ok [r] /\
      scan_mode r = "local_detailed" /\
      In 3306 (open_ports r) /\
      ~ In 3306 (Config.detailed_scan_ports Config.default)) /\
  (exists r,
      scan_network (lab_world true) narrow_config "10.0.0.1" "discovery" false
      = Ok [r] /\
      scan_mode r = "discovery" /\
      In 22 (open_ports r) /\
      ~ In 22 (Config.quick_scan_ports narrow_config)).
Proof.
  split.
  - eexists. split; [vm_compute; reflexivity|].
    split; [reflexivity|]. split; [simpl; tauto|].
    intros Hin. apply range_from_bounds in Hin.
    change (Z.of_nat 1024) with 1024 in Hin. lia.
  - eexists. split; [vm_compute; reflexivity|].
    split; [reflexivity|]. split; [simpl; tauto|].
    simpl. intros [H|[]]. discriminate H.
Qed.

(** C4, amended. In every returned result [open_ports] has no duplicate. In
    a discovery result every port is one of the fifteen ports the pipeline
    probes (all of them in the default discovery port set); in a detailed
    result every port is one the all-ports scan reported for that host or,
    when that scan raised, one of the fallback service ports. The
    configured port sets play no part. *)
Theorem open_ports_distinct_and_among_probed_ports :
  forall (w : world) (cfg : Config.t) (target mode : string)
         (detailed : bool) (results : list ScanResult) (r : ScanResult),
    scan_network w cfg target mode detailed = Ok results ->
    In r results ->
    NoDup (open_ports r) /\
    (scan_mode r = "discovery" \/ scan_mode r = "local_detailed") /\
    (scan_mode r = "discovery" ->
     incl (open_ports r) discovery_common_ports /\
     incl discovery_common_ports (Config.quick_scan_ports Config.default)) /\
    (scan_mode r = "local_detailed" ->
     forall port,
       In port (open_ports r) ->
       (exists reported,
           nmap_service_scan w (ip_address r) = Ok reported /\
           In port (map fst reported)) \/
       (exists e,
           nmap_service_scan w (ip_address r) = Raise e /\
           In port (keys NetworkScanner.common_services))).
Proof.
  intros w cfg target mode detailed results r Hrun Hin.
  rewrite scan_network_dispatch in Hrun.
  destruct (String.eqb mode "local" && detailed).
  - destruct (detailed_run_results w cfg target results r Hrun Hin)
      as (devices & device & _ & _ & Hr).
    destruct (_detailed_local_scan_result w cfg device r Hr)
      as (label & found & _ & Hfound & Hip & _ & _ & _ & _ & Hports & Hmode).
    destruct (scan_services_keys w cfg (Device.ip device) found Hfound)
      as [Hnd Hsub].
    rewrite Hports, Hmode, Hip.
    split; [exact Hnd|]. split; [now right|].
    split; [intros H; discriminate H|].
    intros _ port Hp. destruct (Hsub port Hp) as [Hl|(e & He & Hc & _)]; eauto.
  - destruct (discovery_run_results w target results r Hrun Hin)
      as (devices & device & _ & _ & Hr).
    destruct (_discovery_scan_result w device)
      as (r' & label & Hr' & _ & _ & _ & _ & _ & Hports & Hmode).
    rewrite Hr in Hr'. injection Hr' as <-.
    rewrite fold_append_open in Hports. cbn [app] in Hports.
    fold discovery_common_ports in Hports.
    rewrite Hports, Hmode.
    split; [apply NoDup_filter, discovery_common_ports_nodup|].
    split; [now left|].
    split; [|intros H; discriminate H].
    intros _. split.
    + intros port Hp. apply filter_In in Hp. tauto.
    + intros port Hp. unfold discovery_common_ports in Hp. simpl in Hp.
      simpl. tauto.
Qed.

(** The detailed scan of the first laboratory host returns one result with
    the distinct ports 22, 80 and 3306, found by the fallback scan. *)
Lemma open_ports_distinct_and_among_probed_ports_witness :
  exists r,
    scan_network (lab_world true) Config.default "10.0.0.1" "local" true
    = Ok [r] /\
    open_ports r = [22; 80; 3306] /\
    NoDup (open_ports r).
Proof.
  destruct (scan_network (lab_world true) Config.default "10.0.0.1"
                         "local" true) as [[|r [|r' rest]]|e] eqn:Hrun;
    try (vm_compute in Hrun; discriminate Hrun).
  exists r. split; [reflexivity|].
  split; [vm_compute in Hrun; injection Hrun as <-; reflexivity|].
  exact (proj1 (open_ports_distinct_and_among_probed_ports
                  (lab_world true) Config.default "10.0.0.1" "local" true
                  [r] r Hrun (or_introl eq_refl))).
Defined.

(* ------------------------------------------------------------------ *)
(** ** More on device classification *)
(* ------------------------------------------------------------------ *)

(** X4. A label returned by [classify_device] is always justified by the
    score table: ['unknown'] is returned only when no pattern has a
    positive score, and any other label is a registry label that attains
    the greatest score, which is positive. *)
Theorem classify_device_label_is_justified :
  forall (w : world) (device : Device.t) (label : string),
    classify_device w device = Ok label ->
    (label = "unknown" /\ forall l s, attains w device l s -> s <= 0) \/
    (In label (keys device_patterns) /\
     exists s, attains w device label s /\ 0 < s /\
               forall l s', attains w device l s' -> s' <= s).
Proof.
  intros w device label Hc.
  destruct (device_scores w device) as [table|e] eqn:Ht;
    [|unfold classify_device in Hc; rewrite Ht in Hc; discriminate Hc].
  destruct (device_scores_rows w device table Ht)
    as (ps & ss & h & _ & _ & _ & Htable).
  set (f := weighted_score ps ss h) in *.
  rewrite (classify_device_from_table w device table Ht) in Hc.
  destruct table as [|x rest]; [discriminate Htable|].
  assert (Hwin : max_by_value (map (score_row f) device_patterns)
                 = Ok (max_by_value_from x rest)) by now rewrite <- Htable.
  destruct (first_maximum_has_lowest_priority device_patterns f
              device_patterns_by_priority _ Hwin)
    as (e & He & Hrow & Hle & _).
  remember (max_by_value_from x rest) as best eqn:Hbest. clear Hbest.
  assert (Hbound : forall l s, attains w device l s -> s <= snd best).
  { intros l s [table' [Ht' Hin]]. rewrite Ht in Ht'. injection Ht' as <-.
    rewrite Htable in Hin. apply in_map_iff in Hin.
    destruct Hin as (e' & He' & Hin). inversion He'; subst s.
    now apply Hle. }
  subst best. cbn [score_row fst snd] in *.
  destruct (Z.gtb_spec (f (snd e)) 0) as [Hpos|Hzero];
    injection Hc as <-.
  - right. split.
    + unfold keys. now apply in_map.
    + exists (f (snd e)). split; [|split; [lia|exact Hbound]].
      exists (x :: rest). split; [exact Ht|].
      rewrite Htable. change (fst e, f (snd e)) with (score_row f e).
      now apply in_map.
  - left. split; [reflexivity|].
    intros l s Hat. specialize (Hbound l s Hat). lia.
Qed.

(** The host named [NGINX-1] with port 80 open is classified ['server'],
    which attains 7. *)
Lemma classify_device_label_is_justified_witness :
  In "server" (keys device_patterns) /\
  exists s, attains (fast_scan_world [80]) nginx_host "server" s /\ 0 < s /\
            forall l s', attains (fast_scan_world [80]) nginx_host l s' ->
                         s' <= s.
Proof.
  destruct (classify_device_label_is_justified
              (fast_scan_world [80]) nginx_host "server")
    as [[Hu _]|H].
  - vm_compute. reflexivity.
  - discriminate Hu.
  - exact H.
Defined.

Lemma score_pattern_same_lowering ps ss d1 d2 pat :
  call_lower (get_or (Device.hostname d1) "")
  = call_lower (get_or (Device.hostname d2) "") ->
  score_pattern ps ss d1 pat = score_pattern ps ss d2 pat.
Proof. intros H. unfold score_pattern. now rewrite H. Qed.

Lemma score_loop_same_lowering ps ss d1 d2 :
  call_lower (get_or (Device.hostname d1) "")
  = call_lower (get_or (Device.hostname d2) "") ->
  forall items acc,
    score_loop ps ss d1 items acc = score_loop ps ss d2 items acc.
Proof.
  intros H. induction items as [|[label pat] items IH]; intros acc.
  - reflexivity.
  - cbn [score_loop]. rewrite (score_pattern_same_lowering ps ss d1 d2 pat H).
    destruct (score_pattern ps ss d2 pat); cbn [bind]; [apply IH|reflexivity].
Qed.

Lemma lower_char_idempotent c : lower_char (lower_char c) = lower_char c.
Proof.
  destruct c as [[] [] [] [] [] [] [] []]; reflexivity.
Qed.

Lemma lower_idempotent s : lower (lower s) = lower s.
Proof.
  induction s as [|c s IH]; simpl; [reflexivity|].
  now rewrite lower_char_idempotent, IH.
Qed.

(** X5. [classify_device] reads the candidate only through its address and
    the lower-cased host name: two candidates at the same address whose
    names differ in letter case only get the same answer, whatever their
    MAC and state entries; so does a candidate without the ['hostname']
    key and one whose name is the empty string. *)
Theorem classify_device_ignores_hostname_case :
  forall (w : world) (ip : string) (mac1 mac2 : option string)
         (state1 state2 name1 name2 : string),
    lower name1 = lower name2 ->
    classify_device w (Device.mk ip mac1 (PyStr name1) state1)
    = classify_device w (Device.mk ip mac2 (PyStr name2) state2) /\
    classify_device w (Device.mk ip mac1 (PyStr name1) state1)
    = classify_device w (Device.mk ip mac2 (PyStr (lower name1)) state2) /\
    classify_device w (Device.mk ip mac1 Missing state1)
    = classify_device w (Device.mk ip mac2 (PyStr "") state2).
Proof.
  intros w ip mac1 mac2 state1 state2 name1 name2 Hlow.
  assert (Hsame : forall d1 d2,
             Device.ip d1 = Device.ip d2 ->
             call_lower (get_or (Device.hostname d1) "")
             = call_lower (get_or (Device.hostname d2) "") ->
             classify_device w d1 = classify_device w d2).
  { intros d1 d2 Hip Hh. unfold classify_device, device_scores.
    rewrite Hip.
    destruct (_get_open_ports w (Device.ip d2)); cbn [bind]; [|reflexivity].
    destruct (_get_services w (Device.ip d2)); cbn [bind]; [|reflexivity].
    now rewrite (score_loop_same_lowering _ _ d1 d2 Hh). }
  repeat split; apply Hsame; cbn [Device.ip Device.hostname get_or call_lower];
    try reflexivity.
  - now rewrite Hlow.
  - now rewrite lower_idempotent.
Qed.

(** [NGINX-1] and [nginx-1] name the same host for the classifier. *)
Lemma classify_device_ignores_hostname_case_witness :
  classify_device (fast_scan_world [80])
                  (Device.mk "10.0.0.7" None (PyStr "NGINX-1") "up")
  = classify_device (fast_scan_world [80])
                    (Device.mk "10.0.0.7" (Some "00:0C:29:12:34:56")
                               (PyStr "nginx-1") "down").
Proof.
  exact (proj1 (classify_device_ignores_hostname_case
                  (fast_scan_world [80]) "10.0.0.7" None
                  (Some "00:0C:29:12:34:56") "up" "down" "NGINX-1" "nginx-1"
                  eq_refl)).
Defined.

(* ------------------------------------------------------------------ *)
(** ** More on operating system detection *)
(* ------------------------------------------------------------------ *)

Lemma classify_ttl_labels t :
  In (classify_ttl t) ["Linux/macOS"; "Windows"; "Network Device"; "Unknown"].
Proof.
  unfold classify_ttl.
  destruct (t <=? 64); [simpl; tauto|].
  destruct (t <=? 128); [simpl; tauto|].
  destruct (t <=? 255); simpl; tauto.
Qed.

(** X7. [detect_os] never raises. The first OS match of the nmap client is
    the answer when there is one; otherwise, also when the client raises,
    the answer is that of the TTL fallback, one of its four labels. The
    answer is [None] only when there is no nmap match and no TTL could be
    read from an answered ping. *)
Theorem detect_os_fallback_chain :
  forall (w : world) (device : Device.t),
    exists answer,
      detect_os w device = Ok answer /\
      (forall name,
          nmap_os_match w (Device.ip device) = Ok (Some name) ->
          answer = Some name) /\
      ((forall name, nmap_os_match w (Device.ip device) <> Ok (Some name)) ->
       _detect_os_by_ttl w (Device.ip device) = Ok answer /\
       forall label,
         answer = Some label ->
         In label ["Linux/macOS"; "Windows"; "Network Device"; "Unknown"]) /\
      (answer = None ->
       (forall name, nmap_os_match w (Device.ip device) <> Ok (Some name)) /\
       forall output,
         ping_output w (Device.ip device) = Ok (0, output) ->
         parsed_ttl ttl_patterns output = None).
Proof.
  intros w device. set (ip := Device.ip device).
  assert (Httl : exists answer,
             _detect_os_by_ttl w ip = Ok answer /\
             (forall label, answer = Some label ->
                In label ["Linux/macOS"; "Windows"; "Network Device";
                          "Unknown"]) /\
             (answer = None ->
              forall output, ping_output w ip = Ok (0, output) ->
                             parsed_ttl ttl_patterns output = None)).
  { unfold _detect_os_by_ttl.
    destruct (ping_output w ip) as [[rc out]|e]; cbn [bind try_except fst snd].
    - destruct (Z.eqb_spec rc 0) as [->|Hrc]; cbn [try_except].
      + rewrite ttl_loop_parsed.
        destruct (parsed_ttl ttl_patterns out) as [t|] eqn:Hp; cbn [option_map].
        * eexists. split; [reflexivity|]. split.
          -- intros label H. injection H as <-. apply classify_ttl_labels.
          -- discriminate.
        * exists None. split; [reflexivity|]. split; [discriminate|].
          intros _ output H. injection H as <-. exact Hp.
      + exists None. split; [reflexivity|]. split; [discriminate|].
        intros _ output H. injection H as Hz _. contradiction.
    - exists None. split; [reflexivity|]. split; [discriminate|].
      intros _ output H. discriminate H. }
  unfold detect_os. fold ip.
  destruct (nmap_os_match w ip) as [[name|]|e] eqn:Hn.
  - exists (Some name). split; [reflexivity|]. split.
    + intros name' H. now injection H as <-.
    + split; [intros H; exfalso; now apply (H name)|discriminate].
  - destruct Httl as (answer & Hrun & Hlab & Hnone).
    exists answer. split; [exact Hrun|]. split; [discriminate|].
    split; [intros _; split; assumption|].
    intros Ha. split; [discriminate|now apply Hnone].
  - destruct Httl as (answer & Hrun & Hlab & Hnone).
    exists answer. split; [exact Hrun|]. split; [discriminate|].
    split; [intros _; split; assumption|].
    intros Ha. split; [discriminate|now apply Hnone].
Qed.

Lemma is_digit_lower_char c : is_digit (lower_char c) = is_digit c.
Proof. destruct c as [[] [] [] [] [] [] [] []]; reflexivity. Qed.

Lemma lower_char_of_digit c : is_digit c = true -> lower_char c = c.
Proof.
  destruct c as [[] [] [] [] [] [] [] []]; intros H;
    first [reflexivity|discriminate H].
Qed.

Lemma digit_value_nonneg c :
  is_digit c = true -> 0 <= Z.of_N (N_of_ascii c) - 48.
Proof.
  destruct c as [[] [] [] [] [] [] [] []]; intros H;
    first [discriminate H|vm_compute; discriminate].
Qed.

Lemma match_literal_lower literal s :
  match_literal literal (lower s) = option_map lower (match_literal literal s).
Proof.
  revert s. induction literal as [|a literal IH]; intros s; simpl.
  - reflexivity.
  - destruct s as [|b s]; simpl; [reflexivity|].
    rewrite lower_char_idempotent.
    destruct (Ascii.eqb (lower_char a) (lower_char b)); [apply IH|reflexivity].
Qed.

Lemma match_literal_lower_literal literal s :
  match_literal (lower literal) s = match_literal literal s.
Proof.
  revert s. induction literal as [|a literal IH]; intros s; simpl.
  - reflexivity.
  - destruct s as [|b s]; [reflexivity|].
    rewrite lower_char_idempotent.
    destruct (Ascii.eqb (lower_char a) (lower_char b)); [apply IH|reflexivity].
Qed.

Lemma digits_prefix_lower s : digits_prefix (lower s) = digits_prefix s.
Proof.
  induction s as [|c s IH]; simpl; [reflexivity|].
  rewrite is_digit_lower_char. destruct (is_digit c) eqn:Hc; [|reflexivity].
  now rewrite (lower_char_of_digit c Hc), IH.
Qed.

Lemma digits_prefix_fixed s : digits_prefix (digits_prefix s) = digits_prefix s.
Proof.
  induction s as [|c s IH]; simpl; [reflexivity|].
  destruct (is_digit c) eqn:Hc; simpl; [|reflexivity].
  now rewrite Hc, IH.
Qed.

(** One step of the search. *)
Lemma re_search_digits_step literal s :
  re_search_digits literal s
  = match
      match match_literal literal s with
      | Some rest =>
          match digits_prefix rest with
          | EmptyString => None
          | String c ds => Some (String c ds)
          end
      | None => None
      end
    with
    | Some group => Some group
    | None =>
        match s with
        | EmptyString => None
        | String _ s' => re_search_digits literal s'
        end
    end.
Proof. destruct s; reflexivity. Qed.

Lemma re_search_digits_lower literal s :
  re_search_digits literal (lower s) = re_search_digits literal s.
Proof.
  induction s as [|c s IH].
  - reflexivity.
  - rewrite (re_search_digits_step literal (lower (String c s))).
    rewrite (re_search_digits_step literal (String c s)).
    rewrite match_literal_lower.
    destruct (match_literal literal (String c s)) as [rest|];
      cbn [option_map].
    + rewrite digits_prefix_lower.
      destruct (digits_prefix rest); [exact IH|reflexivity].
    + exact IH.
Qed.

Lemma re_search_digits_lower_literal literal s :
  re_search_digits (lower literal) s = re_search_digits literal s.
Proof.
  induction s as [|c s IH].
  - rewrite !(re_search_digits_step _ EmptyString).
    now rewrite match_literal_lower_literal.
  - rewrite (re_search_digits_step (lower literal) (String c s)).
    rewrite (re_search_digits_step literal (String c s)).
    rewrite match_literal_lower_literal, IH. reflexivity.
Qed.

Lemma re_search_digits_group literal s group :
  re_search_digits literal s = Some group -> digits_prefix group = group.
Proof.
  induction s as [|c s IH]; rewrite re_search_digits_step.
  - destruct (match_literal literal EmptyString) as [rest|]; [|discriminate].
    destruct (digits_prefix rest) eqn:Hd; [discriminate|].
    intros H. injection H as <-. rewrite <- Hd. apply digits_prefix_fixed.
  - destruct (match_literal literal (String c s)) as [rest|]; [|exact IH].
    destruct (digits_prefix rest) eqn:Hd; [exact IH|].
    intros H. injection H as <-. rewrite <- Hd. apply digits_prefix_fixed.
Qed.

Lemma int_of_digits_nonneg group :
  digits_prefix group = group ->
  forall acc, 0 <= acc -> 0 <= int_of_digits acc group.
Proof.
  induction group as [|c group IH]; cbn [int_of_digits digits_prefix];
    intros Hd acc Hacc; [exact Hacc|].
  destruct (is_digit c) eqn:Hc; [|discriminate Hd].
  injection Hd as Hd. apply IH; [exact Hd|].
  pose proof (digit_value_nonneg c Hc). lia.
Qed.

(** X8. Reading the TTL off a ping output does not depend on letter case:
    lower-casing the whole output changes nothing. The pattern spelled
    [TTL=] never decides, since the pattern spelled [ttl=], tried first,
    matches the same texts. A TTL that is read is never negative. *)
Theorem ttl_parsing_ignores_case :
  forall (output : string),
    parsed_ttl ttl_patterns (lower output) = parsed_ttl ttl_patterns output /\
    parsed_ttl ttl_patterns output
    = parsed_ttl ["ttl="; "Time to live="] output /\
    ttl_loop ttl_patterns output = ttl_loop ["ttl="; "Time to live="] output /\
    (forall t, parsed_ttl ttl_patterns output = Some t -> 0 <= t).
Proof.
  intros output.
  assert (Hsame : re_search_digits "TTL=" output
                  = re_search_digits "ttl=" output).
  { symmetry. exact (re_search_digits_lower_literal "TTL=" output). }
  assert (Hdead : parsed_ttl ttl_patterns output
                  = parsed_ttl ["ttl="; "Time to live="] output).
  { unfold ttl_patterns. cbn [parsed_ttl]. rewrite Hsame.
    destruct (re_search_digits "ttl=" output); reflexivity. }
  split; [|split; [exact Hdead|split]].
  - unfold ttl_patterns. cbn [parsed_ttl].
    now rewrite !re_search_digits_lower.
  - now rewrite !ttl_loop_parsed, Hdead.
  - intros t. unfold ttl_patterns. cbn [parsed_ttl].
    assert (Hnn : forall literal group,
               re_search_digits literal output = Some group ->
               0 <= int_of_digits 0 group).
    { intros literal group Hg. apply int_of_digits_nonneg; [|lia].
      exact (re_search_digits_group _ _ _ Hg). }
    destruct (re_search_digits "ttl=" output) as [g1|] eqn:H1;
      [intros H; injection H as <-; exact (Hnn _ _ H1)|].
    destruct (re_search_digits "TTL=" output) as [g2|] eqn:H2;
      [intros H; injection H as <-; exact (Hnn _ _ H2)|].
    destruct (re_search_digits "Time to live=" output) as [g3|] eqn:H3;
      [intros H; injection H as <-; exact (Hnn _ _ H3)|].
    discriminate.
Qed.

(* ------------------------------------------------------------------ *)
(** ** More on host discovery and service scanning *)
(* ------------------------------------------------------------------ *)

Lemma fold_append_up_host w hosts acc :
  fold_left (NetworkScanner.append_up_host w) hosts acc
  = acc ++ map (up_host w) (filter is_up hosts).
Proof.
  revert acc. induction hosts as [|hs hosts IH]; intros acc; simpl.
  - now rewrite app_nil_r.
  - rewrite IH. unfold NetworkScanner.append_up_host, is_up.
    destruct (String.eqb (snd hs) "up"); [|reflexivity].
    now rewrite <- app_assoc.
Qed.

(** X9. When the primary technique completes, [discover_devices] returns
    exactly the hosts it reports in state ['up'], in its order, each with
    its ARP entry and its reverse-DNS name ([None] when the lookup
    raises); the ping sweep is not consulted, so a scan that reports no
    host up gives the empty list even where the sweep would find hosts. *)
Theorem discover_devices_primary_keeps_up_hosts :
  forall (w : world) (target : string) (hosts : list (string * string)),
    nmap_host_states w target = Ok hosts ->
    NetworkScanner.discover_devices w target
    = Ok (map (up_host w) (filter is_up hosts)) /\
    (forall device,
        In device (map (up_host w) (filter is_up hosts)) ->
        In (Device.ip device, "up") hosts /\
        Device.state device = "up" /\
        Device.mac device = arp_table w (Device.ip device) /\
        (Device.hostname device = PyNone <->
         exists e, gethostbyaddr w (Device.ip device) = Raise e)) /\
    ((forall hs, In hs hosts -> snd hs <> "up") ->
     NetworkScanner.discover_devices w target = Ok []).
Proof.
  intros w target hosts Hprimary.
  assert (Hrun : NetworkScanner.discover_devices w target
                 = Ok (map (up_host w) (filter is_up hosts))).
  { unfold NetworkScanner.discover_devices. rewrite Hprimary.
    cbn [bind try_except]. now rewrite fold_append_up_host. }
  split; [exact Hrun|]. split.
  - intros device Hin. apply in_map_iff in Hin.
    destruct Hin as ([host st] & <- & Hin). apply filter_In in Hin.
    destruct Hin as [Hin Hup]. unfold is_up in Hup. cbn [snd] in Hup.
    apply String.eqb_eq in Hup. subst st.
    unfold up_host. cbn [fst Device.ip Device.state Device.mac Device.hostname].
    repeat split; auto.
    + unfold NetworkScanner._get_hostname.
      destruct (gethostbyaddr w host); [discriminate|eauto].
    + unfold NetworkScanner._get_hostname.
      destruct (gethostbyaddr w host); [intros [e He]; discriminate|reflexivity].
  - intros Hdown. rewrite Hrun. f_equal.
    replace (filter is_up hosts) with (@nil (string * string)); [reflexivity|].
    symmetry. clear Hprimary Hrun.
    induction hosts as [|hs hosts IH]; [reflexivity|]. simpl.
    destruct (is_up hs) eqn:Hup.
    + exfalso. apply (Hdown hs (or_introl eq_refl)).
      unfold is_up in Hup. now apply String.eqb_eq in Hup.
    + apply IH. intros hs' Hin. apply Hdown. now right.
Qed.

(** Of the three hosts the laboratory scan reports, the two that are up
    are returned. *)
Lemma discover_devices_primary_keeps_up_hosts_witness :
  NetworkScanner.discover_devices (lab_world true) "10.0.0.0/30"
  = Ok (map (up_host (lab_world true))
            (filter is_up [("10.0.0.1", "up"); ("10.0.0.2", "up");
                           ("10.0.0.3", "down")])).
Proof.
  exact (proj1 (discover_devices_primary_keeps_up_hosts
                  (lab_world true) "10.0.0.0/30"
                  [("10.0.0.1", "up"); ("10.0.0.2", "up");
                   ("10.0.0.3", "down")]
                  eq_refl)).
Defined.

(** The detailed pipeline on a candidate the sweep produced. *)
Lemma _detailed_local_scan_swept w cfg ip :
  _detailed_local_scan w cfg (Device.mk ip None PyNone "up")
  = Raise AttributeError.
Proof.
  unfold _detailed_local_scan, lookup_manufacturer, new_result.
  cbn [mac_address Device.mac bind].
  unfold classify_device. rewrite device_scores_none; reflexivity.
Qed.

(** X10. Detailed scanning cannot follow the fallback: when the primary
    technique raises and at least one address answers the sweep, a
    ['local'] run with [detailed] set raises [AttributeError], since every
    candidate of the sweep carries the host name [None]. *)
Theorem detailed_scan_after_sweep_aborts :
  forall (w : world) (cfg : Config.t) (target : string) (e : exn)
         (hosts : list string) (ip : string),
    nmap_host_states w target = Raise e ->
    ip_network_hosts w target = Ok hosts ->
    In ip hosts ->
    replies w ip = true ->
    scan_network w cfg target "local" true = Raise AttributeError.
Proof.
  intros w cfg target e hosts ip Hprimary Hhosts Hin Hreply.
  unfold scan_network, NetworkScanner.discover_devices.
  rewrite Hprimary. cbn [bind try_except].
  rewrite (_ping_discovery_closed w target hosts Hhosts). cbn [bind].
  change (String.eqb "local" "local" && true) with true. cbv iota.
  destruct (filter (replies w) hosts) as [|ip0 rest] eqn:Hf.
  - exfalso. assert (Hip : In ip (filter (replies w) hosts))
      by (apply filter_In; auto).
    rewrite Hf in Hip. destruct Hip.
  - cbn [map for_each]. rewrite _detailed_local_scan_swept. reflexivity.
Qed.

(** Without the nmap client the detailed scan of the laboratory network
    raises. *)
Lemma detailed_scan_after_sweep_aborts_witness :
  scan_network (lab_world false) Config.default "10.0.0.0/30" "local" true
  = Raise AttributeError.
Proof.
  apply (detailed_scan_after_sweep_aborts
           (lab_world false) Config.default "10.0.0.0/30" PortScannerError
           ["10.0.0.1"; "10.0.0.2"] "10.0.0.1").
  - reflexivity.
  - reflexivity.
  - simpl. tauto.
  - reflexivity.
Defined.

Section IntDict.

Context {V : Type}.

Lemma dict_get_dict_set (d : list (Z * V)) k v k' :
  dict_get (dict_set Z.eqb d k v) k'
  = if k =? k' then Some v else dict_get d k'.
Proof.
  induction d as [|[k0 v0] d IH]; simpl.
  - reflexivity.
  - destruct (Z.eqb_spec k0 k) as [->|Hne]; simpl.
    + destruct (k =? k'); reflexivity.
    + rewrite IH. destruct (Z.eqb_spec k0 k') as [->|Hne'].
      * destruct (Z.eqb_spec k k'); [congruence|reflexivity].
      * reflexivity.
Qed.

Lemma dict_get_app (d1 d2 : list (Z * V)) k :
  dict_get (d1 ++ d2) k
  = match dict_get d1 k with
    | Some v => Some v
    | None => dict_get d2 k
    end.
Proof.
  induction d1 as [|[k0 v0] d1 IH]; simpl; [reflexivity|].
  destruct (k0 =? k); [reflexivity|exact IH].
Qed.

Lemma dict_set_fresh_int (d : list (Z * V)) k v :
  ~ In k (keys d) -> dict_set Z.eqb d k v = d ++ [(k, v)].
Proof.
  induction d as [|[k' v'] d IH]; simpl; intros Hk.
  - reflexivity.
  - destruct (Z.eqb_spec k' k) as [->|Hne].
    + exfalso. apply Hk. now left.
    + rewrite IH; [reflexivity|]. intros Hin. apply Hk. now right.
Qed.

End IntDict.

Lemma reported_services_lookup (reported : list (Z * string)) :
  forall acc port,
    dict_get (fold_left (fun services port_name =>
                           dict_set Z.eqb services (fst port_name)
                                    (snd port_name))
                        reported acc) port
    = match last_reported reported port with
      | Some name => Some name
      | None => dict_get acc port
      end.
Proof.
  unfold last_reported.
  induction reported as [|[p name] reported IH]; intros acc port.
  - reflexivity.
  - cbn [fold_left fst snd rev]. rewrite IH, dict_get_dict_set, dict_get_app.
    destruct (dict_get (rev reported) port); [reflexivity|].
    cbn [dict_get]. destruct (p =? port); reflexivity.
Qed.

(** X11. When the all-ports scan completes, the service table of
    [scan_services] has one row for each reported port and no other, and
    the name kept for a port reported several times (under several
    protocols) is the one reported last. *)
Theorem scan_services_keeps_last_report :
  forall (w : world) (cfg : Config.t) (ip : string)
         (reported : list (Z * string)),
    nmap_service_scan w ip = Ok reported ->
    exists found,
      NetworkScanner.scan_services w cfg ip = Ok found /\
      NoDup (keys found) /\
      (forall port, In port (keys found) <-> In port (map fst reported)) /\
      (forall port, dict_get found port = last_reported reported port).
Proof.
  intros w cfg ip reported Hscan.
  unfold NetworkScanner.scan_services. rewrite Hscan. cbn [bind try_except].
  eexists. split; [reflexivity|].
  destruct (reported_services_keys reported [] (NoDup_nil _)) as [Hnd Hsub].
  split; [exact Hnd|]. split.
  - intros port. split.
    + intros Hin. destruct (Hsub port Hin) as [[]|Hr]. exact Hr.
    + intros Hin.
      assert (Hget : dict_get
                (fold_left (fun services port_name =>
                              dict_set Z.eqb services (fst port_name)
                                       (snd port_name)) reported []) port
                     <> None).
      { rewrite reported_services_lookup. unfold last_reported.
        assert (Hrev : In port (map fst (rev reported)))
          by (rewrite map_rev; now apply -> in_rev).
        clear - Hrev. induction (rev reported) as [|[p n] l IH];
          [destruct Hrev|]. simpl in *.
        destruct (Z.eqb_spec p port); [discriminate|].
        destruct Hrev as [?|Hrev]; [contradiction|]. now apply IH. }
      clear - Hget.
      induction (fold_left _ reported []) as [|[p n] l IH];
        [now contradiction Hget|].
      simpl in *. destruct (Z.eqb_spec p port); [now left|right; auto].
  - intros port. rewrite reported_services_lookup.
    destruct (last_reported reported port); reflexivity.
Qed.

(** Port 53 reported for TCP and then for UDP keeps the UDP name. *)
Lemma scan_services_keeps_last_report_witness :
  exists found,
    NetworkScanner.scan_services
      {| open_connection := open_connection silent_world;
         nmap_fast_ports := nmap_fast_ports silent_world;
         nmap_service_names := nmap_service_names silent_world;
         nmap_os_match := nmap_os_match silent_world;
         ping_output := ping_output silent_world;
         nmap_host_states := nmap_host_states silent_world;
         arp_table := arp_table silent_world;
         gethostbyaddr := gethostbyaddr silent_world;
         ip_network_hosts := ip_network_hosts silent_world;
         ping_returncode := ping_returncode silent_world;
         nmap_service_scan := fun _ =>
           Ok [(53, "domain"); (80, "http"); (53, "mdns")];
         connect_elapsed := connect_elapsed silent_world;
         probe_matches := probe_matches silent_world;
         get_manufacturer := get_manufacturer silent_world |}
      Config.default "10.0.0.1" = Ok found /\
    keys found = [53; 80] /\
    dict_get found 53 = Some "mdns".
Proof.
  destruct (scan_services_keeps_last_report
              {| open_connection := open_connection silent_world;
                 nmap_fast_ports := nmap_fast_ports silent_world;
                 nmap_service_names := nmap_service_names silent_world;
                 nmap_os_match := nmap_os_match silent_world;
                 ping_output := ping_output silent_world;
                 nmap_host_states := nmap_host_states silent_world;
                 arp_table := arp_table silent_world;
                 gethostbyaddr := gethostbyaddr silent_world;
                 ip_network_hosts := ip_network_hosts silent_world;
                 ping_returncode := ping_returncode silent_world;
                 nmap_service_scan := fun _ =>
                   Ok [(53, "domain"); (80, "http"); (53, "mdns")];
                 connect_elapsed := connect_elapsed silent_world;
                 probe_matches := probe_matches silent_world;
                 get_manufacturer := get_manufacturer silent_world |}
              Config.default "10.0.0.1"
              [(53, "domain"); (80, "http"); (53, "mdns")] eq_refl)
    as (found & Hrun & _ & _ & Hget).
  exists found. split; [exact Hrun|].
  split; [vm_compute in Hrun; injection Hrun as <-; reflexivity|].
  rewrite Hget. reflexivity.
Defined.

Lemma Ok_inj {A} (a b : A) : Ok a = Ok b -> a = b.
Proof. congruence. Qed.

Lemma service_name_of_row (table : list (Z * string)) port name :
  NoDup (keys table) -> In (port, name) table ->
  NetworkScanner.service_name table port = name.
Proof.
  induction table as [|[p n] table IH]; simpl; intros Hnd Hin; [destruct Hin|].
  apply NoDup_cons_iff in Hnd. destruct Hnd as [Hnotin Hnd].
  destruct Hin as [Heq|Hin].
  - injection Heq as -> ->. now rewrite Z.eqb_refl.
  - destruct (Z.eqb_spec p port) as [->|_]; [|now apply IH].
    exfalso. apply Hnotin. change port with (fst (port, name)).
    now apply in_map.
Qed.

Lemma filter_map_swap {A B} (f : B -> bool) (g : A -> B) (xs : list A) :
  filter f (map g xs) = map g (filter (fun x => f (g x)) xs).
Proof.
  induction xs as [|x xs IH]; simpl; [reflexivity|].
  destruct (f (g x)); simpl; now rewrite IH.
Qed.

(** The collecting loop of the basic scan over ports not yet stored. *)
Lemma fold_store_service w cfg ip (ports : list Z) :
  forall acc,
    NoDup (keys acc ++ ports) ->
    fold_left NetworkScanner.store_service
              (map (NetworkScanner.check_service_port w cfg ip) ports) acc
    = acc ++ map (fun port =>
                    (port, NetworkScanner.service_name
                             NetworkScanner.common_services port))
                 (filter (connects w ip (Config.async_timeout cfg)) ports).
Proof.
  induction ports as [|p ports IH]; intros acc Hnd; cbn [map fold_left filter].
  - now rewrite app_nil_r.
  - rewrite store_checked_service.
    destruct (connects w ip (Config.async_timeout cfg) p).
    + rewrite dict_set_fresh_int.
      * rewrite IH.
        -- cbn [map]. now rewrite <- app_assoc.
        -- unfold keys in *. rewrite map_app, <- app_assoc. exact Hnd.
      * apply NoDup_remove_2 in Hnd. intros Hin. apply Hnd.
        apply in_or_app. now left.
    + apply IH. now apply NoDup_remove_1 in Hnd.
Qed.

Lemma common_services_keys_nodup : NoDup (keys NetworkScanner.common_services).
Proof.
  unfold keys. simpl.
  repeat (constructor; [simpl; intuition discriminate|]). constructor.
Qed.

(** X12. When the all-ports scan raises, [scan_services] returns the rows
    of the fixed service table whose port accepts a connection within the
    configured timeout, in table order: every name comes from the table,
    and the default name ['unknown'] is never stored. *)
Theorem scan_services_fallback_rows :
  forall (w : world) (cfg : Config.t) (ip : string) (e : exn),
    nmap_service_scan w ip = Raise e ->
    NetworkScanner.scan_services w cfg ip
    = Ok (filter (fun row => connects w ip (Config.async_timeout cfg) (fst row))
                 NetworkScanner.common_services) /\
    (forall found port name,
        NetworkScanner.scan_services w cfg ip = Ok found ->
        In (port, name) found ->
        In (port, name) NetworkScanner.common_services /\
        name <> "unknown" /\
        open_connection w ip port (Config.async_timeout cfg) = Ok tt).
Proof.
  intros w cfg ip e Hscan.
  assert (Hrun : NetworkScanner.scan_services w cfg ip
                 = Ok (filter (fun row => connects w ip (Config.async_timeout cfg)
                                                   (fst row))
                              NetworkScanner.common_services)).
  { unfold NetworkScanner.scan_services, NetworkScanner._basic_port_scan, gather.
    rewrite Hscan. cbn [bind try_except].
    rewrite fold_store_service
      by (cbn [keys map app]; exact common_services_keys_nodup).
    cbn [app]. f_equal. unfold keys.
    rewrite (filter_map_swap (connects w ip (Config.async_timeout cfg)) fst).
    rewrite map_map.
    rewrite <- (map_id (filter _ NetworkScanner.common_services)) at 2.
    apply map_ext_in. intros [port name] Hin. cbn [fst].
    apply filter_In in Hin. destruct Hin as [Hin _].
    now rewrite (service_name_of_row _ port name common_services_keys_nodup Hin). }
  split; [exact Hrun|].
  intros found port name Hfound Hin. rewrite Hrun in Hfound.
  apply Ok_inj in Hfound. subst found.
  apply filter_In in Hin. destruct Hin as [Hin Hc].
  split; [exact Hin|]. split.
  - clear - Hin. simpl in Hin.
    repeat (destruct Hin as [Hin|Hin]; [injection Hin as _ <-; discriminate|]).
    destruct Hin.
  - unfold connects in Hc. cbn [fst] in Hc.
    destruct (open_connection w ip port (Config.async_timeout cfg)) as [[]|];
      [reflexivity|discriminate].
Qed.

(** On the first laboratory host the fallback finds ssh, http and mysql. *)
Lemma scan_services_fallback_rows_witness :
  NetworkScanner.scan_services (lab_world true) Config.default "10.0.0.1"
  = Ok [(22, "ssh"); (80, "http"); (3306, "mysql")].
Proof.
  rewrite (proj1 (scan_services_fallback_rows
                    (lab_world true) Config.default "10.0.0.1"
                    PortScannerError eq_refl)).
  reflexivity.
Defined.

(* ------------------------------------------------------------------ *)
(** ** Fields of a result *)
(* ------------------------------------------------------------------ *)

Lemma quick_classify_closed w device :
  quick_classify w device
  = Ok (if connects w (Device.ip device) 2 9100 then "printer"
        else if connects w (Device.ip device) 2 3389 then "workstation"
        else if connects w (Device.ip device) 2 22
                && connects w (Device.ip device) 2 80 then "server"
        else if connects w (Device.ip device) 2 80
                || connects w (Device.ip device) 2 443 then "device"
        else "unknown").
Proof.
  unfold quick_classify.
  rewrite _quick_port_check_closed. cbn [bind filter truthy_int Z.eqb negb].
  destruct (connects w (Device.ip device) 2 22),
           (connects w (Device.ip device) 2 23),
           (connects w (Device.ip device) 2 80),
           (connects w (Device.ip device) 2 443),
           (connects w (Device.ip device) 2 3389),
           (connects w (Device.ip device) 2 9100); reflexivity.
Qed.

Lemma discovery_ports_closed w ip :
  filter (fun port => connects w ip 2 port && truthy_int port)
         discovery_common_ports
  = filter (connects w ip 2) discovery_common_ports.
Proof.
  apply filter_ext_in_list. intros port Hin.
  assert (Hnz : port <> 0).
  { intros ->. unfold discovery_common_ports in Hin. simpl in Hin.
    intuition discriminate. }
  unfold truthy_int. destruct (Z.eqb_spec port 0); [contradiction|].
  apply andb_true_r.
Qed.

(** The whole record a discovery pipeline returns. *)
Lemma _discovery_scan_shape w device :
  exists vendor label,
    _discovery_scan w device
    = Ok (mk_result (Device.ip device) (Device.mac device) None vendor
                    (Some label) None
                    (filter (connects w (Device.ip device) 2)
                            discovery_common_ports)
                    [] [] None None "discovery") /\
    quick_classify w device = Ok label /\
    (vendor <> None ->
     exists mac, Device.mac device = Some mac /\ mac <> "" /\
                 get_manufacturer w mac = Ok vendor).
Proof.
  destruct (quick_classify_total w device) as [label Hq].
  unfold _discovery_scan. rewrite Hq.
  unfold NetworkScanner.quick_port_scan, gather.
  rewrite fold_append_open. cbn [app].
  fold discovery_common_ports. rewrite discovery_ports_closed.
  unfold lookup_manufacturer, new_result. cbn [mac_address].
  destruct (Device.mac device) as [mac|] eqn:Hmac.
  - destruct (truthy_str (Some mac)) eqn:Htr.
    + destruct (get_manufacturer w mac) as [vendor|e] eqn:Hv;
        cbn [bind try_except].
      * exists vendor, label. split; [reflexivity|]. split; [reflexivity|].
        intros _. exists mac. repeat split; auto.
        intros ->. discriminate Htr.
      * exists None, label. split; [reflexivity|]. split; [reflexivity|].
        intros H. now contradiction H.
    + cbn [bind try_except]. exists None, label.
      split; [reflexivity|]. split; [reflexivity|].
      intros H. now contradiction H.
  - cbn [bind try_except]. exists None, label.
    split; [reflexivity|]. split; [reflexivity|].
    intros H. now contradiction H.
Qed.

(** X14. What a discovery result holds. Operating system, services,
    protocols and response time are always unset; the vendor is set only
    from a successful lookup of a non-empty MAC; the open ports are the
    probed common ports that accept a connection, so port 9100 is never
    listed, although it decides the ['printer'] class. For the other
    classes the ports that decided are listed: 22 and 80 for ['server'],
    3389 for ['workstation'], 80 or 443 for ['device'], and none of 80,
    443, 3389 for ['unknown'] (the classification and the port scan probe
    the host one after the other; a port answers both alike). *)
Theorem discovery_result_fields :
  forall (w : world) (device : Device.t),
    exists r,
      _discovery_scan w device = Ok r /\
      operating_system r = None /\ services r = [] /\ protocols r = [] /\
      response_time r = None /\
      open_ports r
      = filter (connects w (Device.ip device) 2) discovery_common_ports /\
      ~ In 9100 (open_ports r) /\
      (manufacturer r <> None ->
       exists mac, Device.mac device = Some mac /\ mac <> "" /\
                   get_manufacturer w mac = Ok (manufacturer r)) /\
      (device_type r = Some "server" ->
       In 22 (open_ports r) /\ In 80 (open_ports r)) /\
      (device_type r = Some "workstation" -> In 3389 (open_ports r)) /\
      (device_type r = Some "device" ->
       In 80 (open_ports r) \/ In 443 (open_ports r)) /\
      (device_type r = Some "unknown" ->
       ~ In 80 (open_ports r) /\ ~ In 443 (open_ports r) /\
       ~ In 3389 (open_ports r)).
Proof.
  intros w device.
  destruct (_discovery_scan_shape w device)
    as (vendor & label & Hrun & Hq & Hvendor).
  eexists. split; [exact Hrun|].
  cbn [operating_system services protocols response_time open_ports
       manufacturer device_type].
  repeat (split; [reflexivity|]).
  split.
  { intros Hin. apply filter_In in Hin. destruct Hin as [Hin _].
    unfold discovery_common_ports in Hin. simpl in Hin.
    intuition discriminate. }
  split; [exact Hvendor|].
  rewrite quick_classify_closed in Hq. apply Ok_inj in Hq.
  assert (Hmem : forall port,
             In port discovery_common_ports ->
             (In port (filter (connects w (Device.ip device) 2)
                              discovery_common_ports)
              <-> connects w (Device.ip device) 2 port = true)).
  { intros port Hp. rewrite filter_In. tauto. }
  assert (H22 := Hmem 22). assert (H80 := Hmem 80).
  assert (H443 := Hmem 443). assert (H3389 := Hmem 3389).
  clear Hmem.
  assert (Hin22 : In 22 discovery_common_ports) by (simpl; tauto).
  assert (Hin80 : In 80 discovery_common_ports) by (simpl; tauto).
  assert (Hin443 : In 443 discovery_common_ports) by (simpl; tauto).
  assert (Hin3389 : In 3389 discovery_common_ports) by (simpl; tauto).
  specialize (H22 Hin22). specialize (H80 Hin80).
  specialize (H443 Hin443). specialize (H3389 Hin3389).
  destruct (connects w (Device.ip device) 2 9100),
           (connects w (Device.ip device) 2 3389),
           (connects w (Device.ip device) 2 22),
           (connects w (Device.ip device) 2 80),
           (connects w (Device.ip device) 2 443);
    cbn [andb orb] in Hq; subst label;
    (split; [|split; [|split]]); intros Hd; try discriminate Hd;
    repeat match goal with
           | H : _ <-> true = true |- _ =>
               apply proj2 in H; specialize (H eq_refl)
           | H : _ <-> false = true |- _ => apply proj1 in H
           end;
    intuition discriminate.
Qed.

(** X13. What a completed detailed result holds: the open ports are the
    keys of the service table, without duplicates; the table, the
    operating system and the protocols are what the three analyses
    returned; a response time is present exactly when port 80 accepts a
    connection within the configured timeout; and the candidate had a
    host name or no ['hostname'] key, never the name [None]. *)
Theorem detailed_result_consistency :
  forall (w : world) (cfg : Config.t) (device : Device.t) (r : ScanResult),
    _detailed_local_scan w cfg device = Ok r ->
    open_ports r = keys (services r) /\
    NoDup (open_ports r) /\
    NetworkScanner.scan_services w cfg (Device.ip device) = Ok (services r) /\
    detect_os w device = Ok (operating_system r) /\
    ProtocolAnalyzer.analyze_device w (Device.ip device)
    = Ok (protocols r) /\
    (response_time r <> None <->
     open_connection w (Device.ip device) 80 (Config.async_timeout cfg)
     = Ok tt) /\
    Device.hostname device <> PyNone.
Proof.
  intros w cfg device r H.
  assert (Hname : Device.hostname device <> PyNone).
  { intros Hn.
    destruct (_detailed_local_scan_unset_hostname w cfg device Hn) as [e He].
    rewrite He in H. discriminate H. }
  unfold _detailed_local_scan in H.
  bind_ok H. apply lookup_manufacturer_fields in Hstep.
  bind_ok H. bind_ok H. bind_ok H. bind_ok H. bind_ok H.
  apply Ok_inj in H. subst r.
  cbn [open_ports services operating_system protocols response_time
       set_response_time set_open_ports set_services set_protocols
       set_operating_system set_device_type].
  destruct (scan_services_keys w cfg (Device.ip device) _ Hstep3) as [Hnd _].
  repeat (split; [first [reflexivity|assumption]|]).
  split; [|exact Hname].
  unfold NetworkScanner.analyze_connections in Hstep4.
  destruct (open_connection w (Device.ip device) 80 (Config.async_timeout cfg))
    as [[]|e]; cbn [bind try_except] in Hstep4;
    apply Ok_inj in Hstep4; subst; split; intros; congruence.
Qed.

(** The detailed result of the first laboratory host. *)
Lemma detailed_result_consistency_witness :
  exists r,
    _detailed_local_scan
      (lab_world true) Config.default
      (Device.mk "10.0.0.1" (Some "00:0C:29:12:34:56")
                 (PyStr "NGINX-web.lan") "up") = Ok r /\
    open_ports r = keys (services r) /\
    services r = [(22, "ssh"); (80, "http"); (3306, "mysql")].
Proof.
  destruct (_detailed_local_scan
              (lab_world true) Config.default
              (Device.mk "10.0.0.1" (Some "00:0C:29:12:34:56")
                         (PyStr "NGINX-web.lan") "up")) as [r|e] eqn:Hrun;
    [|vm_compute in Hrun; discriminate Hrun].
  exists r. split; [reflexivity|]. split.
  - exact (proj1 (detailed_result_consistency
                    (lab_world true) Config.default _ r Hrun)).
  - vm_compute in Hrun. apply Ok_inj in Hrun. subst r. reflexivity.
Defined.

(* ------------------------------------------------------------------ *)
(** ** Protocol names of a host *)
(* ------------------------------------------------------------------ *)

Lemma fold_append_if {A B} (test : A -> bool) (g : A -> B) (xs : list A) :
  forall acc,
    fold_left (fun acc x => if test x then acc ++ [g x] else acc) xs acc
    = acc ++ map g (filter test xs).
Proof.
  induction xs as [|x xs IH]; intros acc; simpl.
  - now rewrite app_nil_r.
  - rewrite IH. destruct (test x); [|reflexivity].
    simpl. now rewrite <- app_assoc.
Qed.

Lemma fold_additional w ip (table : list (Z * string)) :
  forall acc,
    fold_left (fun additional port_name =>
                 match open_connection w ip (fst port_name) 2 with
                 | Ok _ => additional ++ [snd port_name]
                 | Raise _ => additional
                 end)
              table acc
    = acc ++ map snd (filter (fun port_name => connects w ip 2 (fst port_name))
                             table).
Proof.
  induction table as [|pn table IH]; intros acc; cbn [fold_left filter].
  - now rewrite app_nil_r.
  - rewrite IH. unfold connects at 2.
    destruct (open_connection w ip (fst pn) 2); [|reflexivity].
    cbn [map]. now rewrite <- app_assoc.
Qed.

Lemma _detect_additional_protocols_closed w ip :
  ProtocolAnalyzer._detect_additional_protocols w ip
  = map snd (filter (fun port_name => connects w ip 2 (fst port_name))
                    ProtocolAnalyzer.app_protocols).
Proof.
  unfold ProtocolAnalyzer._detect_additional_protocols.
  now rewrite fold_additional.
Qed.

(** X15. [analyze_device] never raises and returns each protocol name at
    most once. A name is returned exactly when a signature of that name
    answers on one of its candidate ports, or when a port listed under
    that name among the additional application ports accepts a
    connection. *)
Theorem analyze_device_names :
  forall (w : world) (ip : string),
    exists names,
      ProtocolAnalyzer.analyze_device w ip = Ok names /\
      NoDup names /\
      forall name,
        In name names <->
        (exists key ports port,
            In (key, (ports, name)) ProtocolAnalyzer.protocol_patterns /\
            In port ports /\ probe_matches w ip key port = true) \/
        (exists port,
            In (port, name) ProtocolAnalyzer.app_protocols /\
            open_connection w ip port 2 = Ok tt).
Proof.
  intros w ip. unfold ProtocolAnalyzer.analyze_device.
  rewrite (fold_append_if
             (fun entry => ProtocolAnalyzer._test_protocol
                             w ip (fst entry) (fst (snd entry)))
             (fun entry => snd (snd entry))).
  cbn [app]. rewrite _detect_additional_protocols_closed.
  eexists. split; [reflexivity|]. split; [apply NoDup_nodup|].
  intros name. rewrite nodup_In, in_app_iff, !in_map_iff. split.
  - intros [([key [ports name']] & Hname & Hin)|([port name'] & Hname & Hin)];
      cbn [fst snd] in Hname; subst name'; apply filter_In in Hin;
      destruct Hin as [Hin Htest]; cbn [fst snd] in Htest.
    + left. unfold ProtocolAnalyzer._test_protocol in Htest.
      apply existsb_exists in Htest. destruct Htest as (port & Hp & Hm).
      exists key, ports, port. auto.
    + right. exists port. split; [exact Hin|].
      unfold connects in Htest.
      destruct (open_connection w ip port 2) as [[]|];
        [reflexivity|discriminate].
  - intros [(key & ports & port & Hin & Hp & Hm)|(port & Hin & Hc)].
    + left. exists (key, (ports, name)). split; [reflexivity|].
      apply filter_In. split; [exact Hin|]. cbn [fst snd].
      unfold ProtocolAnalyzer._test_protocol. apply existsb_exists. eauto.
    + right. exists (port, name). split; [reflexivity|].
      apply filter_In. split; [exact Hin|]. cbn [fst].
      unfold connects. now rewrite Hc.
Qed.

(* ------------------------------------------------------------------ *)
(** ** The configuration and its file form *)
(* ------------------------------------------------------------------ *)

(** X16. A configuration survives its dictionary form: building a
    configuration from the keywords of [to_dict] gives the configuration
    back, whatever its fields hold; and [to_dict] names every field of the
    dataclass once. *)
Theorem config_to_dict_round_trip :
  forall (self : ConfigFile.fields),
    ConfigFile.init (ConfigFile.to_dict self) = ConfigFile.Built self /\
    ConfigFile.init_from (ConfigFile.VMap (ConfigFile.to_dict self))
    = ConfigFile.Built self /\
    keys (ConfigFile.to_dict self) = ConfigFile.field_names /\
    NoDup ConfigFile.field_names.
Proof.
  intros self. destruct self.
  repeat split.
  unfold ConfigFile.field_names.
  repeat (constructor; [simpl; intuition discriminate|]). constructor.
Qed.

Lemma init_unknown_keyword kwargs key :
  In key (keys kwargs) -> ~ In key ConfigFile.field_names ->
  exists reason, ConfigFile.init kwargs = ConfigFile.TypeError reason.
Proof.
  intros Hin Hnot. unfold ConfigFile.init.
  destruct (find (fun kv => negb (name_in (fst kv) ConfigFile.field_names))
                 kwargs) as [kv|] eqn:Hfind; [eauto|].
  exfalso. unfold keys in Hin. apply in_map_iff in Hin.
  destruct Hin as ([k v] & Hk & Hin). cbn [fst] in Hk. subst k.
  pose proof (find_none _ _ Hfind _ Hin) as Hnone. cbn [fst] in Hnone.
  apply negb_false_iff in Hnone. unfold name_in in Hnone.
  apply existsb_exists in Hnone. destruct Hnone as (name & Hname & Heq).
  apply String.eqb_eq in Heq. subst name. contradiction.
Qed.

Lemma keyword_absent kwargs name default :
  ~ In name (keys kwargs) -> ConfigFile.keyword kwargs name default = default.
Proof.
  induction kwargs as [|[k v] kwargs IH]; simpl; intros Hnot; [reflexivity|].
  destruct (String.eqb_spec k name) as [->|_].
  - exfalso. apply Hnot. now left.
  - apply IH. intros Hin. apply Hnot. now right.
Qed.

Lemma keyword_present kwargs name default value :
  dict_get_str kwargs name = Some value ->
  ConfigFile.keyword kwargs name default = value.
Proof.
  induction kwargs as [|[k v] kwargs IH]; simpl; [discriminate|].
  destruct (String.eqb k name); [|exact IH].
  intros H. now injection H as <-.
Qed.

(** Every entry of the dictionary form of a configuration built from
    keywords is the keyword of that name or the default of that field. *)
Lemma to_dict_of_init entries config name :
  ConfigFile.init entries = ConfigFile.Built config ->
  dict_get_str (ConfigFile.to_dict config) name
  = match dict_get_str (ConfigFile.to_dict ConfigFile.defaults) name with
    | Some default => Some (ConfigFile.keyword entries name default)
    | None => None
    end.
Proof.
  unfold ConfigFile.init.
  destruct (find _ entries); [discriminate|].
  intros H. injection H as <-.
  cbn [ConfigFile.to_dict dict_get_str
       ConfigFile.timeout ConfigFile.max_concurrent_scans
       ConfigFile.retry_attempts ConfigFile.default_ports
       ConfigFile.detailed_scan_ports ConfigFile.service_detection
       ConfigFile.os_detection ConfigFile.protocol_analysis
       ConfigFile.quick_scan_ports ConfigFile.mac_lookup_enabled
       ConfigFile.mac_database_path ConfigFile.output_directory
       ConfigFile.log_level ConfigFile.async_timeout
       ConfigFile.connection_pool_size].
  repeat match goal with
         | |- context [String.eqb ?field name] =>
             destruct (String.eqb_spec field name) as [<-|?]; [reflexivity|]
         end.
  reflexivity.
Qed.

Lemma field_has_default name :
  In name ConfigFile.field_names ->
  exists default,
    dict_get_str (ConfigFile.to_dict ConfigFile.defaults) name = Some default.
Proof.
  unfold ConfigFile.field_names. intros Hin. simpl in Hin.
  repeat (destruct Hin as [<-|Hin]; [eexists; reflexivity|]).
  destruct Hin.
Qed.

(** X17. Loading a configuration file. A missing file gives the defaults,
    and so does an empty mapping; a document that is not a mapping, such
    as the empty document, is a [TypeError], and so is a mapping with a key
    that names no field. When a mapping is accepted, all its keys name
    fields, every field it mentions holds the value given for it, and every
    field it does not mention, whichever of the fifteen, keeps its
    default. *)
Theorem config_from_file_cases :
  ConfigFile.from_file ConfigFile.NoFile
  = ConfigFile.Built ConfigFile.defaults /\
  ConfigFile.from_file (ConfigFile.Document (ConfigFile.VMap []))
  = ConfigFile.Built ConfigFile.defaults /\
  (forall config_data,
      (forall entries, config_data <> ConfigFile.VMap entries) ->
      exists reason,
        ConfigFile.from_file (ConfigFile.Document config_data)
        = ConfigFile.TypeError reason) /\
  (forall entries key,
      In key (keys entries) -> ~ In key ConfigFile.field_names ->
      exists reason,
        ConfigFile.from_file (ConfigFile.Document (ConfigFile.VMap entries))
        = ConfigFile.TypeError reason) /\
  (forall entries config,
      ConfigFile.from_file (ConfigFile.Document (ConfigFile.VMap entries))
      = ConfigFile.Built config ->
      incl (keys entries) ConfigFile.field_names /\
      (forall name,
          ~ In name (keys entries) ->
          dict_get_str (ConfigFile.to_dict config) name
          = dict_get_str (ConfigFile.to_dict ConfigFile.defaults) name) /\
      (forall name value,
          In name ConfigFile.field_names ->
          dict_get_str entries name = Some value ->
          dict_get_str (ConfigFile.to_dict config) name = Some value) /\
      (~ In "timeout" (keys entries) ->
       ConfigFile.timeout config = ConfigFile.VInt 30) /\
      (~ In "quick_scan_ports" (keys entries) ->
       ConfigFile.quick_scan_ports config
       = ConfigFile.quick_scan_ports ConfigFile.defaults) /\
      (~ In "detailed_scan_ports" (keys entries) ->
       ConfigFile.detailed_scan_ports config
       = ConfigFile.detailed_scan_ports ConfigFile.defaults)).
Proof.
  split; [reflexivity|]. split; [reflexivity|]. split.
  { intros config_data Hnot. cbn [ConfigFile.from_file].
    destruct config_data; cbn [ConfigFile.init_from]; eauto.
    exfalso. now apply (Hnot entries). }
  split.
  { intros entries key Hin Hnot. cbn [ConfigFile.from_file ConfigFile.init_from].
    exact (init_unknown_keyword entries key Hin Hnot). }
  intros entries config Hbuilt.
  cbn [ConfigFile.from_file ConfigFile.init_from] in Hbuilt.
  split.
  { intros key Hin.
    destruct (in_dec string_dec key ConfigFile.field_names) as [Hy|Hn];
      [exact Hy|].
    destruct (init_unknown_keyword entries key Hin Hn) as [reason Hr].
    rewrite Hr in Hbuilt. discriminate Hbuilt. }
  split.
  { intros name Hnot. rewrite (to_dict_of_init entries config name Hbuilt).
    destruct (dict_get_str (ConfigFile.to_dict ConfigFile.defaults) name);
      [|reflexivity].
    now rewrite keyword_absent. }
  split.
  { intros name value Hfield Hget.
    rewrite (to_dict_of_init entries config name Hbuilt).
    destruct (field_has_default name Hfield) as [default ->].
    now rewrite (keyword_present entries name default value Hget). }
  unfold ConfigFile.init in Hbuilt.
  destruct (find _ entries); [discriminate Hbuilt|].
  injection Hbuilt as <-.
  cbn [ConfigFile.timeout ConfigFile.quick_scan_ports
       ConfigFile.detailed_scan_ports].
  repeat split; intros Hnot; now rewrite keyword_absent.
Qed.

(* ------------------------------------------------------------------ *)
(** ** The ARP table *)
(* ------------------------------------------------------------------ *)

Section DictAny.

Context {K V : Type} (eqb : K -> K -> bool).
Hypothesis eqb_spec : forall a b, reflect (a = b) (eqb a b).

Lemma dict_set_in (d : list (K * V)) k v row :
  In row (dict_set eqb d k v) -> row = (k, v) \/ In row d.
Proof.
  induction d as [|[k0 v0] d IH]; simpl.
  - intros [<-|[]]. now left.
  - destruct (eqb k0 k) eqn:Hk; simpl.
    + destruct (eqb_spec k0 k) as [->|]; [|discriminate].
      intros [<-|Hin]; auto.
    + intros [<-|Hin]; auto. destruct (IH Hin); auto.
Qed.

Lemma dict_set_keys_any (d : list (K * V)) k v x :
  In x (keys (dict_set eqb d k v)) -> x = k \/ In x (keys d).
Proof.
  unfold keys. intros Hin. apply in_map_iff in Hin.
  destruct Hin as (row & <- & Hin). apply dict_set_in in Hin.
  destruct Hin as [->|Hin]; [now left|right; now apply in_map].
Qed.

Lemma dict_set_nodup_any (d : list (K * V)) k v :
  NoDup (keys d) -> NoDup (keys (dict_set eqb d k v)).
Proof.
  induction d as [|[k0 v0] d IH]; simpl; intros Hnd.
  - constructor; [intros []|constructor].
  - apply NoDup_cons_iff in Hnd. destruct Hnd as [Hnotin Hnd].
    destruct (eqb k0 k) eqn:Hk; simpl.
    + constructor; assumption.
    + constructor; [|now apply IH].
      intros Hin. apply dict_set_keys_any in Hin.
      destruct Hin as [->|Hin]; [|now apply Hnotin].
      destruct (eqb_spec k k); [discriminate|congruence].
Qed.

End DictAny.

Lemma match_classes_conforms classes :
  forall s matched,
    ArpTable.match_classes classes s = Some matched ->
    ArpTable.conforms classes matched = true.
Proof.
  induction classes as [|class classes IH]; intros s matched; simpl.
  - intros H. now injection H as <-.
  - destruct s as [|c rest]; [discriminate|].
    destruct (class c) eqn:Hc; [|discriminate].
    destruct (ArpTable.match_classes classes rest) as [m|] eqn:Hm;
      [|discriminate].
    intros H. injection H as <-. simpl. rewrite Hc. exact (IH _ _ Hm).
Qed.

Lemma search_found {A} (at_head : string -> option A) s found :
  ArpTable.search at_head s = Some found ->
  exists s', at_head s' = Some found.
Proof.
  induction s as [|c s IH]; simpl.
  - destruct (at_head EmptyString) eqn:H0; [|discriminate].
    intros H. injection H as <-. eauto.
  - destruct (at_head (String c s)) eqn:H0.
    + intros H. injection H as <-. eauto.
    + exact IH.
Qed.

Lemma conforms_map_chars (f : ascii -> ascii) classes classes' :
  Forall2 (fun class class' =>
             forall ch, class ch = true -> class' (f ch) = true)
          classes classes' ->
  forall s, ArpTable.conforms classes s = true ->
            ArpTable.conforms classes' (ArpTable.map_chars f s) = true.
Proof.
  induction 1 as [|class class' classes classes' Hc _ IH]; intros s.
  - destruct s; [reflexivity|discriminate].
  - destruct s as [|c rest]; [discriminate|]. simpl.
    intros H. apply andb_true_iff in H. destruct H as [H1 H2].
    now rewrite (Hc c H1), (IH rest H2).
Qed.

Lemma map_chars_compose f g s :
  ArpTable.map_chars f (ArpTable.map_chars g s)
  = ArpTable.map_chars (fun c => f (g c)) s.
Proof. induction s as [|c s IH]; simpl; [reflexivity|now rewrite IH]. Qed.

Lemma hex_normalized ch :
  ArpTable.is_hex ch = true ->
  ArpTable.is_upper_hex (ArpTable.upper_char (ArpTable.dash_to_colon ch))
  = true.
Proof.
  destruct ch as [[] [] [] [] [] [] [] []]; intros H;
    first [discriminate H|reflexivity].
Qed.

Lemma separator_normalized ch :
  ArpTable.is_separator ch = true ->
  ArpTable.is_colon (ArpTable.upper_char (ArpTable.dash_to_colon ch)) = true.
Proof.
  destruct ch as [[] [] [] [] [] [] [] []]; intros H;
    first [discriminate H|reflexivity].
Qed.

Lemma normalize_mac_canonical matched :
  ArpTable.conforms ArpTable.mac_classes matched = true ->
  ArpTable.is_canonical_mac (ArpTable.normalize_mac matched) = true.
Proof.
  unfold ArpTable.is_canonical_mac, ArpTable.normalize_mac.
  rewrite map_chars_compose. apply conforms_map_chars.
  unfold ArpTable.mac_classes, ArpTable.canonical_classes.
  repeat (constructor;
          [first [exact hex_normalized|exact separator_normalized]|]).
  constructor.
Qed.

Lemma span_fixed class s :
  fst (ArpTable.span class (fst (ArpTable.span class s)))
  = fst (ArpTable.span class s).
Proof.
  induction s as [|c s IH]; simpl; [reflexivity|].
  destruct (class c) eqn:Hc; simpl; [|reflexivity].
  now rewrite Hc, IH.
Qed.

Lemma digits_1_3_octet s octet rest :
  ArpTable.digits_1_3 s = Some (octet, rest) ->
  ArpTable.is_octet_text octet = true.
Proof.
  unfold ArpTable.digits_1_3, ArpTable.is_octet_text.
  destruct ((1 <=? String.length (fst (ArpTable.span is_digit s)))%nat
            && (String.length (fst (ArpTable.span is_digit s)) <=? 3)%nat)
    eqn:Hlen; [|discriminate].
  intros H. injection H as Ho.
  assert (Hfst : fst (ArpTable.span is_digit s) = octet) by now rewrite Ho.
  rewrite <- Hfst, Hlen, span_fixed. cbn [andb]. apply String.eqb_refl.
Qed.

(** The shape of an address the pattern captures. *)
Definition dotted_quad (ip : string) : Prop :=
  exists o1 o2 o3 o4,
    ip = (o1 ++ "." ++ o2 ++ "." ++ o3 ++ "." ++ o4)%string /\
    ArpTable.is_octet_text o1 = true /\ ArpTable.is_octet_text o2 = true /\
    ArpTable.is_octet_text o3 = true /\ ArpTable.is_octet_text o4 = true.

Lemma ip_at_dotted_quad s ip : ArpTable.ip_at s = Some ip -> dotted_quad ip.
Proof.
  unfold ArpTable.ip_at.
  destruct (ArpTable.literal "(" s) as [s1|]; [|discriminate].
  destruct (ArpTable.digits_1_3 s1) as [[o1 s2]|] eqn:H1; [|discriminate].
  destruct (ArpTable.literal "." s2) as [s3|]; [|discriminate].
  destruct (ArpTable.digits_1_3 s3) as [[o2 s4]|] eqn:H2; [|discriminate].
  destruct (ArpTable.literal "." s4) as [s5|]; [|discriminate].
  destruct (ArpTable.digits_1_3 s5) as [[o3 s6]|] eqn:H3; [|discriminate].
  destruct (ArpTable.literal "." s6) as [s7|]; [|discriminate].
  destruct (ArpTable.digits_1_3 s7) as [[o4 s8]|] eqn:H4; [|discriminate].
  destruct (ArpTable.literal ")" s8) as [s9|]; [|discriminate].
  intros H. injection H as <-. exists o1, o2, o3, o4.
  split; [reflexivity|].
  repeat split; eapply digits_1_3_octet; eassumption.
Qed.

(** What every row of the table satisfies. *)
Definition normalized_row (row : string * string) : Prop :=
  dotted_quad (fst row) /\ ArpTable.is_canonical_mac (snd row) = true.

Lemma read_line_normalized table line :
  NoDup (keys table) /\ Forall normalized_row table ->
  NoDup (keys (ArpTable.read_line table line)) /\
  Forall normalized_row (ArpTable.read_line table line).
Proof.
  intros [Hnd Hall]. unfold ArpTable.read_line.
  destruct (ArpTable.search ArpTable.ip_at line) as [ip|] eqn:Hip; [|auto].
  destruct (ArpTable.search ArpTable.mac_at line) as [matched|] eqn:Hmac;
    [|auto].
  split; [now apply (dict_set_nodup_any String.eqb String.eqb_spec)|].
  rewrite Forall_forall in *. intros row Hin.
  apply (dict_set_in String.eqb String.eqb_spec) in Hin.
  destruct Hin as [->|Hin]; [|now apply Hall].
  destruct (search_found _ _ _ Hip) as [s1 Hs1].
  destruct (search_found _ _ _ Hmac) as [s2 Hs2].
  split; cbn [fst snd].
  - exact (ip_at_dotted_quad s1 ip Hs1).
  - apply normalize_mac_canonical.
    exact (match_classes_conforms _ _ _ Hs2).
Qed.

Lemma read_lines_normalized lines :
  forall table,
    NoDup (keys table) /\ Forall normalized_row table ->
    NoDup (keys (fold_left ArpTable.read_line lines table)) /\
    Forall normalized_row (fold_left ArpTable.read_line lines table).
Proof.
  induction lines as [|line lines IH]; intros table Hinv; [exact Hinv|].
  cbn [fold_left]. apply IH. now apply read_line_normalized.
Qed.

Lemma arp_table_rows_normalized_rows run :
  NoDup (keys (ArpTable._get_all_mac_addresses run)) /\
  Forall normalized_row (ArpTable._get_all_mac_addresses run).
Proof.
  unfold ArpTable._get_all_mac_addresses.
  destruct run as [[returncode stdout]|e]; [|split; constructor].
  destruct (returncode =? 0); [|split; constructor].
  apply read_lines_normalized. split; constructor.
Qed.

(** X18. However [arp -a] ended and whatever it printed, the table read
    from it (on macOS/Linux) holds each address once, every address is four
    groups of one to three digits joined by dots, and every MAC is in
    canonical form: six pairs of upper-case hexadecimal digits joined by
    colons. A failed or unsuccessful run gives the empty table. *)
Theorem arp_table_rows_are_normalized :
  forall (run : result (Z * string)),
    NoDup (keys (ArpTable._get_all_mac_addresses run)) /\
    (forall ip mac,
        In (ip, mac) (ArpTable._get_all_mac_addresses run) ->
        dotted_quad ip /\ ArpTable.is_canonical_mac mac = true /\
        String.length mac = 17%nat) /\
    (forall e, ArpTable._get_all_mac_addresses (Raise e) = []) /\
    (forall returncode stdout,
        returncode <> 0 ->
        ArpTable._get_all_mac_addresses (Ok (returncode, stdout)) = []).
Proof.
  intros run.
  destruct (arp_table_rows_normalized_rows run) as [Hnd Hall].
  split; [exact Hnd|]. split.
  - intros ip mac Hin. rewrite Forall_forall in Hall.
    destruct (Hall _ Hin) as [Hq Hc]. cbn [fst snd] in *.
    repeat split; auto.
    clear - Hc. unfold ArpTable.is_canonical_mac, ArpTable.canonical_classes in Hc.
    repeat (destruct mac as [|? mac]; [discriminate Hc|];
            cbn [ArpTable.conforms] in Hc;
            apply andb_true_iff in Hc; destruct Hc as [_ Hc]).
    destruct mac; [reflexivity|discriminate Hc].
  - split; [reflexivity|].
    intros returncode stdout Hrc. unfold ArpTable._get_all_mac_addresses.
    destruct (Z.eqb_spec returncode 0); [contradiction|reflexivity].
Qed.

(** The table read from a Linux listing with three usable lines, one of
    which repeats an address, and one line whose MAC has a one-digit
    group. *)
Example arp_table_of_listing :
  ArpTable._get_all_mac_addresses
    (Ok (0, String.concat (String "010"%char EmptyString)
              [ "gw (192.168.1.1) at a4:2b:b0:12:34:56 [ether] on eth0";
                "? (192.168.1.20) at 0:c:29:12:34:56 on en0";
                "nas (192.168.1.7) at AA-bb-CC-dd-EE-ff [ether] on eth0";
                "gw (192.168.1.1) at 00:11:22:33:44:55 [ether] on eth0";
                "" ]))
  = [ ("192.168.1.1", "00:11:22:33:44:55");
      ("192.168.1.7", "AA:BB:CC:DD:EE:FF") ].
Proof. vm_compute. reflexivity. Qed.

Lemma dict_get_str_in {V} (d : list (string * V)) k v :
  dict_get_str d k = Some v -> In (k, v) d.
Proof.
  induction d as [|[k0 v0] d IH]; simpl; [discriminate|].
  destruct (String.eqb_spec k0 k) as [->|_].
  - intros H. injection H as <-. now left.
  - intros H. right. now apply IH.
Qed.

(** X19. Where the ARP table the scanner consults is the one read from
    [arp -a] (on macOS/Linux), every MAC address in a returned scan result
    is in canonical form, six pairs of upper-case hexadecimal digits joined
    by colons, and belongs to a candidate whose address is four dotted
    groups of digits. *)
Theorem scan_results_carry_canonical_macs :
  forall (w : world) (cfg : Config.t) (run : result (Z * string))
         (target mode : string) (detailed : bool)
         (results : list ScanResult) (r : ScanResult) (mac : string),
    (forall ip,
        arp_table w ip
        = dict_get_str (ArpTable._get_all_mac_addresses run) ip) ->
    scan_network w cfg target mode detailed = Ok results ->
    In r results ->
    mac_address r = Some mac ->
    ArpTable.is_canonical_mac mac = true /\ dotted_quad (ip_address r).
Proof.
  intros w cfg run target mode detailed results r mac Harp Hrun Hin Hmac.
  assert (Hdev : exists devices device,
             NetworkScanner.discover_devices w target = Ok devices /\
             In device devices /\
             ip_address r = Device.ip device /\
             mac_address r = Device.mac device).
  { rewrite scan_network_dispatch in Hrun.
    destruct (String.eqb mode "local" && detailed).
    - destruct (detailed_run_results w cfg target results r Hrun Hin)
        as (devices & device & Hd & Hdev & Hr).
      destruct (_detailed_local_scan_result w cfg device r Hr)
        as (label & found & _ & _ & Hip & Hm & _).
      eauto 6.
    - destruct (discovery_run_results w target results r Hrun Hin)
        as (devices & device & Hd & Hdev & Hr).
      destruct (_discovery_scan_result w device)
        as (r' & label & Hr' & _ & Hip & Hm & _).
      rewrite Hr in Hr'. apply Ok_inj in Hr'. subst r'. eauto 6. }
  destruct Hdev as (devices & device & Hd & Hdev & Hip & Hm).
  rewrite Hm in Hmac. rewrite Hip. clear Hm Hip Hrun Hin.
  unfold NetworkScanner.discover_devices in Hd.
  destruct (nmap_host_states w target) as [hosts|e] eqn:Hprimary;
    cbn [bind try_except] in Hd.
  - rewrite fold_append_up_host in Hd. apply Ok_inj in Hd. subst devices.
    cbn [app] in Hdev. apply in_map_iff in Hdev.
    destruct Hdev as (hs & <- & _). unfold up_host in *.
    cbn [Device.mac Device.ip] in *. rewrite Harp in Hmac.
    apply dict_get_str_in in Hmac.
    destruct (arp_table_rows_normalized_rows run) as [_ Hall].
    rewrite Forall_forall in Hall. destruct (Hall _ Hmac) as [Hq Hc].
    split; assumption.
  - unfold NetworkScanner._ping_discovery, gather in Hd.
    destruct (ip_network_hosts w target) as [addresses|e'];
      cbn [bind] in Hd; [|discriminate Hd].
    rewrite fold_append_device in Hd. apply Ok_inj in Hd. subst devices.
    cbn [app] in Hdev. apply in_map_iff in Hdev.
    destruct Hdev as (ip & <- & _). discriminate Hmac.
Qed.

(** The laboratory ARP table is the one read from a one-line listing, and
    the discovery result of the first host carries its canonical MAC. *)
Lemma scan_results_carry_canonical_macs_witness :
  exists r,
    scan_network (lab_world true) Config.default "10.0.0.1" "discovery" false
    = Ok [r] /\
    mac_address r = Some "00:0C:29:12:34:56" /\
    ArpTable.is_canonical_mac "00:0C:29:12:34:56" = true.
Proof.
  destruct (scan_network (lab_world true) Config.default "10.0.0.1"
                         "discovery" false) as [[|r [|r' rest]]|e] eqn:Hrun;
    try (vm_compute in Hrun; discriminate Hrun).
  assert (Hmac : mac_address r = Some "00:0C:29:12:34:56")
    by (vm_compute in Hrun; apply Ok_inj in Hrun;
        injection Hrun as <-; reflexivity).
  exists r. split; [reflexivity|]. split; [exact Hmac|].
  refine (proj1 (scan_results_carry_canonical_macs
                   (lab_world true) Config.default
                   (Ok (0, "web (10.0.0.1) at 00:0c:29:12:34:56 [ether] on eth0"))
                   "10.0.0.1" "discovery" false [r] r "00:0C:29:12:34:56"
                   _ Hrun (or_introl eq_refl) Hmac)).
  intros ip.
  change (ArpTable._get_all_mac_addresses
            (Ok (0, "web (10.0.0.1) at 00:0c:29:12:34:56 [ether] on eth0")))
    with [("10.0.0.1", "00:0C:29:12:34:56")].
  cbn [arp_table lab_world dict_get_str]. rewrite String.eqb_sym.
  reflexivity.
Defined.

(* ------------------------------------------------------------------ *)
(** ** Naming a protocol from a response *)
(* ------------------------------------------------------------------ *)

Lemma prefix_spec needle hay :
  prefix needle hay = true <-> exists suffix, hay = (needle ++ suffix)%string.
Proof.
  revert hay. induction needle as [|a needle IH]; intros hay.
  - destruct hay; simpl; (split; [eauto|reflexivity]).
  - destruct hay as [|b hay]; simpl;
      [split; [discriminate|intros [s Hs]; discriminate]|].
    destruct (ascii_dec a b) as [->|Hne].
    + rewrite IH. split; intros [s Hs]; exists s; congruence.
    + split; [discriminate|]. intros [s Hs]. congruence.
Qed.

(** [str_in] is the substring relation. *)
Lemma str_in_spec needle hay :
  str_in needle hay = true <->
  exists before after, hay = (before ++ needle ++ after)%string.
Proof.
  induction hay as [|c hay IH]; cbn [str_in].
  - destruct (prefix needle EmptyString) eqn:Hp.
    + split; [|reflexivity]. intros _.
      apply prefix_spec in Hp. destruct Hp as [s Hs].
      exists EmptyString, s. exact Hs.
    + split; [discriminate|]. intros (before & after & H).
      destruct before; [|discriminate].
      assert (prefix needle EmptyString = true)
        by (apply prefix_spec; exists after; exact H).
      congruence.
  - destruct (prefix needle (String c hay)) eqn:Hp.
    + split; [|reflexivity]. intros _.
      apply prefix_spec in Hp. destruct Hp as [s Hs].
      exists EmptyString, s. exact Hs.
    + rewrite IH. split.
      * intros (before & after & H). exists (String c before), after.
        simpl. now rewrite H.
      * intros (before & after & H). destruct before as [|b before].
        -- assert (prefix needle (String c hay) = true)
             by (apply prefix_spec; exists after; exact H).
           congruence.
        -- simpl in H. injection H as _ H. eauto.
Qed.

Lemma append_assoc_str (a b c : string) :
  ((a ++ b) ++ c = a ++ (b ++ c))%string.
Proof. induction a as [|x a IH]; simpl; [reflexivity|now rewrite IH]. Qed.

Lemma str_in_embedded needle hay before after :
  str_in needle hay = true ->
  str_in needle (before ++ hay ++ after)%string = true.
Proof.
  rewrite !str_in_spec. intros (b & a & ->).
  exists (before ++ b)%string, (a ++ after)%string.
  now rewrite !append_assoc_str.
Qed.

(** X20. A response is named by the markers it contains, wherever they
    stand: the name is ['Unknown'] exactly when none of the eight markers
    occurs in the response; it is ['HTTP'] exactly when [HTTP/] occurs,
    whatever else does; and surrounding a response with more bytes never
    turns a named response into ['Unknown'] nor an ['HTTP'] one into
    another. *)
Theorem identify_protocol_by_markers :
  forall (response : string),
    (ProtocolResponse._identify_protocol_from_response response = "Unknown"
     <-> forall marker, In marker ProtocolResponse.markers ->
                        str_in marker response = false) /\
    (ProtocolResponse._identify_protocol_from_response response = "HTTP"
     <-> exists before after,
           response = (before ++ "HTTP/" ++ after)%string) /\
    (forall before after,
        ProtocolResponse._identify_protocol_from_response response
        <> "Unknown" ->
        ProtocolResponse._identify_protocol_from_response
          (before ++ response ++ after)%string <> "Unknown") /\
    (forall before after,
        ProtocolResponse._identify_protocol_from_response response = "HTTP" ->
        ProtocolResponse._identify_protocol_from_response
          (before ++ response ++ after)%string = "HTTP").
Proof.
  assert (Hunknown : forall response,
             ProtocolResponse._identify_protocol_from_response response
             = "Unknown"
             <-> forall marker, In marker ProtocolResponse.markers ->
                                str_in marker response = false).
  { intros response.
    unfold ProtocolResponse._identify_protocol_from_response,
      ProtocolResponse.markers.
    split.
    - intros H marker Hin. simpl in Hin.
      repeat (destruct Hin as [<-|Hin];
              [repeat match type of H with
                      | (if ?c then _ else _) = _ =>
                          destruct c eqn:?; [first [discriminate H|assumption]|]
                      end; try assumption; try reflexivity|]).
      destruct Hin.
    - intros H.
      rewrite !H by (simpl; tauto). reflexivity. }
  assert (Hhttp : forall response,
             ProtocolResponse._identify_protocol_from_response response = "HTTP"
             <-> str_in "HTTP/" response = true).
  { intros response.
    unfold ProtocolResponse._identify_protocol_from_response.
    destruct (str_in "HTTP/" response); [tauto|].
    split; [|discriminate].
    repeat match goal with
           | |- (if ?c then _ else _) = _ -> _ => destruct c
           end; discriminate. }
  intros response. split; [apply Hunknown|]. split.
  - rewrite Hhttp. apply str_in_spec.
  - split.
    + intros before after Hnamed Hun. apply Hnamed. apply Hunknown.
      intros marker Hin.
      destruct (str_in marker response) eqn:Hm; [exfalso|reflexivity].
      pose proof (proj1 (Hunknown _) Hun marker Hin) as Hout.
      pose proof (str_in_embedded marker response before after Hm) as Hemb.
      rewrite Hout in Hemb. discriminate Hemb.
    + intros before after H. apply Hhttp. apply str_in_embedded.
      now apply Hhttp.
Qed.

(* ------------------------------------------------------------------ *)
(** ** A detailed run that completes *)
(* ------------------------------------------------------------------ *)

(** X6. When a ['local'] run with [detailed] set does return, it returns
    one detailed result per discovered candidate, in candidate order, each
    stamped ['local_detailed'] and carrying its candidate's address and
    MAC; and no candidate had the host name [None]. *)
Theorem detailed_run_one_per_host :
  forall (w : world) (cfg : Config.t) (target : string)
         (results : list ScanResult),
    scan_network w cfg target "local" true = Ok results ->
    exists devices,
      NetworkScanner.discover_devices w target = Ok devices /\
      List.length results = List.length devices /\
      map ip_address results = map Device.ip devices /\
      map mac_address results = map Device.mac devices /\
      Forall (fun r => scan_mode r = "local_detailed") results /\
      Forall (fun device => Device.hostname device <> PyNone) devices.
Proof.
  intros w cfg target results Hrun.
  rewrite scan_network_dispatch in Hrun.
  change (String.eqb "local" "local" && true) with true in Hrun.
  cbv iota in Hrun. unfold detailed_run in Hrun. bind_ok Hrun.
  rename a into devices. exists devices. split; [reflexivity|].
  apply for_each_ok in Hrun. clear Hstep.
  induction Hrun as [|device r devices results Hr _ IH].
  - repeat split; constructor.
  - destruct IH as (Hlen & Hips & Hmacs & Hmodes & Hnames).
    destruct (_detailed_local_scan_result w cfg device r Hr)
      as (label & found & _ & _ & Hip & Hmac & _ & _ & _ & _ & Hmode).
    repeat split.
    + simpl. now rewrite Hlen.
    + simpl. now rewrite Hip, Hips.
    + simpl. now rewrite Hmac, Hmacs.
    + constructor; assumption.
    + constructor; [|assumption]. intros Hn.
      destruct (_detailed_local_scan_unset_hostname w cfg device Hn)
        as [e He].
      rewrite He in Hr. discriminate Hr.
Qed.

(** The detailed run over the single named laboratory host returns its one
    result. *)
Lemma detailed_run_one_per_host_witness :
  exists results devices,
    scan_network (lab_world true) Config.default "10.0.0.1" "local" true
    = Ok results /\
    NetworkScanner.discover_devices (lab_world true) "10.0.0.1" = Ok devices /\
    List.length results = List.length devices /\
    map ip_address results = map Device.ip devices.
Proof.
  destruct (scan_network (lab_world true) Config.default "10.0.0.1"
                         "local" true) as [results|e] eqn:Hrun;
    [|vm_compute in Hrun; discriminate Hrun].
  destruct (detailed_run_one_per_host
              (lab_world true) Config.default "10.0.0.1" results Hrun)
    as (devices & Hd & Hlen & Hips & _).
  exists results, devices. repeat split; assumption.
Defined.

(* ------------------------------------------------------------------ *)
(** ** A tie on a host without a name *)
(* ------------------------------------------------------------------ *)

(** C1. The tie-break by priority is promised for every input on which
    patterns tie. A host with port 80 open, no service detected and the
    host name [None] ties all eight patterns: each has 80 in its port list,
    so each scores 2 by the weighted count, whatever name evidence there
    could be, and the router has the lowest priority, 1. Yet the call
    raises [AttributeError], where the same host without the ['hostname']
    key gets ['router']. *)
Theorem classify_device_tie_raises_on_unset_hostname :
  Device.hostname nameless_host = PyNone /\
  _get_open_ports (fast_scan_world [80]) (Device.ip nameless_host)
  = Ok [80] /\
  _get_services (fast_scan_world [80]) (Device.ip nameless_host) = Ok [] /\
  (forall e, In e device_patterns ->
             weighted_score [80] [] "" (snd e) = 2) /\
  declared_priority "router" = Some 1 /\
  (forall label p, declared_priority label = Some p -> 1 <= p) /\
  classify_device (fast_scan_world [80]) nameless_host
  = Raise AttributeError /\
  classify_device (fast_scan_world [80])
                  (Device.mk "10.0.0.9" None Missing "up")
  = Ok "router".
Proof.
  split; [reflexivity|]. split; [reflexivity|]. split; [reflexivity|].
  split.
  { intros e Hin. unfold device_patterns, _load_device_patterns in Hin.
    simpl in Hin.
    repeat (destruct Hin as [<-|Hin]; [vm_compute; reflexivity|]).
    destruct Hin. }
  split; [reflexivity|]. split.
  { intros label p. unfold declared_priority.
    destruct (find (fun e => String.eqb (fst e) label) device_patterns)
      as [e|] eqn:Hfind; [|discriminate].
    apply find_some in Hfind. destruct Hfind as [Hin _].
    intros H. injection H as <-.
    unfold device_patterns, _load_device_patterns in Hin. simpl in Hin.
    repeat (destruct Hin as [<-|Hin]; [simpl; lia|]).
    destruct Hin. }
  split; vm_compute; reflexivity.
Qed.
